(** * jobAnalyzer front end: the streaming analysis session

    A shallow embedding of the session logic of the four front-end variants

    - [App]      : frontend/src/App.jsx (progress stepper, PDF export); its
                   stepper is in [Stepper], the moves of user and browser in
                   [Session],
    - [Chat]     : frontend/src/StreamingChatInterface.jsx, first component
                   ([ChatSession] for its moves); [Legacy] is the second
                   component of that file,
    - [Analysis] : frontend/src/CurriculumAnalysis.jsx, submitting, and
                   [AnalysisView] for viewing (its message handler is left
                   out),
    - [Page]     : the stand-alone HTML page with the [lastCurriculum]
                   variable, and [PageStream] for its event source,

    followed by the properties of the specification that were checked
    against them.

    Conventions of the embedding.
    - A JavaScript string is a [string]; each [ascii] stands for one UTF-16
      code unit in the range 0..255.
    - A JavaScript number is a [Z]: only integer values whose decimal
      rendering is their [String(...)] rendering are covered.
    - The body of a message event is represented by what [JSON.parse] makes of
      it ([event_data]).
    - React state setters are applied in program order; an [async] handler is
      split at its [await]. *)

From Stdlib Require Import ZArith String Ascii List Bool Lia DecimalString.
Import ListNotations.
Set Warnings "-register-all,-at-level-200-changed".
Open Scope string_scope.
Open Scope Z_scope.

(* ================================================================== *)
(** * JavaScript values and the operators the handlers use *)

Module JS.

(** The line feed of the source's ["\n"]. *)
Definition nl : string := String (ascii_of_nat 10) "".

(** A value: [undefined], or what [JSON.parse] builds.  An object is the list
    of its own properties in insertion order. *)
Inductive value : Type :=
| JUndefined
| JNull
| JBool (b : bool)
| JNum (z : Z)
| JStr (s : string)
| JArr (items : list value)
| JObj (fields : list (string * value)).

(** Exceptions, with the [message] of the error object. *)
Inductive exn : Type :=
| Error (message : string)
| SyntaxError (message : string)
| TypeError (message : string).

Definition exn_name (e : exn) : string :=
  match e with
  | Error _ => "Error"
  | SyntaxError _ => "SyntaxError"
  | TypeError _ => "TypeError"
  end.

Definition exn_message (e : exn) : string :=
  match e with Error m | SyntaxError m | TypeError m => m end.

(** [String(err)] of an error object: Error.prototype.toString. *)
Definition exn_to_string (e : exn) : string :=
  if (exn_message e =? "")%string then exn_name e
  else exn_name e ++ ": " ++ exn_message e.

(** The result of evaluating an expression that may throw. *)
Inductive outcome (A : Type) : Type :=
| Returned (a : A)
| Thrown (e : exn).
Arguments Returned {A} a.
Arguments Thrown {A} e.

Definition obind {A B} (c : outcome A) (k : A -> outcome B) : outcome B :=
  match c with
  | Returned a => k a
  | Thrown e => Thrown e
  end.

Declare Scope outcome_scope.
Delimit Scope outcome_scope with outcome.
Notation "'let!' x ':=' c 'in' k" := (obind c (fun x => k))
  (at level 200, x name, c at level 100, k at level 200,
   right associativity) : outcome_scope.
Open Scope outcome_scope.

(** [xs.map(f)] where [f] may throw: elements in order, first throw wins. *)
Fixpoint omap {A B} (f : A -> outcome B) (xs : list A) : outcome (list B) :=
  match xs with
  | [] => Returned []
  | x :: r =>
      let! y := f x in
      let! ys := omap f r in
      Returned (y :: ys)
  end.

(** ToBoolean. *)
Definition truthy (v : value) : bool :=
  match v with
  | JUndefined | JNull => false
  | JBool b => b
  | JNum z => negb (z =? 0)
  | JStr s => negb (s =? "")%string
  | JArr _ | JObj _ => true
  end.

(** [a || b]. *)
Definition or_else (a b : value) : value := if truthy a then a else b.
Infix "|||" := or_else (at level 50, left associativity).

Definition nullish (v : value) : bool :=
  match v with JUndefined | JNull => true | _ => false end.

(** An own property of an object built by [JSON.parse]; a repeated key keeps
    its last value. *)
Fixpoint lookup (k : string) (fs : list (string * value)) : value :=
  match fs with
  | [] => JUndefined
  | (k', v) :: r =>
      match lookup k r with
      | JUndefined => if (k =? k')%string then v else JUndefined
      | later => later
      end
  end.

Fixpoint has_key (k : string) (fs : list (string * value)) : bool :=
  match fs with
  | [] => false
  | (k', _) :: r => (k =? k')%string || has_key k r
  end.

(** [v.k] for a [v] already known to be neither [null] nor [undefined], and a
    key [k] that no built-in prototype defines (true of every key the handlers
    read: step, data, message, error, missing_skills, job_market_skills, title,
    company, location, source_platform, posted_date, salary, job_url). *)
Definition field (k : string) (v : value) : value :=
  match v with
  | JObj fs => lookup k fs
  | _ => JUndefined
  end.

(** [v.k]: reading a property of [null] or [undefined] throws. *)
Definition get (v : value) (k : string) : outcome value :=
  match v with
  | JUndefined =>
      Thrown (TypeError ("Cannot read properties of undefined (reading '" ++ k ++ "')"))
  | JNull =>
      Thrown (TypeError ("Cannot read properties of null (reading '" ++ k ++ "')"))
  | _ => Returned (field k v)
  end.

(** [v?.k]. *)
Definition get_opt (v : value) (k : string) : value :=
  if nullish v then JUndefined else field k v.

(** [v === "lit"]. *)
Definition is_str (lit : string) (v : value) : bool :=
  match v with
  | JStr s => (s =? lit)%string
  | _ => false
  end.

(** [Array.isArray(v)]. *)
Definition isArray (v : value) : bool :=
  match v with JArr _ => true | _ => false end.

(** [typeof v === "object"]. *)
Definition typeof_object (v : value) : bool :=
  match v with JNull | JArr _ | JObj _ => true | _ => false end.

(** SameValueZero, the comparison of [Array.prototype.includes].  Two objects
    or arrays are the same only if they are one allocation; the values
    compared by the handlers come from separate [JSON.parse] calls, hence
    [false]. *)
Definition sameValueZero (x y : value) : bool :=
  match x, y with
  | JUndefined, JUndefined => true
  | JNull, JNull => true
  | JBool a, JBool b => Bool.eqb a b
  | JNum a, JNum b => (a =? b)%Z
  | JStr a, JStr b => (a =? b)%string
  | _, _ => false
  end.

(** [xs.includes(x)]. *)
Definition includes (xs : list value) (x : value) : bool :=
  existsb (fun y => sameValueZero y x) xs.

Definition string_of_Z (z : Z) : string := NilZero.string_of_int (Z.to_int z).

(** ToString, as performed by [+] with a string and by a template literal.
    A plain object prints as [[object Object]] unless an own property shadows
    [toString], in which case the conversion throws; an array prints its
    elements separated by commas, [null] and [undefined] printing empty. *)
Fixpoint to_string (v : value) : outcome string :=
  match v with
  | JUndefined => Returned "undefined"
  | JNull => Returned "null"
  | JBool true => Returned "true"
  | JBool false => Returned "false"
  | JNum z => Returned (string_of_Z z)
  | JStr s => Returned s
  | JArr items =>
      let! parts :=
        (fix each (l : list value) : outcome (list string) :=
           match l with
           | [] => Returned []
           | x :: r =>
               let! sx := (if nullish x then Returned "" else to_string x) in
               let! sr := each r in
               Returned (sx :: sr)
           end) items in
      Returned (String.concat "," parts)
  | JObj fs =>
      if has_key "toString" fs
      then Thrown (TypeError "Cannot convert object to primitive value")
      else Returned "[object Object]"
  end.

(** One element of [Array.prototype.join]. *)
Definition join_element (x : value) : outcome string :=
  if nullish x then Returned "" else to_string x.

(** [xs.join(sep)]. *)
Definition join (sep : string) (xs : list value) : outcome string :=
  let! parts := omap join_element xs in
  Returned (String.concat sep parts).

(** White space of [String.prototype.trim] among the code units 0..255:
    TAB, LF, VT, FF, CR, SP and NBSP. *)
Definition is_white_space (c : ascii) : bool :=
  let n := nat_of_ascii c in
  ((n =? 9) || (n =? 10) || (n =? 11) || (n =? 12) || (n =? 13)
   || (n =? 32) || (n =? 160))%nat.

Fixpoint trimStart (s : string) : string :=
  match s with
  | EmptyString => EmptyString
  | String c r => if is_white_space c then trimStart r else s
  end.

Fixpoint trimEnd (s : string) : string :=
  match s with
  | EmptyString => EmptyString
  | String c r =>
      match trimEnd r with
      | EmptyString => if is_white_space c then EmptyString else String c EmptyString
      | r' => String c r'
      end
  end.

(** [s.trim()]. *)
Definition trim (s : string) : string := trimEnd (trimStart s).

(** The character class of the regular expression [/[#*_`>-]/g]. *)
Definition is_markup (c : ascii) : bool :=
  let n := nat_of_ascii c in
  ((n =? 35) || (n =? 42) || (n =? 95) || (n =? 96) || (n =? 62) || (n =? 45))%nat.

(** [s.replace(/[#*_`>-]/g, "")]. *)
Fixpoint strip_markup (s : string) : string :=
  match s with
  | EmptyString => EmptyString
  | String c r => if is_markup c then strip_markup r else String c (strip_markup r)
  end.

(** Characters [encodeURIComponent] leaves alone: letters, digits and
    [- _ . ! ~ * ' ( )]. *)
Definition is_unreserved (c : ascii) : bool :=
  let n := nat_of_ascii c in
  ((65 <=? n) && (n <=? 90) || (97 <=? n) && (n <=? 122) || (48 <=? n) && (n <=? 57)
   || (n =? 45) || (n =? 95) || (n =? 46) || (n =? 33) || (n =? 126)
   || (n =? 42) || (n =? 39) || (n =? 40) || (n =? 41))%nat.

Definition hex_digit (n : nat) : ascii :=
  ascii_of_nat (if (n <? 10)%nat then 48 + n else 55 + n)%nat.

Definition percent (byte : nat) : string :=
  String "%" (String (hex_digit (byte / 16)) (String (hex_digit (byte mod 16)) "")).

(** [xs.findIndex(p)], counting from [i]. *)
Fixpoint findIndex_from {A} (p : A -> bool) (xs : list A) (i : Z) : Z :=
  match xs with
  | [] => -1
  | x :: r => if p x then i else findIndex_from p r (i + 1)
  end.

Definition findIndex {A} (p : A -> bool) (xs : list A) : Z := findIndex_from p xs 0.

(** [encodeURIComponent(s)]: every other code unit is escaped as the bytes of
    its UTF-8 encoding (one byte below 128, two from 128 to 255). *)
Fixpoint encodeURIComponent (s : string) : string :=
  match s with
  | EmptyString => EmptyString
  | String c r =>
      let n := nat_of_ascii c in
      (if is_unreserved c then String c EmptyString
       else if (n <? 128)%nat then percent n
       else percent (192 + n / 64) ++ percent (128 + n mod 64))
      ++ encodeURIComponent r
  end.

End JS.

(* ================================================================== *)
(** * Handlers: state, exceptions, [try]/[catch] *)

Module Handler.
Import JS.

(** A handler body runs on the component's state and either returns or
    throws; what it wrote before throwing stays written. *)
Definition M (S A : Type) : Type := S -> outcome A * S.

Definition ret {S A} (a : A) : M S A := fun s => (Returned a, s).

Definition bind {S A B} (c : M S A) (k : A -> M S B) : M S B :=
  fun s =>
    match c s with
    | (Returned a, s') => k a s'
    | (Thrown e, s') => (Thrown e, s')
    end.

Definition throw {S A} (e : exn) : M S A := fun s => (Thrown e, s).

Definition lift {S A} (c : outcome A) : M S A := fun s => (c, s).

Definition gets {S A} (f : S -> A) : M S A := fun s => (Returned (f s), s).

Definition modify {S} (f : S -> S) : M S unit := fun s => (Returned tt, f s).

(** [try { body } catch (e) { handler e }]. *)
Definition try_catch {S A} (body : M S A) (handler : exn -> M S A) : M S A :=
  fun s =>
    match body s with
    | (Returned a, s') => (Returned a, s')
    | (Thrown e, s') => handler e s'
    end.

(** [if (c) { body }]. *)
Definition when {S} (c : bool) (body : M S unit) : M S unit :=
  if c then body else ret tt.

(** The state a handler leaves behind. *)
Definition exec {S A} (c : M S A) (s : S) : S := snd (c s).

Declare Scope handler_scope.
Delimit Scope handler_scope with handler.
Notation "x <- c ;; k" := (bind c (fun x => k))
  (at level 100, c at next level, right associativity) : handler_scope.
Notation "c ;; k" := (bind c (fun _ => k))
  (at level 100, right associativity) : handler_scope.

(** The body of a message event, as [JSON.parse] sees it: text that is not
    JSON (with the message of the [SyntaxError]), or the value it denotes. *)
Inductive event_data : Type :=
| Unparsable (message : string)
| Parsed (v : value).

Definition JSON_parse {S} (data : event_data) : M S value :=
  match data with
  | Unparsable m => throw (SyntaxError m)
  | Parsed v => ret v
  end.

(** What [await fetch(...)] produces: a response with its status, or a
    rejection. *)
Inductive fetch_result : Type :=
| Response (status : Z)
| Rejected (err : exn).

(** [res.ok]. *)
Definition ok (status : Z) : bool := (200 <=? status) && (status <=? 299).

(** A POST issued by [fetch], by its URL and the [curriculum_text] of its
    JSON body. *)
Record Request : Type := { req_url : string; curriculum_text : string }.

(** An [EventSource] object: its URL and whether [close()] was called. *)
Record EventSource : Type := { url : string; closed : bool }.

Definition close_at (es : nat) (sources : list EventSource) : list EventSource :=
  match nth_error sources es with
  | Some e =>
      (firstn es sources ++ {| url := url e; closed := true |} :: skipn (S es) sources)%list
  | None => sources
  end.

(** Whether the browser still delivers events of source [es]. *)
Definition is_open (es : nat) (sources : list EventSource) : bool :=
  match nth_error sources es with
  | Some e => negb (closed e)
  | None => false
  end.

End Handler.

(* ================================================================== *)
(** * frontend/src/App.jsx *)

Module App.
Import JS Handler.
Open Scope handler_scope.

Definition BACKEND_URL : string := "http://localhost:8000/api/jobs/complete-analysis/".

(** The step catalog: [key] and [label]. *)
Definition STEPS : list (string * string) :=
  [ ("extracting_skills", "Analyzing your curriculum...");
    ("skills_extracted", "Skills extracted");
    ("identifying_roles", "Identifying relevant job roles...");
    ("roles_identified", "Roles identified");
    ("fetching_jobs", "Fetching relevant job listings...");
    ("jobs_fetched", "Jobs fetched");
    ("generating_summary", "Analyzing job requirements...");
    ("summary_generated", "Job summary generated");
    ("analyzing_gaps", "Analyzing skill gaps...");
    ("gaps_analyzed", "Skill gaps analyzed");
    ("generating_projects", "Generating project recommendations...");
    ("major_project_generated", "Major project generated");
    ("mini_projects_generated", "Mini projects generated");
    ("complete", "Analysis complete!") ].

(** A timeline entry [{ type, step, content }]; an entry written without a
    [step] has [step = undefined]. *)
Record Msg : Type := { type : string; step : value; content : value }.

(** The component's [useState] cells, and the part of the browser its
    handlers act on: the requests sent and the event sources created. *)
Record State : Type := {
  curriculum : string;
  submitted : bool;
  streaming : bool;
  messages : list Msg;
  progress : list value;
  requests : list Request;
  sources : list EventSource
}.

Definition setCurriculum (v : string) : M State unit :=
  modify (fun s => {| curriculum := v; submitted := submitted s; streaming := streaming s;
                      messages := messages s; progress := progress s;
                      requests := requests s; sources := sources s |}).

Definition setSubmitted (v : bool) : M State unit :=
  modify (fun s => {| curriculum := curriculum s; submitted := v; streaming := streaming s;
                      messages := messages s; progress := progress s;
                      requests := requests s; sources := sources s |}).

Definition setStreaming (v : bool) : M State unit :=
  modify (fun s => {| curriculum := curriculum s; submitted := submitted s; streaming := v;
                      messages := messages s; progress := progress s;
                      requests := requests s; sources := sources s |}).

(** [setMessages(f)], [f] the updater; [setMessages(v)] is [setMessages (fun _ => v)]. *)
Definition setMessages (f : list Msg -> list Msg) : M State unit :=
  modify (fun s => {| curriculum := curriculum s; submitted := submitted s;
                      streaming := streaming s;
                      messages := f (messages s); progress := progress s;
                      requests := requests s; sources := sources s |}).

Definition setProgress (f : list value -> list value) : M State unit :=
  modify (fun s => {| curriculum := curriculum s; submitted := submitted s;
                      streaming := streaming s;
                      messages := messages s; progress := f (progress s);
                      requests := requests s; sources := sources s |}).

(** [fetch(u, { method: "POST", body: JSON.stringify({ curriculum_text }) })],
    up to the point where the request has left. *)
Definition fetch_POST (u text : string) : M State unit :=
  modify (fun s => {| curriculum := curriculum s; submitted := submitted s;
                      streaming := streaming s;
                      messages := messages s; progress := progress s;
                      requests := (requests s ++ [{| req_url := u; curriculum_text := text |}])%list;
                      sources := sources s |}).

(** [new EventSource(u)]; the result names the new source by its position. *)
Definition new_EventSource (u : string) : M State nat :=
  fun s =>
    (Returned (length (sources s)),
     {| curriculum := curriculum s; submitted := submitted s; streaming := streaming s;
        messages := messages s; progress := progress s; requests := requests s;
        sources := (sources s ++ [{| url := u; closed := false |}])%list |}).

(** [eventSource.close()]. *)
Definition close (es : nat) : M State unit :=
  modify (fun s => {| curriculum := curriculum s; submitted := submitted s;
                      streaming := streaming s;
                      messages := messages s; progress := progress s;
                      requests := requests s; sources := close_at es (sources s) |}).

(** ** handleSubmit *)

(** Up to [await fetch(...)]: [true] when the request was sent. *)
Definition handleSubmit_begin : M State bool :=
  curriculum <- gets curriculum ;;
  if (trim curriculum =? "")%string then ret false
  else
    setMessages (fun _ => []) ;;
    setProgress (fun _ => []) ;;
    setSubmitted false ;;
    setStreaming false ;;
    fetch_POST BACKEND_URL curriculum ;;
    ret true.

(** From the [await] on. *)
Definition handleSubmit_resume (r : fetch_result) : M State unit :=
  try_catch
    (match r with
     | Rejected err => throw err
     | Response status =>
         if negb (ok status) then
           setMessages (fun _ =>
             [{| type := "error"; step := JUndefined;
                 content := JStr ("POST failed: " ++ string_of_Z status) |}])
         else setSubmitted true
     end)
    (fun err =>
       setMessages (fun _ =>
         [{| type := "error"; step := JUndefined;
             content := JStr ("Error: " ++ exn_to_string err) |}])).

Definition handleSubmit (r : fetch_result) : M State unit :=
  sent <- handleSubmit_begin ;;
  when sent (handleSubmit_resume r).

(** ** handleView and the handlers of its event source *)

(** [let msgType], after the chain of tests on [parsed.step] and
    [parsed.error]. *)
Definition msgType (parsed : value) : string :=
  if is_str "summary_generated" (field "step" parsed)
     || is_str "major_project_generated" (field "step" parsed)
     || is_str "mini_projects_generated" (field "step" parsed)
  then "markdown"
  else if is_str "skills_extracted" (field "step" parsed)
          || is_str "roles_identified" (field "step" parsed)
          || is_str "gaps_analyzed" (field "step" parsed)
  then "list"
  else if is_str "jobs_fetched" (field "step" parsed) then "jobs"
  else if truthy (field "error" parsed) then "error"
  else "text".

(** The [content:] expression of the appended entry. *)
Definition content_of (msgType : string) (parsed : value) : value :=
  if (msgType =? "list")%string then
    if isArray (field "data" parsed) then field "data" parsed
    else get_opt (field "data" parsed) "missing_skills"
         ||| get_opt (field "data" parsed) "job_market_skills"
         ||| JArr []
  else field "data" parsed ||| field "message" parsed ||| field "error" parsed.

(** The entry appended for [parsed]. *)
Definition entry (parsed : value) : Msg :=
  {| type := msgType parsed;
     step := field "step" parsed;
     content := content_of (msgType parsed) parsed |}.

Definition parse_error_entry : Msg :=
  {| type := "error"; step := JUndefined; content := JStr "Error parsing stream data." |}.

Definition stream_error_entry : Msg :=
  {| type := "error"; step := JUndefined; content := JStr "[Stream ended or error occurred]" |}.

(** [eventSource.onmessage]. *)
Definition onmessage (eventSource : nat) (data : event_data) : M State unit :=
  try_catch
    (parsed <- JSON_parse data ;;
     _ <- lift (get parsed "step") ;;
     setMessages (fun prev => (prev ++ [entry parsed])%list) ;;
     when (truthy (field "step" parsed))
       (setProgress (fun prev =>
          if includes prev (field "step" parsed) then prev
          else (prev ++ [field "step" parsed])%list)) ;;
     when (is_str "complete" (field "step" parsed) || truthy (field "error" parsed))
       (close eventSource ;; setStreaming false))
    (fun _ =>
       setMessages (fun prev => (prev ++ [parse_error_entry])%list) ;;
       close eventSource ;;
       setStreaming false).

(** [eventSource.onerror]. *)
Definition onerror (eventSource : nat) : M State unit :=
  setMessages (fun prev => (prev ++ [stream_error_entry])%list) ;;
  close eventSource ;;
  setStreaming false.

Definition handleView : M State nat :=
  curriculum <- gets curriculum ;;
  setMessages (fun _ => []) ;;
  setStreaming true ;;
  setProgress (fun _ => []) ;;
  new_EventSource (BACKEND_URL ++ "?curriculum_text=" ++ encodeURIComponent curriculum).

(** ** The browser and the user *)

(** A message event of source [es]: a closed source dispatches nothing. *)
Definition dispatch_message (es : nat) (data : event_data) : M State unit :=
  open <- gets (fun s => is_open es (sources s)) ;;
  when open (onmessage es data).

Definition dispatch_error (es : nat) : M State unit :=
  open <- gets (fun s => is_open es (sources s)) ;;
  when open (onerror es).

(** The events of source [es], in the order of their arrival. *)
Definition receive (es : nat) (datas : list event_data) (s : State) : State :=
  fold_left (fun s data => exec (dispatch_message es data) s) datas s.

(** Typing in the textarea, which is disabled while streaming. *)
Definition onChange (text : string) : M State unit :=
  disabled <- gets streaming ;;
  when (negb disabled) (setCurriculum text).

(** The Analyze button, disabled while streaming. *)
Definition click_Analyze (r : fetch_result) : M State unit :=
  disabled <- gets streaming ;;
  when (negb disabled) (handleSubmit r).

(** The View Results button, disabled unless submitted and not streaming. *)
Definition click_ViewResults : M State unit :=
  disabled <- gets (fun s => negb (submitted s) || streaming s) ;;
  when (negb disabled) (handleView ;; ret tt).

(** The component as first rendered. *)
Definition initial : State :=
  {| curriculum := ""; submitted := false; streaming := false;
     messages := []; progress := []; requests := []; sources := [] |}.

(** ** getAnalysisText *)

Definition header : string :=
  "Title | Company | Location | Source | Posted | Salary | Link" ++ nl ++
  "----- | ------- | -------- | ------ | ------ | ------ | ----".

(** [msg.step ? msg.step + suffix : ""]. *)
Definition step_prefix (msg : Msg) (suffix : string) : outcome string :=
  if truthy (step msg)
  then (let! s := to_string (step msg) in Returned (s ++ suffix))%outcome
  else Returned "".

(** The row of one [job]. *)
Definition job_row (job : value) : outcome string :=
  (let! title := get job "title" in
   let! company := get job "company" in
   let! location := get job "location" in
   let! source_platform := get job "source_platform" in
   let! posted_date := get job "posted_date" in
   let! salary := get job "salary" in
   let! job_url := get job "job_url" in
   join " | " [title; company; location; source_platform; posted_date; salary; job_url])%outcome.

(** [msg.content.replace(...)]: only a string has the method. *)
Definition content_replace (c : value) : outcome string :=
  match c with
  | JStr s => Returned (strip_markup s)
  | JUndefined => Thrown (TypeError "Cannot read properties of undefined (reading 'replace')")
  | JNull => Thrown (TypeError "Cannot read properties of null (reading 'replace')")
  | _ => Thrown (TypeError "msg.content.replace is not a function")
  end.

(** [msg.content.map(f)]: only an array has the method. *)
Definition content_map {B} (c : value) (f : value -> outcome B) : outcome (list B) :=
  match c with
  | JArr items => omap f items
  | JUndefined => Thrown (TypeError "Cannot read properties of undefined (reading 'map')")
  | JNull => Thrown (TypeError "Cannot read properties of null (reading 'map')")
  | _ => Thrown (TypeError "msg.content.map is not a function")
  end.

(** The test of the jobs branch. *)
Definition is_jobs_table (msg : Msg) : bool :=
  is_str "jobs_fetched" (step msg)
  && match content msg with
     | JArr (first :: _) => typeof_object first
     | _ => false
     end.

(** The callback of [messages.map]. *)
Definition format_msg (msg : Msg) : outcome string :=
  (if (type msg =? "markdown")%string then
     let! stripped := content_replace (content msg) in
     Returned (trim stripped)
   else if (type msg =? "list")%string then
     let! label := step_prefix msg (":" ++ nl) in
     let! lines := content_map (content msg)
                     (fun item => let! s := to_string item in Returned ("- " ++ s)) in
     Returned (label ++ String.concat nl lines)
   else if is_jobs_table msg then
     let! rows := content_map (content msg) job_row in
     let! label := step_prefix msg (":" ++ nl) in
     Returned (label ++ header ++ nl ++ String.concat nl rows)
   else if (type msg =? "error")%string then
     let! c := to_string (content msg) in
     Returned ("Error: " ++ c)
   else
     let! label := step_prefix msg ": " in
     let! c := to_string (content msg) in
     Returned (label ++ c))%outcome.

Definition separator : string := nl ++ nl ++ "---" ++ nl ++ nl.

Definition getAnalysisText (s : State) : outcome string :=
  (let! parts := omap format_msg (messages s) in
   Returned (String.concat separator parts))%outcome.

(** ** currentStepIdx *)

Definition currentStepIdx (s : State) : Z :=
  match progress s with
  | [] => 0
  | _ => findIndex (fun st => is_str (fst st) (last (progress s) JUndefined)) STEPS
  end.

End App.

(* ================================================================== *)
(** * frontend/src/StreamingChatInterface.jsx, the chat component *)

Module Chat.
Import JS Handler.
Open Scope handler_scope.

(** A chat message [{ id, sender, type, content, step }]; [step] is
    [undefined] when the property was not set. *)
Record Msg : Type := {
  id : Z;
  sender : string;
  type : string;
  content : value;
  step : value
}.

(** The [backendUrl] prop, the [useState] cells, and the browser. *)
Record State : Type := {
  backendUrl : string;
  inputValue : string;
  messages : list Msg;
  eventSourceInstance : option nat;
  requests : list Request;
  sources : list EventSource
}.

Definition setInputValue (v : string) : M State unit :=
  modify (fun s => {| backendUrl := backendUrl s; inputValue := v; messages := messages s;
                      eventSourceInstance := eventSourceInstance s;
                      requests := requests s; sources := sources s |}).

Definition setMessages (f : list Msg -> list Msg) : M State unit :=
  modify (fun s => {| backendUrl := backendUrl s; inputValue := inputValue s;
                      messages := f (messages s);
                      eventSourceInstance := eventSourceInstance s;
                      requests := requests s; sources := sources s |}).

Definition fetch_POST (u text : string) : M State unit :=
  modify (fun s => {| backendUrl := backendUrl s; inputValue := inputValue s;
                      messages := messages s;
                      eventSourceInstance := eventSourceInstance s;
                      requests := (requests s ++ [{| req_url := u; curriculum_text := text |}])%list;
                      sources := sources s |}).

Definition new_EventSource (u : string) : M State nat :=
  fun s =>
    (Returned (length (sources s)),
     {| backendUrl := backendUrl s; inputValue := inputValue s; messages := messages s;
        eventSourceInstance := eventSourceInstance s; requests := requests s;
        sources := (sources s ++ [{| url := u; closed := false |}])%list |}).

Definition close (es : nat) : M State unit :=
  modify (fun s => {| backendUrl := backendUrl s; inputValue := inputValue s;
                      messages := messages s;
                      eventSourceInstance := eventSourceInstance s;
                      requests := requests s; sources := close_at es (sources s) |}).

Definition same_instance (a b : option nat) : bool :=
  match a, b with
  | None, None => true
  | Some x, Some y => (x =? y)%nat
  | _, _ => false
  end.

(** [setEventSourceInstance(v)], with the cleanup of the effect that depends
    on the cell: when the value changes, the previous instance is closed. *)
Definition setEventSourceInstance (v : option nat) : M State unit :=
  previous <- gets eventSourceInstance ;;
  modify (fun s => {| backendUrl := backendUrl s; inputValue := inputValue s;
                      messages := messages s; eventSourceInstance := v;
                      requests := requests s; sources := sources s |}) ;;
  match previous with
  | Some es => when (negb (same_instance previous v)) (close es)
  | None => ret tt
  end.

(** [botMessage] after the tests on [parsedData.step] and
    [parsedData.message]; [now] is the value of [Date.now()]. *)
Definition botMessage (now : Z) (parsedData : value) : outcome Msg :=
  (let! kind_content :=
     if is_str "skills_extracted" (field "step" parsedData)
        || is_str "roles_identified" (field "step" parsedData)
        || is_str "gaps_analyzed" (field "step" parsedData)
     then
       if isArray (field "data" parsedData)
       then Returned ("list", field "data" parsedData)
       else
         let! missing_skills := get (field "data" parsedData) "missing_skills" in
         Returned ("list",
                   missing_skills
                   ||| field "job_market_skills" (field "data" parsedData)
                   ||| JArr [])
     else if is_str "summary_generated" (field "step" parsedData)
             || is_str "major_project_generated" (field "step" parsedData)
             || is_str "mini_projects_generated" (field "step" parsedData)
     then Returned ("markdown", field "data" parsedData)
     else if truthy (field "message" parsedData)
     then Returned ("text", field "message" parsedData)
     else Returned ("text", JStr "") in
   Returned {| id := now; sender := "bot";
               type := fst kind_content; content := snd kind_content;
               step := if truthy (field "step" parsedData)
                       then field "step" parsedData else JUndefined |})%outcome.

(** [es.onmessage]. *)
Definition onmessage (es : nat) (now : Z) (data : event_data) : M State unit :=
  try_catch
    (parsedData <- JSON_parse data ;;
     _ <- lift (get parsedData "step") ;;
     message <- lift (botMessage now parsedData) ;;
     setMessages (fun prevMessages => (prevMessages ++ [message])%list) ;;
     when (is_str "complete" (field "step" parsedData))
       (close es ;; setEventSourceInstance None))
    (fun error =>
       setMessages (fun prevMessages =>
         (prevMessages ++
          [{| id := now; sender := "bot"; type := "error";
              content := JStr ("Error processing message: " ++ exn_message error);
              step := JUndefined |}])%list)).

(** [es.onerror]. *)
Definition onerror (es : nat) (now : Z) : M State unit :=
  setMessages (fun prevMessages =>
    (prevMessages ++
     [{| id := now; sender := "bot"; type := "error";
         content := JStr "Connection error or stream ended."; step := JUndefined |}])%list) ;;
  close es ;;
  setEventSourceInstance None.

(** [handleSubmit] up to [await fetch(...)]: the [currentInput] it goes on
    with when the request was sent. *)
Definition handleSubmit_begin (now : Z) : M State (option string) :=
  inputValue <- gets inputValue ;;
  if (trim inputValue =? "")%string then ret None
  else
    setMessages (fun prevMessages =>
      (prevMessages ++
       [{| id := now; sender := "user"; type := "text";
           content := JStr inputValue; step := JUndefined |}])%list) ;;
    setInputValue "" ;;
    instance <- gets eventSourceInstance ;;
    match instance with Some es => close es | None => ret tt end ;;
    backendUrl <- gets backendUrl ;;
    fetch_POST backendUrl inputValue ;;
    ret (Some inputValue).

(** From the [await] on. *)
Definition handleSubmit_resume (currentInput : string) (now : Z) (r : fetch_result)
  : M State unit :=
  try_catch
    (match r with
     | Rejected err => throw err
     | Response status =>
         if negb (ok status)
         then throw (Error ("HTTP error! status: " ++ string_of_Z status))
         else
           backendUrl <- gets backendUrl ;;
           es <- new_EventSource
                   (backendUrl ++ "?curriculum_text=" ++ encodeURIComponent currentInput) ;;
           setEventSourceInstance (Some es)
     end)
    (fun error =>
       setMessages (fun prevMessages =>
         (prevMessages ++
          [{| id := now; sender := "bot"; type := "error";
              content := JStr ("Error: " ++ exn_message error);
              step := JUndefined |}])%list)).

(** [now] and [later] are the values of the two [Date.now()] calls. *)
Definition handleSubmit (now later : Z) (r : fetch_result) : M State unit :=
  sent <- handleSubmit_begin now ;;
  match sent with
  | Some currentInput => handleSubmit_resume currentInput later r
  | None => ret tt
  end.

Definition dispatch_message (es : nat) (now : Z) (data : event_data) : M State unit :=
  open <- gets (fun s => is_open es (sources s)) ;;
  when open (onmessage es now data).

(** The component as first rendered, with the default [backendUrl]. *)
Definition initial : State :=
  {| backendUrl := "http://localhost:8000/api/jobs/complete-analysis/";
     inputValue := ""; messages := []; eventSourceInstance := None;
     requests := []; sources := [] |}.

End Chat.

(* ================================================================== *)
(** * frontend/src/CurriculumAnalysis.jsx: submitting *)

Module Analysis.
Import JS Handler.
Open Scope handler_scope.

Definition BACKEND_URL : string := "http://localhost:8000/api/jobs/complete-analysis/".

(** An output item: [{ type, data }], or [{ type: "error", text }]. *)
Record Item : Type := { type : string; data : value; text : value }.

Record State : Type := {
  curriculum : string;
  output : list Item;
  loading : bool;
  submitted : bool;
  eventSourceRef : option nat;
  requests : list Request;
  sources : list EventSource
}.

Definition setOutput (f : list Item -> list Item) : M State unit :=
  modify (fun s => {| curriculum := curriculum s; output := f (output s);
                      loading := loading s; submitted := submitted s;
                      eventSourceRef := eventSourceRef s;
                      requests := requests s; sources := sources s |}).

Definition setLoading (v : bool) : M State unit :=
  modify (fun s => {| curriculum := curriculum s; output := output s;
                      loading := v; submitted := submitted s;
                      eventSourceRef := eventSourceRef s;
                      requests := requests s; sources := sources s |}).

Definition setSubmitted (v : bool) : M State unit :=
  modify (fun s => {| curriculum := curriculum s; output := output s;
                      loading := loading s; submitted := v;
                      eventSourceRef := eventSourceRef s;
                      requests := requests s; sources := sources s |}).

Definition fetch_POST (u text : string) : M State unit :=
  modify (fun s => {| curriculum := curriculum s; output := output s;
                      loading := loading s; submitted := submitted s;
                      eventSourceRef := eventSourceRef s;
                      requests := (requests s ++ [{| req_url := u; curriculum_text := text |}])%list;
                      sources := sources s |}).

Definition error_item (t : string) : Item :=
  {| type := "error"; data := JUndefined; text := JStr t |}.

Definition handleSubmit_begin : M State bool :=
  curriculum <- gets curriculum ;;
  if (trim curriculum =? "")%string then ret false
  else
    setLoading true ;;
    setOutput (fun _ => []) ;;
    setSubmitted false ;;
    fetch_POST BACKEND_URL curriculum ;;
    ret true.

Definition handleSubmit_resume (r : fetch_result) : M State unit :=
  try_catch
    (match r with
     | Rejected err => throw err
     | Response status =>
         if negb (ok status) then
           setOutput (fun _ => [error_item ("POST failed: " ++ string_of_Z status)]) ;;
           setLoading false
         else
           setSubmitted true ;;
           setLoading false
     end)
    (fun err =>
       setOutput (fun _ => [error_item ("Error: " ++ exn_to_string err)]) ;;
       setLoading false).

Definition handleSubmit (r : fetch_result) : M State unit :=
  sent <- handleSubmit_begin ;;
  when sent (handleSubmit_resume r).

End Analysis.

(* ================================================================== *)
(** * The stand-alone page: the Submit and View Analysis buttons *)

Module Page.
Import JS Handler.
Open Scope handler_scope.

Definition BACKEND_URL : string := "http://localhost:8000/api/jobs/complete-analysis/".

(** The textarea's value, the text of the output element, the [disabled]
    attribute of the view button, the script's [lastCurriculum], and the
    browser (alerts shown, requests sent, event sources created). *)
Record State : Type := {
  curriculum_value : string;
  output_textContent : string;
  viewBtn_disabled : bool;
  lastCurriculum : string;
  alerts : list string;
  requests : list Request;
  sources : list EventSource
}.

Definition set_value (v : string) : M State unit :=
  modify (fun s => {| curriculum_value := v; output_textContent := output_textContent s;
                      viewBtn_disabled := viewBtn_disabled s;
                      lastCurriculum := lastCurriculum s; alerts := alerts s;
                      requests := requests s; sources := sources s |}).

Definition set_output (v : string) : M State unit :=
  modify (fun s => {| curriculum_value := curriculum_value s; output_textContent := v;
                      viewBtn_disabled := viewBtn_disabled s;
                      lastCurriculum := lastCurriculum s; alerts := alerts s;
                      requests := requests s; sources := sources s |}).

Definition set_disabled (v : bool) : M State unit :=
  modify (fun s => {| curriculum_value := curriculum_value s;
                      output_textContent := output_textContent s;
                      viewBtn_disabled := v;
                      lastCurriculum := lastCurriculum s; alerts := alerts s;
                      requests := requests s; sources := sources s |}).

Definition set_lastCurriculum (v : string) : M State unit :=
  modify (fun s => {| curriculum_value := curriculum_value s;
                      output_textContent := output_textContent s;
                      viewBtn_disabled := viewBtn_disabled s;
                      lastCurriculum := v; alerts := alerts s;
                      requests := requests s; sources := sources s |}).

Definition alert (text : string) : M State unit :=
  modify (fun s => {| curriculum_value := curriculum_value s;
                      output_textContent := output_textContent s;
                      viewBtn_disabled := viewBtn_disabled s;
                      lastCurriculum := lastCurriculum s;
                      alerts := (alerts s ++ [text])%list;
                      requests := requests s; sources := sources s |}).

Definition fetch_POST (u text : string) : M State unit :=
  modify (fun s => {| curriculum_value := curriculum_value s;
                      output_textContent := output_textContent s;
                      viewBtn_disabled := viewBtn_disabled s;
                      lastCurriculum := lastCurriculum s; alerts := alerts s;
                      requests := (requests s ++ [{| req_url := u; curriculum_text := text |}])%list;
                      sources := sources s |}).

Definition new_EventSource (u : string) : M State nat :=
  fun s =>
    (Returned (length (sources s)),
     {| curriculum_value := curriculum_value s;
        output_textContent := output_textContent s;
        viewBtn_disabled := viewBtn_disabled s;
        lastCurriculum := lastCurriculum s; alerts := alerts s;
        requests := requests s;
        sources := (sources s ++ [{| url := u; closed := false |}])%list |}).

(** [submitBtn.onclick] up to [await fetch(...)]: the trimmed [curriculum] it
    goes on with when the request was sent. *)
Definition submitBtn_onclick_begin : M State (option string) :=
  value <- gets curriculum_value ;;
  let curriculum := trim value in
  if (curriculum =? "")%string then
    alert "Please enter your curriculum." ;;
    ret None
  else
    set_output "Submitting..." ;;
    set_disabled true ;;
    fetch_POST BACKEND_URL curriculum ;;
    ret (Some curriculum).

Definition submitBtn_onclick_resume (curriculum : string) (r : fetch_result) : M State unit :=
  try_catch
    (match r with
     | Rejected err => throw err
     | Response status =>
         if negb (ok status) then
           set_output ("POST failed: " ++ string_of_Z status)
         else
           set_lastCurriculum curriculum ;;
           set_output "Submitted! Now click 'View Analysis' to see the results." ;;
           set_disabled false
     end)
    (fun err => set_output ("Error: " ++ exn_to_string err)).

Definition submitBtn_onclick (r : fetch_result) : M State unit :=
  sent <- submitBtn_onclick_begin ;;
  match sent with
  | Some curriculum => submitBtn_onclick_resume curriculum r
  | None => ret tt
  end.

(** [viewBtn.onclick], up to the creation of the event source. *)
Definition viewBtn_onclick : M State unit :=
  lastCurriculum <- gets lastCurriculum ;;
  if (lastCurriculum =? "")%string then
    alert "Please submit your curriculum first."
  else
    set_output "" ;;
    set_disabled true ;;
    new_EventSource (BACKEND_URL ++ "?curriculum_text=" ++ encodeURIComponent lastCurriculum) ;;
    ret tt.

(** A click on the view button; a disabled button fires no click. *)
Definition click_view : M State unit :=
  disabled <- gets viewBtn_disabled ;;
  when (negb disabled) viewBtn_onclick.

Definition initial : State :=
  {| curriculum_value := ""; output_textContent := ""; viewBtn_disabled := true;
     lastCurriculum := ""; alerts := []; requests := []; sources := [] |}.

End Page.

(* ================================================================== *)
(** * What a stream of events leaves in the timeline *)

Module Stream.
Import JS Handler.

(** Event bodies the handler of [App] cannot read a [step] from: text that is
    not JSON, and the JSON text [null]. *)
Definition rejected (data : event_data) : bool :=
  match data with
  | Unparsable _ => true
  | Parsed v => nullish v
  end.

(** The entry [App.onmessage] appends for an event. *)
Definition entry_for (data : event_data) : App.Msg :=
  match data with
  | Unparsable _ => App.parse_error_entry
  | Parsed v => if nullish v then App.parse_error_entry else App.entry v
  end.

(** Events after which [App.onmessage] closes its source. *)
Definition terminal (data : event_data) : bool :=
  match data with
  | Unparsable _ => true
  | Parsed v =>
      nullish v || is_str "complete" (field "step" v) || truthy (field "error" v)
  end.

(** The events of a list that reach the handler: all up to and including the
    first terminal one. *)
Fixpoint until_terminal (datas : list event_data) : list event_data :=
  match datas with
  | [] => []
  | d :: r => if terminal d then [d] else d :: until_terminal r
  end.

Definition delivered (open : bool) (datas : list event_data) : list event_data :=
  if open then until_terminal datas else [].

(** The [parsed.step] the handler goes on with, if it gets that far. *)
Definition step_of (data : event_data) : value :=
  match data with
  | Unparsable _ => JUndefined
  | Parsed v => field "step" v
  end.

(** The number of times the string [k] occurs in a progress list. *)
Definition count_key (k : string) (progress : list value) : nat :=
  length (filter (is_str k) progress).

End Stream.

(* ================================================================== *)
(** * The classification rule of the specification *)

Module Classifier.
Import JS.

Inductive kind : Type := text | markdown | list | table | error.

(** The [type] under which [App] records a kind; its name for a table is
    [jobs]. *)
Definition type_name (k : kind) : string :=
  match k with
  | text => "text"
  | markdown => "markdown"
  | list => "list"
  | table => "jobs"
  | error => "error"
  end.

Definition markdown_steps : List.list string :=
  ["summary_generated"; "major_project_generated"; "mini_projects_generated"].

Definition list_steps : List.list string :=
  ["skills_extracted"; "roles_identified"; "gaps_analyzed"].

Definition step_among (steps : List.list string) (payload : value) : bool :=
  existsb (fun k => is_str k (field "step" payload)) steps.

(** The kind of a payload, in the priority order of the rule; an error field
    counts when it is truthy. *)
Definition kind_of (payload : value) : kind :=
  if step_among markdown_steps payload then markdown
  else if step_among list_steps payload then list
  else if step_among ["jobs_fetched"] payload then table
  else if truthy (field "error" payload) then error
  else text.

Definition present (v : value) : bool := negb (nullish v).

(** The first truthy candidate, else [otherwise]. *)
Definition first_truthy (candidates : List.list value) (otherwise : value) : value :=
  fold_right (fun v rest => if truthy v then v else rest) otherwise candidates.

(** The first present candidate, else [otherwise]. *)
Definition first_present (candidates : List.list value) (otherwise : value) : value :=
  fold_right (fun v rest => if present v then v else rest) otherwise candidates.

Definition job_fields : List.list string :=
  ["title"; "company"; "location"; "source_platform"; "posted_date"; "salary";
   "description"; "job_url"].

(** Lenient validation of job records, in the words of the specification:
    a missing field defaults to the empty string, a non-record is dropped. *)
Definition validated_record (v : value) : option value :=
  match v with
  | JObj fs =>
      Some (JObj (map (fun k => (k, first_present [lookup k fs] (JStr ""))) job_fields))
  | _ => None
  end.

Definition validated_records (data : value) : List.list value :=
  match data with
  | JArr items =>
      flat_map (fun v => match validated_record v with Some r => [r] | None => [] end) items
  | _ => []
  end.

(** The payload in the words of the specification. *)
Definition claimed_payload (payload : value) : outcome value :=
  match kind_of payload with
  | markdown =>
      (let! s := to_string (field "data" payload) in Returned (JStr s))%outcome
  | list =>
      Returned
        (if isArray (field "data" payload) then field "data" payload
         else first_present [get_opt (field "data" payload) "missing_skills";
                             get_opt (field "data" payload) "job_market_skills"]
                            (JArr []))
  | table => Returned (JArr (validated_records (field "data" payload)))
  | error => Returned (field "error" payload)
  | text => Returned (first_present [field "message" payload] (JStr ""))
  end.

(** The payload the handler of [App] stores. *)
Definition payload (p : value) : value :=
  match kind_of p with
  | list =>
      if isArray (field "data" p) then field "data" p
      else first_truthy [get_opt (field "data" p) "missing_skills";
                         get_opt (field "data" p) "job_market_skills"]
                        (JArr [])
  | _ => first_truthy [field "data" p; field "message" p] (field "error" p)
  end.

End Classifier.

(* ================================================================== *)
(** * The export format of the specification *)

Module Exporter.
Import JS.

Definition returned {A} (c : outcome A) : option A :=
  match c with
  | Returned a => Some a
  | Thrown _ => None
  end.

Fixpoint traverse {A B} (f : A -> option B) (xs : list A) : option (list B) :=
  match xs with
  | [] => Some []
  | x :: r =>
      match f x, traverse f r with
      | Some y, Some ys => Some (y :: ys)
      | _, _ => None
      end
  end.

Definition kind_of_type (t : string) : option Classifier.kind :=
  if (t =? "text")%string then Some Classifier.text
  else if (t =? "markdown")%string then Some Classifier.markdown
  else if (t =? "list")%string then Some Classifier.list
  else if (t =? "jobs")%string then Some Classifier.table
  else if (t =? "error")%string then Some Classifier.error
  else None.

(** An entry whose kind and step agree the way the classifier makes them
    agree: a table entry, and no error or text entry, has the step
    [jobs_fetched]. *)
Definition classified (m : App.Msg) : bool :=
  match kind_of_type (App.type m) with
  | Some Classifier.markdown | Some Classifier.list => true
  | Some Classifier.table => is_str "jobs_fetched" (App.step m)
  | Some Classifier.error | Some Classifier.text => negb (is_str "jobs_fetched" (App.step m))
  | None => false
  end.

Definition text_of (v : value) : option string := returned (to_string v).

(** The step label, if present, followed by [suffix]. *)
Definition label (m : App.Msg) (suffix : string) : option string :=
  if truthy (App.step m)
  then option_map (fun s => s ++ suffix) (text_of (App.step m))
  else Some "".

Definition columns : list string :=
  ["title"; "company"; "location"; "source_platform"; "posted_date"; "salary"; "job_url"].

Definition header_row : string :=
  "Title | Company | Location | Source | Posted | Salary | Link" ++ nl ++
  "----- | ------- | -------- | ------ | ------ | ------ | ----".

(** A cell: empty for an absent field. *)
Definition cell (v : value) : option string :=
  if nullish v then Some "" else text_of v.

(** The row of a record: its columns joined with the delimiter. *)
Definition row (record : value) : option string :=
  if nullish record then None
  else option_map (String.concat " | ")
         (traverse (fun column => cell (field column record)) columns).

Definition text_entry (m : App.Msg) : option string :=
  match label m ": ", text_of (App.content m) with
  | Some l, Some c => Some (l ++ c)
  | _, _ => None
  end.

Definition table_entry (m : App.Msg) : option string :=
  match App.content m with
  | JArr records =>
      match label m (":" ++ nl), traverse row records with
      | Some l, Some rows => Some (l ++ header_row ++ nl ++ String.concat nl rows)
      | _, _ => None
      end
  | _ => None
  end.

Definition list_entry (m : App.Msg) : option string :=
  match App.content m with
  | JArr items =>
      match label m (":" ++ nl),
            traverse (fun item => option_map (append "- ") (text_of item)) items with
      | Some l, Some lines => Some (l ++ String.concat nl lines)
      | _, _ => None
      end
  | _ => None
  end.

Definition markdown_entry (m : App.Msg) : option string :=
  match App.content m with
  | JStr s => Some (trim (strip_markup s))
  | _ => None
  end.

Definition error_entry (m : App.Msg) : option string :=
  option_map (append "Error: ") (text_of (App.content m)).

(** Whether the content of a table entry starts with a record. *)
Definition has_records (c : value) : bool :=
  match c with
  | JArr (first :: _) => typeof_object first
  | _ => false
  end.

(** One entry, by kind, in the words of the specification. *)
Definition claimed_entry (m : App.Msg) : option string :=
  match kind_of_type (App.type m) with
  | Some Classifier.markdown => markdown_entry m
  | Some Classifier.list => list_entry m
  | Some Classifier.table => table_entry m
  | Some Classifier.error => error_entry m
  | Some Classifier.text => text_entry m
  | None => None
  end.

(** One entry, by kind, as exported: a table entry whose content does not
    start with a record is written like a text entry. *)
Definition flatten_entry (m : App.Msg) : option string :=
  match kind_of_type (App.type m) with
  | Some Classifier.markdown => markdown_entry m
  | Some Classifier.list => list_entry m
  | Some Classifier.table =>
      if has_records (App.content m) then table_entry m else text_entry m
  | Some Classifier.error => error_entry m
  | Some Classifier.text => text_entry m
  | None => None
  end.

Definition fixed_separator : string := nl ++ nl ++ "---" ++ nl ++ nl.

Definition claimed_flatten (timeline : list App.Msg) : option string :=
  option_map (String.concat fixed_separator) (traverse claimed_entry timeline).

Definition flatten (timeline : list App.Msg) : option string :=
  option_map (String.concat fixed_separator) (traverse flatten_entry timeline).

End Exporter.

(* ================================================================== *)
(** * The scenarios of the specification, and other concrete inputs *)

Module Examples.
Import JS Handler.

(** The component after "Python, SQL" was typed, submitted with status 200,
    and View Results was clicked: source 0 is open. *)
Definition viewing : App.State :=
  exec App.click_ViewResults
    (exec (App.click_Analyze (Response 200))
       (exec (App.onChange "Python, SQL") App.initial)).

(** The chat component after "Python, SQL" was submitted with status 200. *)
Definition chatting : Chat.State :=
  exec (Chat.handleSubmit 1 2 (Response 200))
    (exec (Chat.setInputValue "Python, SQL") Chat.initial).

(** Scenario A. *)
Definition skills_extracted : value :=
  JObj [("step", JStr "skills_extracted"); ("data", JArr [JStr "Python"; JStr "SQL"])].

(** Scenario B. *)
Definition jobs_fetched : value :=
  JObj [("step", JStr "jobs_fetched");
        ("data", JArr [JObj [("title", JStr "Engineer"); ("company", JStr "Acme")]])].

(** Scenario C. *)
Definition complete : value := JObj [("step", JStr "complete")].

(** Scenario D. *)
Definition rate_limited : value := JObj [("error", JStr "rate limited")].

Definition rate_limited_with_message : value :=
  JObj [("error", JStr "rate limited"); ("message", JStr "Too many requests")].

Definition summary_number : value :=
  JObj [("step", JStr "summary_generated"); ("data", JNum 42)].

Definition jobs_with_stray_element : value :=
  JObj [("step", JStr "jobs_fetched");
        ("data", JArr [JObj [("title", JStr "Engineer"); ("company", JStr "Acme")]; JNum 7])].

Definition no_jobs : value := JObj [("step", JStr "jobs_fetched"); ("data", JArr [])].

Definition unknown_step : value := JObj [("step", JStr "warming_up")].

(** The body [hello], which is not JSON. *)
Definition not_json : event_data :=
  Unparsable "Unexpected token h in JSON at position 0".

End Examples.

(* ================================================================== *)
(** * frontend/src/App.jsx: the stepper *)

Module Stepper.
Import JS Handler.

(** The icon component [getStepIcon] returns; each is rendered with one fixed
    class string. *)
Inductive Icon : Type := ClockIcon | CheckCircleIcon | ArrowPathIcon.

(** [getStepIcon(step, idx, currentIdx, progressArr)]; besides its parameters
    the body reads the component's [currentStepIdx]. *)
Definition getStepIcon (currentStepIdx : Z)
    (step : string) (idx currentIdx : Z) (progressArr : list value) : Icon :=
  match progressArr with
  | [] => ClockIcon
  | _ =>
      if (step =? "complete")%string && includes progressArr (JStr "complete")
      then CheckCircleIcon
      else if idx <? currentIdx then CheckCircleIcon
      else if (idx =? currentStepIdx) && negb (step =? "complete")%string
      then ArrowPathIcon
      else ClockIcon
  end.

(** The [className] of the list item of a step. *)
Definition className (s : App.State) (key : string) (idx : Z) : string :=
  match App.progress s with
  | [] => "flex items-center mb-2 text-gray-400"
  | _ =>
      "flex items-center mb-2 " ++
      (if (idx =? App.currentStepIdx s) && includes (App.progress s) (JStr key)
       then "font-bold text-blue-700"
       else if idx <? App.currentStepIdx s then "text-gray-500"
       else "text-gray-400")
  end.

(** A rendered list item. *)
Record Item : Type := { key : string; class : string; icon : Icon; label : string }.

(** [xs.map((x, idx) => f(x, idx))], counting from [i]. *)
Fixpoint map_indexed {A B} (f : A -> Z -> B) (xs : list A) (i : Z) : list B :=
  match xs with
  | [] => []
  | x :: r => f x i :: map_indexed f r (i + 1)
  end.

(** The items of the stepper, [STEPS.map((step, idx) => ...)]. *)
Definition stepper (s : App.State) : list Item :=
  map_indexed
    (fun step idx =>
       {| key := fst step;
          class := className s (fst step) idx;
          icon := getStepIcon (App.currentStepIdx s) (fst step) idx
                    (App.currentStepIdx s) (App.progress s);
          label := snd step |})
    App.STEPS 0.

End Stepper.

(* ================================================================== *)
(** * frontend/src/App.jsx: what the user and the browser can do *)

Module Session.
Import JS Handler.
Open Scope handler_scope.

(** One thing that happens to the component: typing, a click on Analyze (up
    to the [await]), the answer to a pending request, a click on View
    Results, a message or an error event of an event source. *)
Inductive action : Type :=
| Typed (text : string)
| Analyze
| Settled (r : fetch_result)
| ViewResults
| MessageEvent (es : nat) (data : event_data)
| ErrorEvent (es : nat).

(** A click on Analyze, up to the [await]; the button is disabled while
    streaming. *)
Definition click_Analyze_begin : M App.State bool :=
  disabled <- gets App.streaming ;;
  if disabled then ret false else App.handleSubmit_begin.

Definition act (a : action) (s : App.State) : App.State :=
  match a with
  | Typed text => exec (App.onChange text) s
  | Analyze => exec click_Analyze_begin s
  | Settled r => exec (App.handleSubmit_resume r) s
  | ViewResults => exec App.click_ViewResults s
  | MessageEvent es data => exec (App.dispatch_message es data) s
  | ErrorEvent es => exec (App.dispatch_error es) s
  end.

Definition run (acts : list action) (s : App.State) : App.State :=
  fold_left (fun s a => act a s) acts s.

(** The sources that are open, by position. *)
Definition open_sources (sources : list EventSource) : list nat :=
  filter (fun i => is_open i sources) (seq 0 (length sources)).

End Session.

(* ================================================================== *)
(** * Reading back what [encodeURIComponent] wrote *)

Module Escaping.
Import JS.

Definition unhex (c : ascii) : nat :=
  let n := nat_of_ascii c in
  (if n <? 58 then n - 48 else n - 55)%nat.

Definition byte_of (h l : ascii) : nat := (16 * unhex h + unhex l)%nat.

(** The text of an escaped string: a percent sign introduces a byte; a byte
    from 192 on is the first of the two bytes of one code unit. *)
Fixpoint unescape (s : string) : string :=
  match s with
  | EmptyString => EmptyString
  | String c r =>
      if (nat_of_ascii c =? 37)%nat then
        match r with
        | String h (String l r') =>
            if (byte_of h l <? 128)%nat
            then String (ascii_of_nat (byte_of h l)) (unescape r')
            else
              match r' with
              | String _ (String h2 (String l2 r'')) =>
                  String (ascii_of_nat ((byte_of h l - 192) * 64 + (byte_of h2 l2 - 128)))
                         (unescape r'')
              | _ => EmptyString
              end
        | _ => EmptyString
        end
      else String c (unescape r)
  end.

(** Characters that [encodeURIComponent] can write. *)
Definition is_query_safe (c : ascii) : bool :=
  is_unreserved c || (nat_of_ascii c =? 37)%nat.

End Escaping.

(* ================================================================== *)
(** * frontend/src/StreamingChatInterface.jsx: what can happen to the chat *)

Module ChatSession.
Import JS Handler.
Open Scope handler_scope.

(** An error event of source [es]; a closed source dispatches nothing. *)
Definition dispatch_error (es : nat) (now : Z) : M Chat.State unit :=
  open <- gets (fun s => is_open es (Chat.sources s)) ;;
  when open (Chat.onerror es now).

(** Typing, a submission up to the [await], the answer to the request of a
    submission (which goes on with that submission's [currentInput]), a
    message or an error event of an event source. *)
Inductive action : Type :=
| Typed (text : string)
| Submit (now : Z)
| Settled (currentInput : string) (later : Z) (r : fetch_result)
| MessageEvent (es : nat) (now : Z) (data : event_data)
| ErrorEvent (es : nat) (now : Z).

Definition act (a : action) (s : Chat.State) : Chat.State :=
  match a with
  | Typed text => exec (Chat.setInputValue text) s
  | Submit now => exec (Chat.handleSubmit_begin now) s
  | Settled currentInput later r => exec (Chat.handleSubmit_resume currentInput later r) s
  | MessageEvent es now data => exec (Chat.dispatch_message es now data) s
  | ErrorEvent es now => exec (dispatch_error es now) s
  end.

Definition run (acts : list action) (s : Chat.State) : Chat.State :=
  fold_left (fun s a => act a s) acts s.

End ChatSession.

(* ================================================================== *)
(** * The stand-alone page: the handlers of its event source, and what can
      happen to the page *)

Module PageStream.
Import JS Handler.
Open Scope handler_scope.

(** [eventSource.close()]. *)
Definition close (es : nat) : M Page.State unit :=
  modify (fun s => {| Page.curriculum_value := Page.curriculum_value s;
                      Page.output_textContent := Page.output_textContent s;
                      Page.viewBtn_disabled := Page.viewBtn_disabled s;
                      Page.lastCurriculum := Page.lastCurriculum s;
                      Page.alerts := Page.alerts s;
                      Page.requests := Page.requests s;
                      Page.sources := close_at es (Page.sources s) |}).

(** [output.textContent += text]. *)
Definition append_output (text : string) : M Page.State unit :=
  modify (fun s => {| Page.curriculum_value := Page.curriculum_value s;
                      Page.output_textContent := Page.output_textContent s ++ text;
                      Page.viewBtn_disabled := Page.viewBtn_disabled s;
                      Page.lastCurriculum := Page.lastCurriculum s;
                      Page.alerts := Page.alerts s;
                      Page.requests := Page.requests s;
                      Page.sources := Page.sources s |}).

(** [eventSource.onmessage]: [raw] is [event.data], [data] what [JSON.parse]
    makes of it.  The scroll position is not part of the state. *)
Definition onmessage (eventSource : nat) (raw : string) (data : event_data)
  : M Page.State unit :=
  append_output (raw ++ nl ++ nl) ;;
  try_catch
    (parsed <- JSON_parse data ;;
     _ <- lift (get parsed "step") ;;
     when (is_str "complete" (field "step" parsed))
       (close eventSource ;; Page.set_disabled false))
    (fun _ => ret tt).

(** [eventSource.onerror]. *)
Definition onerror (eventSource : nat) : M Page.State unit :=
  append_output (nl ++ "[Stream ended or error occurred]" ++ nl) ;;
  close eventSource ;;
  Page.set_disabled false.

Definition dispatch_message (es : nat) (raw : string) (data : event_data)
  : M Page.State unit :=
  open <- gets (fun s => is_open es (Page.sources s)) ;;
  when open (onmessage es raw data).

Definition dispatch_error (es : nat) : M Page.State unit :=
  open <- gets (fun s => is_open es (Page.sources s)) ;;
  when open (onerror es).

(** The page, and the trimmed texts of the submissions whose request is not
    answered yet. *)
Record Config : Type := { page : Page.State; pending : list string }.

(** Typing, a click on Submit (up to the [await]), the answer to the [k]-th
    pending request, a click on View Analysis, a message or an error event
    of an event source. *)
Inductive action : Type :=
| Typed (text : string)
| SubmitClick
| Settled (k : nat) (r : fetch_result)
| ViewClick
| MessageEvent (es : nat) (raw : string) (data : event_data)
| ErrorEvent (es : nat).

Definition act (a : action) (c : Config) : Config :=
  match a with
  | Typed text => {| page := exec (Page.set_value text) (page c); pending := pending c |}
  | SubmitClick =>
      match Page.submitBtn_onclick_begin (page c) with
      | (Returned (Some curriculum), s') =>
          {| page := s'; pending := (pending c ++ [curriculum])%list |}
      | (_, s') => {| page := s'; pending := pending c |}
      end
  | Settled k r =>
      match nth_error (pending c) k with
      | Some curriculum =>
          {| page := exec (Page.submitBtn_onclick_resume curriculum r) (page c);
             pending := (firstn k (pending c) ++ skipn (S k) (pending c))%list |}
      | None => c
      end
  | ViewClick => {| page := exec Page.click_view (page c); pending := pending c |}
  | MessageEvent es raw data =>
      {| page := exec (dispatch_message es raw data) (page c); pending := pending c |}
  | ErrorEvent es => {| page := exec (dispatch_error es) (page c); pending := pending c |}
  end.

Definition run (acts : list action) (c : Config) : Config :=
  fold_left (fun c a => act a c) acts c.

Definition initial : Config := {| page := Page.initial; pending := [] |}.

End PageStream.

(* ================================================================== *)
(** * frontend/src/CurriculumAnalysis.jsx: viewing *)

Module AnalysisView.
Import JS Handler.
Open Scope handler_scope.

Definition new_EventSource (u : string) : M Analysis.State nat :=
  fun s =>
    (Returned (length (Analysis.sources s)),
     {| Analysis.curriculum := Analysis.curriculum s; Analysis.output := Analysis.output s;
        Analysis.loading := Analysis.loading s; Analysis.submitted := Analysis.submitted s;
        Analysis.eventSourceRef := Analysis.eventSourceRef s;
        Analysis.requests := Analysis.requests s;
        Analysis.sources := (Analysis.sources s ++ [{| url := u; closed := false |}])%list |}).

Definition close (es : nat) : M Analysis.State unit :=
  modify (fun s => {| Analysis.curriculum := Analysis.curriculum s;
                      Analysis.output := Analysis.output s;
                      Analysis.loading := Analysis.loading s;
                      Analysis.submitted := Analysis.submitted s;
                      Analysis.eventSourceRef := Analysis.eventSourceRef s;
                      Analysis.requests := Analysis.requests s;
                      Analysis.sources := close_at es (Analysis.sources s) |}).

(** [eventSourceRef.current = v]. *)
Definition set_eventSourceRef (v : option nat) : M Analysis.State unit :=
  modify (fun s => {| Analysis.curriculum := Analysis.curriculum s;
                      Analysis.output := Analysis.output s;
                      Analysis.loading := Analysis.loading s;
                      Analysis.submitted := Analysis.submitted s;
                      Analysis.eventSourceRef := v;
                      Analysis.requests := Analysis.requests s;
                      Analysis.sources := Analysis.sources s |}).

(** [handleView], up to the installation of the handlers. *)
Definition handleView : M Analysis.State nat :=
  Analysis.setOutput (fun _ => []) ;;
  current <- gets Analysis.eventSourceRef ;;
  match current with Some es => close es | None => ret tt end ;;
  curriculum <- gets Analysis.curriculum ;;
  es <- new_EventSource
          (Analysis.BACKEND_URL ++ "?curriculum_text=" ++ encodeURIComponent curriculum) ;;
  set_eventSourceRef (Some es) ;;
  ret es.

(** [es.onerror]. *)
Definition onerror (es : nat) : M Analysis.State unit :=
  Analysis.setOutput (fun prev =>
    (prev ++ [Analysis.error_item "[Stream ended or error occurred]"])%list) ;;
  close es.

End AnalysisView.

(* ================================================================== *)
(** * frontend/src/StreamingChatInterface.jsx: the second component, an
      [App] without the stepper that also collects the markdown sections *)

Module Legacy.
Import JS Handler.
Open Scope handler_scope.

Definition BACKEND_URL : string := "http://localhost:8000/api/jobs/complete-analysis/".

(** The [useState] cells and the browser; the entries are those of [App]. *)
Record State : Type := {
  curriculum : string;
  submitted : bool;
  streaming : bool;
  messages : list App.Msg;
  markdownSections : list value;
  requests : list Request;
  sources : list EventSource
}.

Definition setSubmitted (v : bool) : M State unit :=
  modify (fun s => {| curriculum := curriculum s; submitted := v; streaming := streaming s;
                      messages := messages s; markdownSections := markdownSections s;
                      requests := requests s; sources := sources s |}).

Definition setStreaming (v : bool) : M State unit :=
  modify (fun s => {| curriculum := curriculum s; submitted := submitted s; streaming := v;
                      messages := messages s; markdownSections := markdownSections s;
                      requests := requests s; sources := sources s |}).

Definition setMessages (f : list App.Msg -> list App.Msg) : M State unit :=
  modify (fun s => {| curriculum := curriculum s; submitted := submitted s;
                      streaming := streaming s;
                      messages := f (messages s); markdownSections := markdownSections s;
                      requests := requests s; sources := sources s |}).

Definition setMarkdownSections (f : list value -> list value) : M State unit :=
  modify (fun s => {| curriculum := curriculum s; submitted := submitted s;
                      streaming := streaming s;
                      messages := messages s; markdownSections := f (markdownSections s);
                      requests := requests s; sources := sources s |}).

Definition fetch_POST (u text : string) : M State unit :=
  modify (fun s => {| curriculum := curriculum s; submitted := submitted s;
                      streaming := streaming s;
                      messages := messages s; markdownSections := markdownSections s;
                      requests := (requests s ++ [{| req_url := u; curriculum_text := text |}])%list;
                      sources := sources s |}).

Definition new_EventSource (u : string) : M State nat :=
  fun s =>
    (Returned (length (sources s)),
     {| curriculum := curriculum s; submitted := submitted s; streaming := streaming s;
        messages := messages s; markdownSections := markdownSections s;
        requests := requests s;
        sources := (sources s ++ [{| url := u; closed := false |}])%list |}).

Definition close (es : nat) : M State unit :=
  modify (fun s => {| curriculum := curriculum s; submitted := submitted s;
                      streaming := streaming s;
                      messages := messages s; markdownSections := markdownSections s;
                      requests := requests s; sources := close_at es (sources s) |}).

Definition handleSubmit_begin : M State bool :=
  curriculum <- gets curriculum ;;
  if (trim curriculum =? "")%string then ret false
  else
    setMessages (fun _ => []) ;;
    setSubmitted false ;;
    setStreaming false ;;
    fetch_POST BACKEND_URL curriculum ;;
    ret true.

Definition handleSubmit_resume (r : fetch_result) : M State unit :=
  try_catch
    (match r with
     | Rejected err => throw err
     | Response status =>
         if negb (ok status) then
           setMessages (fun _ =>
             [{| App.type := "error"; App.step := JUndefined;
                 App.content := JStr ("POST failed: " ++ string_of_Z status) |}])
         else setSubmitted true
     end)
    (fun err =>
       setMessages (fun _ =>
         [{| App.type := "error"; App.step := JUndefined;
             App.content := JStr ("Error: " ++ exn_to_string err) |}])).

(** The chain of tests that sets [msgType]; its first branch also records
    [parsed.data] as a markdown section. *)
Definition choose_msgType (parsed : value) : M State string :=
  if is_str "summary_generated" (field "step" parsed)
     || is_str "major_project_generated" (field "step" parsed)
     || is_str "mini_projects_generated" (field "step" parsed)
  then
    setMarkdownSections (fun prev => (prev ++ [field "data" parsed])%list) ;;
    ret "markdown"
  else if is_str "skills_extracted" (field "step" parsed)
          || is_str "roles_identified" (field "step" parsed)
          || is_str "gaps_analyzed" (field "step" parsed)
  then ret "list"
  else if is_str "jobs_fetched" (field "step" parsed) then ret "jobs"
  else if truthy (field "error" parsed) then ret "error"
  else ret "text".

(** The [content:] expression of the appended entry. *)
Definition content_of (msgType : string) (parsed : value) : value :=
  if (msgType =? "list")%string then
    if isArray (field "data" parsed) then field "data" parsed
    else get_opt (field "data" parsed) "missing_skills"
         ||| get_opt (field "data" parsed) "job_market_skills"
         ||| JArr []
  else field "data" parsed ||| field "message" parsed ||| field "error" parsed.

(** [eventSource.onmessage]. *)
Definition onmessage (eventSource : nat) (data : event_data) : M State unit :=
  try_catch
    (parsed <- JSON_parse data ;;
     _ <- lift (get parsed "step") ;;
     msgType <- choose_msgType parsed ;;
     setMessages (fun prev =>
       (prev ++ [{| App.type := msgType; App.step := field "step" parsed;
                    App.content := content_of msgType parsed |}])%list) ;;
     when (is_str "complete" (field "step" parsed) || truthy (field "error" parsed))
       (close eventSource ;; setStreaming false))
    (fun _ =>
       setMessages (fun prev =>
         (prev ++ [{| App.type := "error"; App.step := JUndefined;
                      App.content := JStr "Error parsing stream data." |}])%list) ;;
       close eventSource ;;
       setStreaming false).

(** [eventSource.onerror]. *)
Definition onerror (eventSource : nat) : M State unit :=
  setMessages (fun prev =>
    (prev ++ [{| App.type := "error"; App.step := JUndefined;
                 App.content := JStr "[Stream ended or error occurred]" |}])%list) ;;
  close eventSource ;;
  setStreaming false.

Definition handleView : M State nat :=
  curriculum <- gets curriculum ;;
  setMessages (fun _ => []) ;;
  setStreaming true ;;
  setMarkdownSections (fun _ => []) ;;
  new_EventSource (BACKEND_URL ++ "?curriculum_text=" ++ encodeURIComponent curriculum).

Definition dispatch_message (es : nat) (data : event_data) : M State unit :=
  open <- gets (fun s => is_open es (sources s)) ;;
  when open (onmessage es data).

Definition receive (es : nat) (datas : list event_data) (s : State) : State :=
  fold_left (fun s data => exec (dispatch_message es data) s) datas s.

(** What this component and [App] both have. *)
Definition shared (s : State) : App.State :=
  {| App.curriculum := curriculum s; App.submitted := submitted s;
     App.streaming := streaming s; App.messages := messages s; App.progress := [];
     App.requests := requests s; App.sources := sources s |}.

(** [App] without its progress. *)
Definition without_progress (s : App.State) : App.State :=
  {| App.curriculum := App.curriculum s; App.submitted := App.submitted s;
     App.streaming := App.streaming s; App.messages := App.messages s; App.progress := [];
     App.requests := App.requests s; App.sources := App.sources s |}.

(** The sections an event adds: the data field of a markdown-step event. *)
Definition section_of (data : event_data) : list value :=
  match data with
  | Unparsable _ => []
  | Parsed v =>
      if is_str "summary_generated" (field "step" v)
         || is_str "major_project_generated" (field "step" v)
         || is_str "mini_projects_generated" (field "step" v)
      then [field "data" v] else []
  end.

End Legacy.

(* ================================================================== *)
(** * Invariants *)

Import JS Handler.

(** A stepper item that shows the spinning arrow. *)
Definition is_spinner (item : Stepper.Item) : bool :=
  match Stepper.icon item with Stepper.ArrowPathIcon => true | _ => false end.

(** [App]: source [i] is open exactly when the component streams and [i] is
    its most recent source; a streaming component has a source. *)
Definition owns_its_stream (s : App.State) : Prop :=
  (forall i, is_open i (App.sources s)
             = App.streaming s && (S i =? length (App.sources s))%nat) /\
  (App.streaming s = true -> App.sources s <> []).

(** [App]: every seen step is the step of an entry of the timeline. *)
Definition seen_steps_recorded (s : App.State) : Prop :=
  forall v, In v (App.progress s) -> exists m, In m (App.messages s) /\ App.step m = v.


(** The page: View Analysis is enabled, and an event source exists, only
    after a submission succeeded; every pending text is non-empty; the only
    alert ever shown asks for a curriculum. *)
Definition page_invariant (c : PageStream.Config) : Prop :=
  (Page.viewBtn_disabled (PageStream.page c) = false ->
   Page.lastCurriculum (PageStream.page c) <> "") /\
  (Page.sources (PageStream.page c) <> [] ->
   Page.lastCurriculum (PageStream.page c) <> "") /\
  Forall (fun text => text <> "") (PageStream.pending c) /\
  Forall (fun text => text = "Please enter your curriculum.")
    (Page.alerts (PageStream.page c)).


(* ================================================================== *)
(** * Properties *)

Import JS Handler.
Open Scope list_scope.

(** ** What one message event does to the state of [App] *)

(** Unfold the setters of [App] and decide the tests that remain. *)
Ltac run_setters :=
  cbv [exec snd App.setMessages App.setProgress App.close App.setStreaming modify];
  repeat match goal with |- context [if ?b then _ else _] => destruct b end;
  reflexivity.

(** The handler always returns, and this is the state it leaves. *)
Lemma onmessage_state (es : nat) (data : event_data) (s : App.State) :
  App.onmessage es data s =
  (Returned tt,
   if Stream.rejected data then
     exec (App.setStreaming false)
       (exec (App.close es)
          (exec (App.setMessages (fun prev => prev ++ [App.parse_error_entry])%list) s))
   else
     match data with
     | Unparsable _ => s
     | Parsed parsed =>
         let s1 := exec (App.setMessages (fun prev => prev ++ [App.entry parsed])%list) s in
         let s2 :=
           if truthy (field "step" parsed)
           then exec (App.setProgress (fun prev =>
                        if includes prev (field "step" parsed) then prev
                        else prev ++ [field "step" parsed])%list) s1
           else s1 in
         if is_str "complete" (field "step" parsed) || truthy (field "error" parsed)
         then exec (App.setStreaming false) (exec (App.close es) s2)
         else s2
     end).
Proof.
  destruct data as [m | parsed]; [reflexivity |].
  destruct parsed; try reflexivity;
  cbv [App.onmessage try_catch bind JSON_parse ret lift get when exec snd
       App.setMessages App.setProgress App.close App.setStreaming modify
       Stream.rejected nullish];
  repeat match goal with |- context [if ?b then _ else _] => destruct b end; reflexivity.
Qed.

Lemma terminal_rejected data : Stream.rejected data = true -> Stream.terminal data = true.
Proof. destruct data as [m | v]; cbn; [reflexivity | intros ->; reflexivity]. Qed.

(** The timeline after one event. *)
Lemma messages_onmessage es data s :
  App.messages (exec (App.onmessage es data) s) = (App.messages s ++ [Stream.entry_for data])%list.
Proof.
  unfold exec. rewrite onmessage_state. cbn [snd].
  destruct data as [m | v]; cbn [Stream.rejected Stream.entry_for]; [reflexivity |].
  destruct (nullish v); [reflexivity |].
  run_setters.
Qed.

(** The source is closed exactly after a terminal event. *)
Lemma sources_onmessage es data s :
  App.sources (exec (App.onmessage es data) s) =
  if Stream.terminal data then close_at es (App.sources s) else App.sources s.
Proof.
  unfold exec. rewrite onmessage_state. cbn [snd].
  destruct data as [m | v]; cbn [Stream.rejected Stream.terminal]; [reflexivity |].
  destruct (nullish v); [reflexivity |]. cbn [orb].
  run_setters.
Qed.

Lemma streaming_onmessage es data s :
  App.streaming (exec (App.onmessage es data) s) =
  if Stream.terminal data then false else App.streaming s.
Proof.
  unfold exec. rewrite onmessage_state. cbn [snd].
  destruct data as [m | v]; cbn [Stream.rejected Stream.terminal]; [reflexivity |].
  destruct (nullish v); [reflexivity |]. cbn [orb].
  run_setters.
Qed.

Lemma is_open_close_at es l : is_open es (close_at es l) = false.
Proof.
  unfold is_open, close_at.
  destruct (nth_error l es) as [e |] eqn:E.
  - assert (L : length (firstn es l) = es).
    { apply firstn_length_le. apply Nat.lt_le_incl. apply nth_error_Some. congruence. }
    rewrite nth_error_app2 by (rewrite L; apply Nat.le_refl).
    rewrite L, Nat.sub_diag. reflexivity.
  - rewrite E. reflexivity.
Qed.

Lemma dispatch_closed es data s :
  is_open es (App.sources s) = false -> exec (App.dispatch_message es data) s = s.
Proof.
  intros H. cbv [App.dispatch_message exec bind gets when ret snd]. rewrite H. reflexivity.
Qed.

Lemma dispatch_open es data s :
  is_open es (App.sources s) = true ->
  exec (App.dispatch_message es data) s = exec (App.onmessage es data) s.
Proof.
  intros H. cbv [App.dispatch_message exec bind gets when ret snd]. rewrite H. reflexivity.
Qed.

Lemma receive_closed es datas s :
  is_open es (App.sources s) = false -> App.receive es datas s = s.
Proof.
  revert s. induction datas as [| d r IH]; intros s H; [reflexivity |].
  cbn [App.receive fold_left]. rewrite dispatch_closed by exact H. apply IH, H.
Qed.

Lemma receive_cons es d r s :
  App.receive es (d :: r) s = App.receive es r (exec (App.dispatch_message es d) s).
Proof. reflexivity. Qed.

(** The timeline after a sequence of events. *)
Lemma messages_receive es datas s :
  App.messages (App.receive es datas s) =
  (App.messages s ++
   map Stream.entry_for (Stream.delivered (is_open es (App.sources s)) datas))%list.
Proof.
  destruct (is_open es (App.sources s)) eqn:O.
  - cbn [Stream.delivered]. revert s O.
    induction datas as [| d r IH]; intros s O.
    + cbn. now rewrite app_nil_r.
    + rewrite receive_cons, dispatch_open by exact O.
      cbn [Stream.until_terminal].
      destruct (Stream.terminal d) eqn:T.
      * rewrite receive_closed.
        -- apply messages_onmessage.
        -- rewrite sources_onmessage, T. apply is_open_close_at.
      * rewrite IH.
        -- rewrite messages_onmessage. cbn [map]. now rewrite <- app_assoc.
        -- rewrite sources_onmessage, T. exact O.
  - rewrite receive_closed by exact O. cbn. now rewrite app_nil_r.
Qed.

Lemma until_terminal_prefix datas k d :
  nth_error (Stream.until_terminal datas) k = Some d -> nth_error datas k = Some d.
Proof.
  revert k. induction datas as [| x r IH]; intros k H; [destruct k; discriminate |].
  cbn [Stream.until_terminal] in H. destruct (Stream.terminal x).
  - destruct k as [| k]; [exact H | destruct k; discriminate].
  - destruct k as [| k]; [exact H | apply IH, H].
Qed.

Lemma until_terminal_all datas :
  forallb (fun d => negb (Stream.terminal d)) (removelast datas) = true ->
  Stream.until_terminal datas = datas.
Proof.
  induction datas as [| x r IH]; intros H; [reflexivity |].
  cbn [Stream.until_terminal]. destruct r as [| y r'].
  - destruct (Stream.terminal x); reflexivity.
  - cbn [removelast forallb] in H. apply andb_prop in H as [Hx Hr].
    destruct (Stream.terminal x); [discriminate |]. f_equal. apply IH, Hr.
Qed.

(** The progress list after one event. *)
Lemma progress_onmessage es data s :
  App.progress (exec (App.onmessage es data) s) =
  if truthy (Stream.step_of data) && negb (includes (App.progress s) (Stream.step_of data))
  then (App.progress s ++ [Stream.step_of data])%list else App.progress s.
Proof.
  unfold exec. rewrite onmessage_state. cbn [snd].
  destruct data as [m | v]; cbn [Stream.rejected Stream.step_of]; [reflexivity |].
  destruct (nullish v) eqn:N.
  - destruct v; try discriminate; reflexivity.
  - destruct (truthy (field "step" v));
      destruct (is_str "complete" (field "step" v) || truthy (field "error" v));
      cbn -[includes]; try reflexivity;
      destruct (includes (App.progress s) (field "step" v)); reflexivity.
Qed.

Lemma count_key_app k l x :
  Stream.count_key k (l ++ [x]) = (Stream.count_key k l + if is_str k x then 1 else 0)%nat.
Proof.
  unfold Stream.count_key. rewrite filter_app, length_app. cbn [filter].
  destruct (is_str k x); reflexivity.
Qed.

(** [includes] on a string key is a test on its number of occurrences. *)
Lemma includes_count_key k l :
  includes l (JStr k) = negb (Stream.count_key k l =? 0)%nat.
Proof.
  unfold includes, Stream.count_key. induction l as [| y r IH]; [reflexivity |].
  cbn [existsb filter]. rewrite IH.
  destruct y; cbn [sameValueZero is_str orb]; try reflexivity.
  rewrite String.eqb_sym. destruct (k =? s)%string; reflexivity.
Qed.

Lemma progress_dispatch es data s :
  App.progress (exec (App.dispatch_message es data) s) =
  if is_open es (App.sources s) && truthy (Stream.step_of data)
     && negb (includes (App.progress s) (Stream.step_of data))
  then (App.progress s ++ [Stream.step_of data])%list else App.progress s.
Proof.
  destruct (is_open es (App.sources s)) eqn:O.
  - rewrite dispatch_open by exact O. apply progress_onmessage.
  - rewrite dispatch_closed by exact O. reflexivity.
Qed.

Lemma count_key_dispatch es data s k :
  (Stream.count_key k (App.progress s) <= 1)%nat ->
  (Stream.count_key k (App.progress (exec (App.dispatch_message es data) s)) <= 1)%nat.
Proof.
  intros H. rewrite progress_dispatch.
  destruct (is_open es (App.sources s) && truthy (Stream.step_of data)
            && negb (includes (App.progress s) (Stream.step_of data))) eqn:C; [| exact H].
  rewrite count_key_app. destruct (is_str k (Stream.step_of data)) eqn:K; [| lia].
  destruct (Stream.step_of data) as [| | | | x | |]; try discriminate.
  cbn [is_str] in K. apply String.eqb_eq in K. subst x.
  apply andb_prop in C as [_ C]. rewrite includes_count_key, negb_involutive in C.
  apply Nat.eqb_eq in C. lia.
Qed.

Lemma progress_receive es datas s :
  (forall k, (Stream.count_key k (App.progress s) <= 1)%nat) ->
  (exists added, App.progress (App.receive es datas s) = (App.progress s ++ added)%list) /\
  (forall k, (Stream.count_key k (App.progress (App.receive es datas s)) <= 1)%nat).
Proof.
  revert s. induction datas as [| d r IH]; intros s H.
  - split; [exists []; cbn; now rewrite app_nil_r | exact H].
  - rewrite receive_cons.
    destruct (IH (exec (App.dispatch_message es d) s)) as [[added E] C].
    { intros k. apply count_key_dispatch, H. }
    split; [| exact C].
    rewrite E, progress_dispatch.
    destruct (is_open es (App.sources s) && truthy (Stream.step_of d)
              && negb (includes (App.progress s) (Stream.step_of d))).
    + exists (Stream.step_of d :: added). now rewrite <- app_assoc.
    + exists added. reflexivity.
Qed.

(** ** Classification *)

Lemma type_of_entry parsed :
  App.msgType parsed = Classifier.type_name (Classifier.kind_of parsed).
Proof.
  unfold App.msgType, Classifier.kind_of, Classifier.step_among,
    Classifier.markdown_steps, Classifier.list_steps.
  cbn [existsb].
  repeat match goal with |- context [is_str ?k ?v] => destruct (is_str k v) end;
    cbn [orb]; try reflexivity;
    destruct (truthy (field "error" parsed)); reflexivity.
Qed.

Lemma type_name_list k :
  (Classifier.type_name k =? "list")%string =
  match k with Classifier.list => true | _ => false end.
Proof. destruct k; reflexivity. Qed.

Lemma or_else_chain a b c : a ||| b ||| c = Classifier.first_truthy [a; b] c.
Proof.
  unfold or_else, Classifier.first_truthy. cbn [fold_right].
  destruct (truthy a) eqn:A; [now rewrite A |]. reflexivity.
Qed.

Lemma content_of_entry parsed :
  App.content_of (App.msgType parsed) parsed = Classifier.payload parsed.
Proof.
  unfold App.content_of, Classifier.payload. rewrite type_of_entry, type_name_list.
  destruct (Classifier.kind_of parsed); try apply or_else_chain.
  destruct (isArray (field "data" parsed)); [reflexivity | apply or_else_chain].
Qed.

(** The entry of the code is the entry of the rule. *)
Lemma entry_classified parsed :
  App.entry parsed =
  {| App.type := Classifier.type_name (Classifier.kind_of parsed);
     App.step := field "step" parsed;
     App.content := Classifier.payload parsed |}.
Proof. unfold App.entry. now rewrite content_of_entry, type_of_entry. Qed.

(** C1, amended.  For every decoded payload the handler of [App] appends one
    entry whose kind follows the priority order of the rule (the three
    markdown steps, then the three list steps, then [jobs_fetched], then a
    truthy error field, else text) and whose step is the payload's step.  The
    payload of a list entry is the data field if it is an array, else the
    first truthy of its [missing_skills] and [job_market_skills], else the
    empty array; the payload of every other kind is the first truthy of the
    data and message fields, else the error field, stored as it is: nothing
    is coerced to a string and nothing defaults to the empty string.  The
    JSON text [null] gets the parse-error entry. *)
Theorem classify_by_priority (es : nat) (parsed : value) (s : App.State) :
  App.messages (exec (App.onmessage es (Parsed parsed)) s) =
  (App.messages s ++
   [if nullish parsed then App.parse_error_entry
    else {| App.type := Classifier.type_name (Classifier.kind_of parsed);
            App.step := field "step" parsed;
            App.content := Classifier.payload parsed |}])%list.
Proof.
  rewrite messages_onmessage. cbn [Stream.entry_for].
  destruct (nullish parsed); [reflexivity |]. now rewrite entry_classified.
Qed.

(** C1 as stated fails: the payload of [{step: "complete"}] is [undefined],
    not the empty string; a markdown payload 42 stays a number; an error
    entry holds the message field when there is one; and the chat component
    has no table kind. *)
Lemma classify_counterexample :
  Returned (App.content (App.entry Examples.complete))
    <> Classifier.claimed_payload Examples.complete /\
  (Classifier.kind_of Examples.complete = Classifier.text /\
   Classifier.claimed_payload Examples.complete = Returned (JStr "") /\
   App.content (App.entry Examples.complete) = JUndefined) /\
  (Classifier.kind_of Examples.summary_number = Classifier.markdown /\
   Classifier.claimed_payload Examples.summary_number = Returned (JStr "42") /\
   App.content (App.entry Examples.summary_number) = JNum 42) /\
  (Classifier.kind_of Examples.rate_limited_with_message = Classifier.error /\
   Classifier.claimed_payload Examples.rate_limited_with_message = Returned (JStr "rate limited") /\
   App.content (App.entry Examples.rate_limited_with_message) = JStr "Too many requests") /\
  (Classifier.kind_of Examples.jobs_fetched = Classifier.table /\
   option_map Chat.type (Exporter.returned (Chat.botMessage 0 Examples.jobs_fetched)) = Some "text").
Proof. split; [discriminate | repeat split; reflexivity]. Qed.

Lemma onmessage_returns es data s : fst (App.onmessage es data s) = Returned tt.
Proof. now rewrite onmessage_state. Qed.

Lemma onmessage_rejected es data s :
  Stream.rejected data = true ->
  exec (App.onmessage es data) s =
  {| App.curriculum := App.curriculum s;
     App.submitted := App.submitted s;
     App.streaming := false;
     App.messages := App.messages s ++ [App.parse_error_entry];
     App.progress := App.progress s;
     App.requests := App.requests s;
     App.sources := close_at es (App.sources s) |}.
Proof. intros R. unfold exec at 1. rewrite onmessage_state, R. reflexivity. Qed.

(** C2, amended.  The message handler of [App] never throws.  For an event
    body that is not JSON (or is the JSON text [null]) it appends one error
    entry with the fixed content "Error parsing stream data." and no step,
    leaves progress and everything else alone, and then ends the session's
    stream: the source is closed, [streaming] is false, and no later event of
    that source changes the state. *)
Theorem malformed_event_recovered (es : nat) (data : event_data) (s : App.State) :
  fst (App.onmessage es data s) = Returned tt /\
  (Stream.rejected data = true ->
   exec (App.onmessage es data) s =
     {| App.curriculum := App.curriculum s;
        App.submitted := App.submitted s;
        App.streaming := false;
        App.messages :=
          App.messages s ++
          [{| App.type := "error"; App.step := JUndefined;
              App.content := JStr "Error parsing stream data." |}];
        App.progress := App.progress s;
        App.requests := App.requests s;
        App.sources := close_at es (App.sources s) |} /\
   is_open es (App.sources (exec (App.onmessage es data) s)) = false /\
   forall later,
     App.receive es later (exec (App.onmessage es data) s) = exec (App.onmessage es data) s).
Proof.
  split; [apply onmessage_returns |]. intros R.
  assert (C : is_open es (App.sources (exec (App.onmessage es data) s)) = false).
  { rewrite onmessage_rejected by exact R. apply is_open_close_at. }
  split; [now apply onmessage_rejected |]. split; [exact C |].
  intros later. now apply receive_closed.
Qed.

Lemma malformed_event_recovered_witness :
  Stream.rejected Examples.not_json = true /\
  App.receive 0 [Parsed Examples.skills_extracted]
    (exec (App.onmessage 0 Examples.not_json) Examples.viewing)
  = exec (App.onmessage 0 Examples.not_json) Examples.viewing.
Proof.
  split; [reflexivity |].
  apply (proj2 (malformed_event_recovered 0 Examples.not_json Examples.viewing)).
  reflexivity.
Defined.

(** C2 as stated fails: after the body [hello] the stream of [App] does not
    continue, and the next event is not applied; in the chat component the
    stream continues but the diagnostic text is not fixed. *)
Lemma malformed_event_counterexample :
  (is_open 0 (App.sources Examples.viewing) = true /\
   App.streaming Examples.viewing = true /\
   is_open 0 (App.sources (exec (App.dispatch_message 0 Examples.not_json) Examples.viewing))
     = false /\
   App.streaming (exec (App.dispatch_message 0 Examples.not_json) Examples.viewing) = false /\
   App.messages
     (App.receive 0 [Examples.not_json; Parsed Examples.skills_extracted] Examples.viewing)
     = [App.parse_error_entry]) /\
  (map Chat.content
     (Chat.messages (exec (Chat.onmessage 0 3 Examples.not_json) Examples.chatting)) =
     [JStr "Python, SQL";
      JStr "Error processing message: Unexpected token h in JSON at position 0"] /\
   map Chat.content
     (Chat.messages
        (exec (Chat.onmessage 0 3 (Unparsable "Unexpected end of JSON input"))
           Examples.chatting)) =
     [JStr "Python, SQL";
      JStr "Error processing message: Unexpected end of JSON input"]).
Proof. repeat split; reflexivity. Qed.

Lemma truthy_field_not_nullish k v : truthy (field k v) = true -> nullish v = false.
Proof. destruct v; cbn; congruence. Qed.

(** C3, amended.  In [App], an event with a truthy error field, arriving on
    an open source, appends exactly one entry, sets [streaming] to false,
    closes the source, and no later event of that source changes the state.
    When its step is none of the seven content steps the entry has kind
    error, and its content is the error field when the data and message
    fields are absent or falsy. *)
Theorem upstream_error_is_terminal (es : nat) (parsed : value) (s : App.State) :
  truthy (field "error" parsed) = true ->
  is_open es (App.sources s) = true ->
  App.messages (exec (App.dispatch_message es (Parsed parsed)) s)
    = App.messages s ++ [App.entry parsed] /\
  App.streaming (exec (App.dispatch_message es (Parsed parsed)) s) = false /\
  is_open es (App.sources (exec (App.dispatch_message es (Parsed parsed)) s)) = false /\
  (forall later,
     App.receive es later (exec (App.dispatch_message es (Parsed parsed)) s)
     = exec (App.dispatch_message es (Parsed parsed)) s) /\
  (Classifier.step_among
     (Classifier.markdown_steps ++ Classifier.list_steps ++ ["jobs_fetched"]) parsed = false ->
   App.type (App.entry parsed) = "error" /\
   (truthy (field "data" parsed) = false ->
    truthy (field "message" parsed) = false ->
    App.content (App.entry parsed) = field "error" parsed)).
Proof.
  intros E O.
  assert (N : nullish parsed = false) by (eapply truthy_field_not_nullish; exact E).
  assert (T : Stream.terminal (Parsed parsed) = true).
  { cbn [Stream.terminal]. rewrite E. now rewrite !orb_true_r. }
  rewrite dispatch_open by exact O.
  assert (C : is_open es (App.sources (exec (App.onmessage es (Parsed parsed)) s)) = false).
  { rewrite sources_onmessage, T. apply is_open_close_at. }
  split. { rewrite messages_onmessage. cbn [Stream.entry_for]. now rewrite N. }
  split. { now rewrite streaming_onmessage, T. }
  split; [exact C |].
  split. { intros later. now apply receive_closed. }
  intros S. rewrite entry_classified. cbn [App.type App.content].
  assert (K : Classifier.kind_of parsed = Classifier.error).
  { unfold Classifier.step_among in S. rewrite !existsb_app in S.
    apply orb_false_elim in S as [S1 S2]. apply orb_false_elim in S2 as [S2 S3].
    unfold Classifier.kind_of, Classifier.step_among. now rewrite S1, S2, S3, E. }
  split; [now rewrite K |].
  intros D M. unfold Classifier.payload. rewrite K.
  unfold Classifier.first_truthy. cbn [fold_right]. now rewrite D, M.
Qed.

Lemma upstream_error_is_terminal_witness :
  App.messages (exec (App.dispatch_message 0 (Parsed Examples.rate_limited)) Examples.viewing)
    = [{| App.type := "error"; App.step := JUndefined; App.content := JStr "rate limited" |}] /\
  App.streaming (exec (App.dispatch_message 0 (Parsed Examples.rate_limited)) Examples.viewing)
    = false.
Proof.
  destruct (upstream_error_is_terminal 0 Examples.rate_limited Examples.viewing
              eq_refl eq_refl) as [M [S _]].
  split; [exact M | exact S].
Defined.

(** C3 as stated fails: the chat component records [{error: "rate limited"}]
    as an empty text entry and keeps applying events; in [App] the content is
    the message field when the event has one. *)
Lemma upstream_error_counterexample :
  (Chat.messages (exec (Chat.dispatch_message 0 3 (Parsed Examples.rate_limited))
                    Examples.chatting)
   = Chat.messages Examples.chatting ++
     [{| Chat.id := 3; Chat.sender := "bot"; Chat.type := "text";
         Chat.content := JStr ""; Chat.step := JUndefined |}] /\
   is_open 0 (Chat.sources (exec (Chat.dispatch_message 0 3 (Parsed Examples.rate_limited))
                              Examples.chatting)) = true /\
   length (Chat.messages
             (exec (Chat.dispatch_message 0 4 (Parsed Examples.skills_extracted))
                (exec (Chat.dispatch_message 0 3 (Parsed Examples.rate_limited))
                   Examples.chatting))) = 3%nat) /\
  (truthy (field "error" Examples.rate_limited_with_message) = true /\
   field "error" Examples.rate_limited_with_message = JStr "rate limited" /\
   App.messages (exec (App.dispatch_message 0 (Parsed Examples.rate_limited_with_message))
                   Examples.viewing)
   = [{| App.type := "error"; App.step := JUndefined;
         App.content := JStr "Too many requests" |}]).
Proof. repeat split; reflexivity. Qed.

(** ** Export *)

Lemma returned_obind {A B} (c : outcome A) (k : A -> outcome B) :
  Exporter.returned (obind c k) =
  match Exporter.returned c with
  | Some a => Exporter.returned (k a)
  | None => None
  end.
Proof. destruct c; reflexivity. Qed.

Lemma returned_omap {A B} (f : A -> outcome B) (xs : list A) :
  Exporter.returned (omap f xs) = Exporter.traverse (fun x => Exporter.returned (f x)) xs.
Proof.
  induction xs as [| x r IH]; [reflexivity |].
  cbn [omap Exporter.traverse]. rewrite returned_obind.
  destruct (Exporter.returned (f x)); [| reflexivity].
  rewrite returned_obind, IH.
  destruct (Exporter.traverse _ r); reflexivity.
Qed.

Lemma traverse_ext {A B} (f g : A -> option B) (xs : list A) :
  (forall x, In x xs -> f x = g x) -> Exporter.traverse f xs = Exporter.traverse g xs.
Proof.
  induction xs as [| x r IH]; intros H; [reflexivity |].
  cbn [Exporter.traverse]. rewrite (H x (or_introl eq_refl)), IH; [reflexivity |].
  intros y Hy. apply H. now right.
Qed.

Lemma step_prefix_label m suffix :
  Exporter.returned (App.step_prefix m suffix) = Exporter.label m suffix.
Proof.
  unfold App.step_prefix, Exporter.label, Exporter.text_of.
  destruct (truthy (App.step m)); [| reflexivity].
  rewrite returned_obind. destruct (to_string (App.step m)); reflexivity.
Qed.

(** A row of the code is a row of the format. *)
Lemma job_row_row job : Exporter.returned (App.job_row job) = Exporter.row job.
Proof.
  unfold Exporter.row.
  destruct (nullish job) eqn:N.
  - destruct job; try discriminate; reflexivity.
  - assert (G : forall k, get job k = Returned (field k job)).
    { intros k. destruct job; try discriminate; reflexivity. }
    unfold App.job_row. rewrite !G. cbn [obind].
    unfold join. rewrite returned_obind, returned_omap.
    unfold Exporter.columns. cbn [Exporter.traverse].
    unfold join_element, Exporter.cell, Exporter.text_of.
    repeat match goal with
           | |- context [if nullish ?v then _ else _] => destruct (nullish v)
           | |- context [Exporter.returned (to_string ?v)] => destruct (to_string v)
           end; reflexivity.
Qed.

Lemma format_text m :
  Exporter.returned
    (let! label := App.step_prefix m ": " in
     let! c := to_string (App.content m) in
     Returned (label ++ c)%string)
  = Exporter.text_entry m.
Proof.
  rewrite returned_obind, step_prefix_label. unfold Exporter.text_entry, Exporter.text_of.
  destruct (Exporter.label m ": "); [| reflexivity].
  rewrite returned_obind. destruct (to_string (App.content m)); reflexivity.
Qed.

(** One entry: the callback of the code against the format by kind. *)
Lemma format_msg_flatten_entry m :
  Exporter.classified m = true ->
  Exporter.returned (App.format_msg m) = Exporter.flatten_entry m.
Proof.
  destruct m as [t st c].
  unfold Exporter.classified, Exporter.flatten_entry, Exporter.kind_of_type, App.format_msg.
  cbn [App.type App.step App.content].
  destruct (t =? "text")%string eqn:E1.
  { apply String.eqb_eq in E1. subst t. cbn [String.eqb Ascii.eqb Bool.eqb].
    intros H. apply negb_true_iff in H.
    unfold App.is_jobs_table. cbn [App.step]. rewrite H. cbn [andb]. apply format_text. }
  destruct (t =? "markdown")%string eqn:E2.
  { intros _. rewrite returned_obind. unfold Exporter.markdown_entry. cbn [App.content].
    destruct c; reflexivity. }
  destruct (t =? "list")%string eqn:E3.
  { intros _. rewrite returned_obind, step_prefix_label.
    unfold Exporter.list_entry. cbn [App.content].
    destruct c; cbn [App.content_map];
      try (destruct (Exporter.label _ _); reflexivity).
    destruct (Exporter.label _ _); [| reflexivity].
    rewrite returned_obind, returned_omap.
    rewrite (traverse_ext _
               (fun item => option_map (append "- ") (Exporter.text_of item))).
    - destruct (Exporter.traverse _ items); reflexivity.
    - intros x _. rewrite returned_obind. unfold Exporter.text_of.
      destruct (to_string x); reflexivity. }
  destruct (t =? "jobs")%string eqn:E4.
  { apply String.eqb_eq in E4. subst t. cbn [String.eqb Ascii.eqb Bool.eqb].
    intros H. unfold App.is_jobs_table. cbn [App.step App.content]. rewrite H. cbn [andb].
    change (match c with JArr (first :: _) => typeof_object first | _ => false end)
      with (Exporter.has_records c).
    destruct (Exporter.has_records c) eqn:R.
    - unfold Exporter.table_entry. cbn [App.content].
      destruct c; try discriminate. cbn [App.content_map].
      rewrite returned_obind, returned_omap.
      rewrite (traverse_ext _ Exporter.row) by (intros x _; apply job_row_row).
      destruct (Exporter.traverse Exporter.row items).
      + rewrite returned_obind, step_prefix_label.
        destruct (Exporter.label _ _); reflexivity.
      + destruct (Exporter.label _ _); reflexivity.
    - apply format_text. }
  destruct (t =? "error")%string eqn:E5.
  { apply String.eqb_eq in E5. subst t. cbn [String.eqb Ascii.eqb Bool.eqb].
    intros H. apply negb_true_iff in H.
    unfold App.is_jobs_table. cbn [App.step]. rewrite H. cbn [andb].
    rewrite returned_obind. unfold Exporter.error_entry, Exporter.text_of.
    cbn [App.content]. destruct (to_string c); reflexivity. }
  discriminate.
Qed.

(** C8, amended.  [getAnalysisText] depends on the timeline only, and on a
    timeline of classified entries it returns exactly the entries formatted
    by kind and joined by the fixed separator in timeline order: markdown
    stripped and trimmed, list as label and bullet lines, error behind
    "Error: ", text as label and content, and a table as label, header row
    and one row per record when its content starts with a record; a table
    entry with no record is written like a text entry.  It throws exactly
    when an entry has no such text. *)
Theorem flatten_formats_by_kind (s t : App.State) :
  forallb Exporter.classified (App.messages s) = true ->
  App.messages t = App.messages s ->
  Exporter.returned (App.getAnalysisText t) = Exporter.flatten (App.messages s).
Proof.
  intros C E. unfold App.getAnalysisText, Exporter.flatten. rewrite E.
  rewrite returned_obind, returned_omap.
  rewrite (traverse_ext _ Exporter.flatten_entry).
  - destruct (Exporter.traverse Exporter.flatten_entry (App.messages s)); reflexivity.
  - intros m Hm. apply format_msg_flatten_entry.
    rewrite forallb_forall in C. now apply C.
Qed.

Lemma kind_of_type_name k : Exporter.kind_of_type (Classifier.type_name k) = Some k.
Proof. destruct k; reflexivity. Qed.

Lemma entry_is_classified parsed : Exporter.classified (App.entry parsed) = true.
Proof.
  rewrite entry_classified. unfold Exporter.classified. cbn [App.type App.step].
  rewrite kind_of_type_name.
  unfold Classifier.kind_of, Classifier.step_among.
  destruct (existsb _ Classifier.markdown_steps); [reflexivity |].
  destruct (existsb _ Classifier.list_steps); [reflexivity |].
  cbn [existsb]. rewrite orb_false_r.
  destruct (is_str "jobs_fetched" (field "step" parsed)) eqn:J; [reflexivity |].
  destruct (truthy (field "error" parsed)); reflexivity.
Qed.

Lemma entry_for_classified data : Exporter.classified (Stream.entry_for data) = true.
Proof.
  destruct data as [m | v]; [reflexivity |]. cbn [Stream.entry_for].
  destruct (nullish v); [reflexivity | apply entry_is_classified].
Qed.

(** Every entry the stream appends is a classified one. *)
Lemma receive_classified es datas s :
  forallb Exporter.classified (App.messages s) = true ->
  forallb Exporter.classified (App.messages (App.receive es datas s)) = true.
Proof.
  intros H. rewrite messages_receive, forallb_app, H. cbn [andb].
  apply forallb_forall. intros m Hm. apply in_map_iff in Hm as [d [<- _]].
  apply entry_for_classified.
Qed.

Lemma flatten_formats_by_kind_witness :
  Exporter.returned
    (App.getAnalysisText
       (App.receive 0 [Parsed Examples.skills_extracted; Parsed Examples.jobs_fetched;
                       Parsed Examples.rate_limited] Examples.viewing))
  = Some ("skills_extracted:" ++ nl ++ "- Python" ++ nl ++ "- SQL"
          ++ Exporter.fixed_separator
          ++ "jobs_fetched:" ++ nl ++ Exporter.header_row ++ nl
          ++ "Engineer | Acme |  |  |  |  | "
          ++ Exporter.fixed_separator
          ++ "Error: rate limited")%string.
Proof.
  exact (flatten_formats_by_kind
           (App.receive 0 [Parsed Examples.skills_extracted; Parsed Examples.jobs_fetched;
                           Parsed Examples.rate_limited] Examples.viewing)
           (App.receive 0 [Parsed Examples.skills_extracted; Parsed Examples.jobs_fetched;
                           Parsed Examples.rate_limited] Examples.viewing)
           eq_refl eq_refl).
Defined.

(** C8 as stated fails: a table entry with no job record is exported without
    the header row. *)
Lemma flatten_counterexample :
  Exporter.returned (App.getAnalysisText (App.receive 0 [Parsed Examples.no_jobs] Examples.viewing))
    <> Exporter.claimed_flatten
         (App.messages (App.receive 0 [Parsed Examples.no_jobs] Examples.viewing)) /\
  App.messages (App.receive 0 [Parsed Examples.no_jobs] Examples.viewing)
    = [{| App.type := "jobs"; App.step := JStr "jobs_fetched"; App.content := JArr [] |}] /\
  Exporter.claimed_flatten (App.messages (App.receive 0 [Parsed Examples.no_jobs] Examples.viewing))
    = Some ("jobs_fetched:" ++ nl ++ Exporter.header_row ++ nl)%string /\
  App.getAnalysisText (App.receive 0 [Parsed Examples.no_jobs] Examples.viewing)
    = Returned "jobs_fetched: ".
Proof. split; [discriminate | repeat split; reflexivity]. Qed.

(** C5, amended.  For every [jobs_fetched] event the entry has kind table
    (type [jobs]) and its payload is the first truthy of the data and message
    fields, else the error field: a data array is stored unchanged, with no
    field defaulted and no element dropped.  It is the export that writes an
    absent field of a record as the empty string. *)
Theorem jobs_payload_is_unvalidated_data (parsed : value) :
  is_str "jobs_fetched" (field "step" parsed) = true ->
  App.type (App.entry parsed) = "jobs" /\
  App.content (App.entry parsed)
    = Classifier.first_truthy [field "data" parsed; field "message" parsed]
        (field "error" parsed) /\
  (forall records,
     field "data" parsed = JArr records ->
     App.content (App.entry parsed) = JArr records /\
     forall record, In record records ->
       Exporter.returned (App.job_row record) = Exporter.row record).
Proof.
  intros J.
  assert (K : Classifier.kind_of parsed = Classifier.table).
  { unfold Classifier.kind_of, Classifier.step_among. cbn [existsb].
    destruct (field "step" parsed) as [| | | | k | |]; try discriminate.
    cbn [is_str] in J |- *. apply String.eqb_eq in J. subst k. reflexivity. }
  rewrite entry_classified. cbn [App.type App.content]. unfold Classifier.payload. rewrite K.
  split; [reflexivity |]. split; [reflexivity |].
  intros records D. rewrite D. split; [reflexivity |].
  intros record _. apply job_row_row.
Qed.

Lemma jobs_payload_is_unvalidated_data_witness :
  App.content (App.entry Examples.jobs_fetched)
    = JArr [JObj [("title", JStr "Engineer"); ("company", JStr "Acme")]] /\
  Exporter.returned
    (App.job_row (JObj [("title", JStr "Engineer"); ("company", JStr "Acme")]))
    = Some "Engineer | Acme |  |  |  |  | ".
Proof.
  destruct (jobs_payload_is_unvalidated_data Examples.jobs_fetched eq_refl) as [_ [_ H]].
  destruct (H [JObj [("title", JStr "Engineer"); ("company", JStr "Acme")]] eq_refl)
    as [C R].
  split; [exact C |].
  exact (R (JObj [("title", JStr "Engineer"); ("company", JStr "Acme")])
           (or_introl eq_refl)).
Defined.

(** C5 as stated fails: the stored record of scenario B has no [location],
    and an element that is not a record stays in the payload. *)
Lemma jobs_payload_counterexample :
  Returned (App.content (App.entry Examples.jobs_fetched))
    <> Classifier.claimed_payload Examples.jobs_fetched /\
  (Classifier.claimed_payload Examples.jobs_fetched
   = Returned (JArr [JObj [("title", JStr "Engineer"); ("company", JStr "Acme");
                           ("location", JStr ""); ("source_platform", JStr "");
                           ("posted_date", JStr ""); ("salary", JStr "");
                           ("description", JStr ""); ("job_url", JStr "")]]) /\
   App.content (App.entry Examples.jobs_fetched)
   = JArr [JObj [("title", JStr "Engineer"); ("company", JStr "Acme")]] /\
   map (field "location") [JObj [("title", JStr "Engineer"); ("company", JStr "Acme")]]
   = [JUndefined]) /\
  (Classifier.validated_records (field "data" Examples.jobs_with_stray_element)
   = Classifier.validated_records (field "data" Examples.jobs_fetched) /\
   App.content (App.entry Examples.jobs_with_stray_element)
   = JArr [JObj [("title", JStr "Engineer"); ("company", JStr "Acme")]; JNum 7]).
Proof. split; [discriminate | repeat split; reflexivity]. Qed.

Lemma findIndex_from_none {A} (p : A -> bool) xs i :
  forallb (fun x => negb (p x)) xs = true -> findIndex_from p xs i = -1.
Proof.
  revert i. induction xs as [| x r IH]; intros i H; [reflexivity |].
  cbn [forallb] in H. apply andb_prop in H as [Hx Hr].
  cbn [findIndex_from]. apply negb_true_iff in Hx. rewrite Hx. now apply IH.
Qed.

Lemma findIndex_from_some {A} (p : A -> bool) xs i :
  existsb p xs = true ->
  i <= findIndex_from p xs i < i + Z.of_nat (length xs) /\
  exists x, nth_error xs (Z.to_nat (findIndex_from p xs i - i)) = Some x /\ p x = true.
Proof.
  revert i. induction xs as [| x r IH]; intros i H; [discriminate |].
  cbn [findIndex_from]. cbn [existsb] in H. destruct (p x) eqn:P.
  - split; [cbn [length]; lia |]. exists x. rewrite Z.sub_diag. now split.
  - cbn [orb] in H. destruct (IH (i + 1) H) as [B [y [N Py]]].
    split; [cbn [length]; lia |]. exists y. split; [| exact Py].
    replace (Z.to_nat (findIndex_from p r (i + 1) - i))
      with (S (Z.to_nat (findIndex_from p r (i + 1) - (i + 1)))) by lia.
    exact N.
Qed.

(** C9.  The current-step position is 0 when no step was seen, -1 when the
    most recently added step is not in the catalog, and otherwise the
    position of that step in the catalog. *)
Theorem currentStepIdx_partial (s : App.State) :
  (App.progress s = [] -> App.currentStepIdx s = 0) /\
  (App.progress s <> [] ->
   forallb (fun st => negb (is_str (fst st) (last (App.progress s) JUndefined))) App.STEPS = true ->
   App.currentStepIdx s = -1) /\
  (App.progress s <> [] ->
   existsb (fun st => is_str (fst st) (last (App.progress s) JUndefined)) App.STEPS = true ->
   0 <= App.currentStepIdx s < Z.of_nat (length App.STEPS) /\
   exists label,
     nth_error App.STEPS (Z.to_nat (App.currentStepIdx s)) = Some label /\
     last (App.progress s) JUndefined = JStr (fst label)).
Proof.
  unfold App.currentStepIdx.
  split; [intros ->; reflexivity |].
  split.
  - intros N H. destruct (App.progress s) as [| v r] eqn:E; [congruence |].
    unfold findIndex. now apply findIndex_from_none.
  - intros N H. destruct (App.progress s) as [| v r] eqn:E; [congruence |].
    unfold findIndex.
    destruct (findIndex_from_some _ _ 0 H) as [B [label [Nth P]]].
    split; [lia |]. exists label. rewrite Z.sub_0_r in Nth. split; [exact Nth |].
    destruct (last (v :: r) JUndefined) as [| | | | k | |]; try discriminate.
    cbn [is_str] in P. apply String.eqb_eq in P. now subst k.
Qed.

Lemma currentStepIdx_partial_witness :
  App.progress (App.receive 0 [Parsed Examples.unknown_step] Examples.viewing)
    = [JStr "warming_up"] /\
  App.currentStepIdx (App.receive 0 [Parsed Examples.unknown_step] Examples.viewing) = -1.
Proof.
  split; [reflexivity |].
  apply (proj1 (proj2 (currentStepIdx_partial
                  (App.receive 0 [Parsed Examples.unknown_step] Examples.viewing)))).
  - discriminate.
  - reflexivity.
Defined.

(** ** Submission *)

Lemma trimStart_blank s :
  forallb is_white_space (list_ascii_of_string s) = true -> trimStart s = "".
Proof.
  induction s as [| c r IH]; [reflexivity |].
  cbn [list_ascii_of_string forallb trimStart]. intros H.
  apply andb_prop in H as [Hc Hr]. rewrite Hc. now apply IH.
Qed.

Lemma trim_blank s :
  forallb is_white_space (list_ascii_of_string s) = true -> trim s = "".
Proof. intros H. unfold trim. now rewrite trimStart_blank. Qed.

Lemma trimStart_head s :
  match trimStart s with
  | EmptyString => forallb is_white_space (list_ascii_of_string s) = true
  | String c _ => is_white_space c = false
  end.
Proof.
  induction s as [| c r IH]; [reflexivity |].
  cbn [trimStart list_ascii_of_string forallb].
  destruct (is_white_space c) eqn:W; [| exact W].
  destruct (trimStart r); [exact IH | exact IH].
Qed.

(** The guard [!text.trim()] fires for blank input only. *)
Lemma trim_empty_blank s :
  trim s = "" -> forallb is_white_space (list_ascii_of_string s) = true.
Proof.
  unfold trim. intros H. pose proof (trimStart_head s) as T.
  destruct (trimStart s) as [| c r]; [exact T |].
  cbn [trimEnd] in H. rewrite T in H. destruct (trimEnd r); discriminate.
Qed.

(** C10.  Submitting an input that is empty or consists of white space only
    returns at once in all three components: the whole state, the requests
    sent and the event sources included, is as before. *)
Theorem blank_submit_is_noop (text : string) :
  forallb is_white_space (list_ascii_of_string text) = true ->
  (forall s r, App.curriculum s = text ->
     App.handleSubmit r s = (Returned tt, s) /\ App.click_Analyze r s = (Returned tt, s)) /\
  (forall s now later r, Chat.inputValue s = text ->
     Chat.handleSubmit now later r s = (Returned tt, s)) /\
  (forall s r, Analysis.curriculum s = text ->
     Analysis.handleSubmit r s = (Returned tt, s)).
Proof.
  intros B. apply trim_blank in B.
  split; [| split].
  - intros s r E.
    assert (H : App.handleSubmit r s = (Returned tt, s)).
    { cbv [App.handleSubmit App.handleSubmit_begin bind gets]. rewrite E, B. reflexivity. }
    split; [exact H |].
    cbv [App.click_Analyze bind gets when]. destruct (App.streaming s); cbn [negb].
    + reflexivity.
    + exact H.
  - intros s now later r E.
    cbv [Chat.handleSubmit Chat.handleSubmit_begin bind gets]. rewrite E, B. reflexivity.
  - intros s r E.
    cbv [Analysis.handleSubmit Analysis.handleSubmit_begin bind gets]. rewrite E, B.
    reflexivity.
Qed.

Lemma blank_submit_is_noop_witness :
  App.handleSubmit (Response 200) (exec (App.setCurriculum "   ") Examples.viewing)
  = (Returned tt, exec (App.setCurriculum "   ") Examples.viewing).
Proof.
  apply (proj1 (blank_submit_is_noop "   " eq_refl)
           (exec (App.setCurriculum "   ") Examples.viewing) (Response 200) eq_refl).
Defined.

(** C4 fails in [App]: type "Python, SQL", submit (status 200), change the
    field to "Java", click View Results; the request carried "Python, SQL"
    and the event source is opened for "Java".  On the stand-alone page the
    same steps open the source for the submitted text. *)
Theorem view_streams_the_edited_text :
  (map curriculum_text
     (App.requests
        (exec App.click_ViewResults
           (exec (App.onChange "Java")
              (exec (App.click_Analyze (Response 200))
                 (exec (App.onChange "Python, SQL") App.initial)))))
   = ["Python, SQL"] /\
   App.sources
     (exec App.click_ViewResults
        (exec (App.onChange "Java")
           (exec (App.click_Analyze (Response 200))
              (exec (App.onChange "Python, SQL") App.initial))))
   = [{| url := (App.BACKEND_URL ++ "?curriculum_text=Java")%string; closed := false |}]) /\
  (map curriculum_text
     (Page.requests
        (exec Page.click_view
           (exec (Page.set_value "Java")
              (exec (Page.submitBtn_onclick (Response 200))
                 (exec (Page.set_value "Python, SQL") Page.initial)))))
   = ["Python, SQL"] /\
   Page.sources
     (exec Page.click_view
        (exec (Page.set_value "Java")
           (exec (Page.submitBtn_onclick (Response 200))
              (exec (Page.set_value "Python, SQL") Page.initial))))
   = [{| url := (Page.BACKEND_URL ++ "?curriculum_text=Python%2C%20SQL")%string;
         closed := false |}]).
Proof. repeat split; reflexivity. Qed.

(** [handleView] of [App] opens the stream for whatever the field holds. *)
Lemma handleView_reads_current_curriculum (s : App.State) :
  App.sources (exec App.handleView s) =
  App.sources s ++
  [{| url := (App.BACKEND_URL ++ "?curriculum_text=" ++ encodeURIComponent (App.curriculum s))%string;
      closed := false |}].
Proof. reflexivity. Qed.

(** On the page, what was typed after submitting does not reach the stream. *)
Lemma Page_view_reads_lastCurriculum (s : Page.State) (typed : string) :
  Page.lastCurriculum s <> "" ->
  Page.sources (exec Page.viewBtn_onclick (exec (Page.set_value typed) s)) =
  Page.sources s ++
  [{| url := (Page.BACKEND_URL ++ "?curriculum_text="
              ++ encodeURIComponent (Page.lastCurriculum s))%string;
      closed := false |}].
Proof.
  intros N. cbv [Page.viewBtn_onclick exec bind gets Page.set_value modify snd].
  cbn [Page.lastCurriculum]. apply String.eqb_neq in N. rewrite N. reflexivity.
Qed.

(** On the page, a successful submission records the text it posted. *)
Lemma Page_submit_freezes_posted_text (s : Page.State) (status : Z) :
  trim (Page.curriculum_value s) <> "" -> ok status = true ->
  Page.lastCurriculum (exec (Page.submitBtn_onclick (Response status)) s)
    = trim (Page.curriculum_value s) /\
  Page.requests (exec (Page.submitBtn_onclick (Response status)) s)
    = Page.requests s ++
      [{| req_url := Page.BACKEND_URL; curriculum_text := trim (Page.curriculum_value s) |}].
Proof.
  intros N O. apply String.eqb_neq in N.
  cbv [Page.submitBtn_onclick Page.submitBtn_onclick_begin Page.submitBtn_onclick_resume
       exec bind gets try_catch]. rewrite N.
  cbv [Page.set_output Page.set_disabled Page.fetch_POST Page.set_lastCurriculum modify ret].
  rewrite O. cbn. split; reflexivity.
Qed.

Lemma close_at_cons n x r : close_at (S n) (x :: r) = x :: close_at n r.
Proof. unfold close_at. cbn. destruct (nth_error r n); reflexivity. Qed.

Lemma map_url_close_at es l : map url (close_at es l) = map url l.
Proof.
  revert es. induction l as [| x r IH]; intros es.
  - unfold close_at. destruct es; reflexivity.
  - destruct es as [| n]; [reflexivity |].
    rewrite close_at_cons. cbn [map]. now rewrite IH.
Qed.

(** The chat component opens the stream for the text it posted. *)
Lemma Chat_stream_uses_posted_text (s : Chat.State) (now later status : Z) :
  trim (Chat.inputValue s) <> "" -> ok status = true ->
  Chat.requests (exec (Chat.handleSubmit now later (Response status)) s)
    = Chat.requests s ++
      [{| req_url := Chat.backendUrl s; curriculum_text := Chat.inputValue s |}] /\
  map url (Chat.sources (exec (Chat.handleSubmit now later (Response status)) s))
    = map url (Chat.sources s) ++
      [(Chat.backendUrl s ++ "?curriculum_text="
        ++ encodeURIComponent (Chat.inputValue s))%string].
Proof.
  intros N O. apply String.eqb_neq in N.
  cbv [Chat.handleSubmit Chat.handleSubmit_begin Chat.handleSubmit_resume
       exec bind gets try_catch]. rewrite N.
  cbv [Chat.setMessages Chat.setInputValue Chat.fetch_POST Chat.new_EventSource
       Chat.setEventSourceInstance Chat.close modify ret gets bind when].
  cbn [Chat.eventSourceInstance Chat.backendUrl Chat.inputValue].
  destruct (Chat.eventSourceInstance s) as [es |]; cbn; rewrite O; cbn.
  - destruct (es =? length (close_at es (Chat.sources s)))%nat; cbn;
      (split; [reflexivity |]);
      rewrite ?map_url_close_at, map_app, map_url_close_at; reflexivity.
  - split; [reflexivity |]. now rewrite map_app.
Qed.

(** ** Timeline and progress *)

(** The chat component, too, never throws and appends one message per event. *)
Lemma Chat_onmessage_appends es now data (s : Chat.State) :
  exists m,
    Chat.onmessage es now data s
    = (Returned tt, snd (Chat.onmessage es now data s)) /\
    Chat.messages (exec (Chat.onmessage es now data) s) = Chat.messages s ++ [m].
Proof.
  destruct data as [msg | parsed].
  { eexists. split; reflexivity. }
  cbv [Chat.onmessage exec try_catch bind JSON_parse ret lift snd].
  destruct (get parsed "step") as [v | e]; [| eexists; split; reflexivity].
  destruct (Chat.botMessage now parsed) as [m | e]; [| eexists; split; reflexivity].
  cbv [Chat.setMessages Chat.close Chat.setEventSourceInstance modify when bind gets ret].
  destruct (is_str "complete" (field "step" parsed)); [| eexists; split; reflexivity].
  cbn [Chat.eventSourceInstance].
  destruct (Chat.eventSourceInstance s) as [i |]; cbn; eexists; split; reflexivity.
Qed.

(** C6, amended.  Over a sequence of message events of a source, with no
    answer to a submission arriving in between, the timeline is append-only.
    Each event handled appends its entry at the end; the timeline grows by
    the entries of the events delivered, in their order: an entry already
    there keeps its position and its value, the entry of the k-th event sits
    k places after the old end, and when no event before the last is terminal
    every event has its entry. *)
Theorem timeline_append_only (es : nat) (datas : list event_data) (s : App.State) :
  (forall data,
     App.messages (exec (App.onmessage es data) s) = App.messages s ++ [Stream.entry_for data]) /\
  App.messages (App.receive es datas s)
    = App.messages s
      ++ map Stream.entry_for (Stream.delivered (is_open es (App.sources s)) datas) /\
  (forall i m, nth_error (App.messages s) i = Some m ->
     nth_error (App.messages (App.receive es datas s)) i = Some m) /\
  (forall k d,
     nth_error (Stream.delivered (is_open es (App.sources s)) datas) k = Some d ->
     nth_error datas k = Some d /\
     nth_error (App.messages (App.receive es datas s)) (length (App.messages s) + k)
       = Some (Stream.entry_for d)) /\
  (is_open es (App.sources s) = true ->
   forallb (fun d => negb (Stream.terminal d)) (removelast datas) = true ->
   App.messages (App.receive es datas s) = App.messages s ++ map Stream.entry_for datas).
Proof.
  split; [intros data; apply messages_onmessage |].
  split; [apply messages_receive |].
  split.
  { intros i m H. rewrite messages_receive, nth_error_app1; [exact H |].
    apply nth_error_Some. congruence. }
  split.
  { intros k d H. split.
    - destruct (is_open es (App.sources s)); cbn [Stream.delivered] in H.
      + now apply until_terminal_prefix.
      + destruct k; discriminate.
    - rewrite messages_receive, nth_error_app2 by lia.
      replace (length (App.messages s) + k - length (App.messages s))%nat with k by lia.
      rewrite nth_error_map, H. reflexivity. }
  intros O H. rewrite messages_receive, O. cbn [Stream.delivered].
  now rewrite until_terminal_all.
Qed.

Lemma timeline_append_only_witness :
  nth_error
    (App.messages
       (App.receive 0 [Parsed Examples.skills_extracted; Parsed Examples.jobs_fetched]
          (exec (App.onmessage 0 (Parsed Examples.unknown_step)) Examples.viewing))) 0
  = Some {| App.type := "text"; App.step := JStr "warming_up"; App.content := JUndefined |} /\
  nth_error
    (App.messages
       (App.receive 0 [Parsed Examples.skills_extracted; Parsed Examples.jobs_fetched]
          (exec (App.onmessage 0 (Parsed Examples.unknown_step)) Examples.viewing))) 2
  = Some (App.entry Examples.jobs_fetched).
Proof.
  pose proof (timeline_append_only 0
                [Parsed Examples.skills_extracted; Parsed Examples.jobs_fetched]
                (exec (App.onmessage 0 (Parsed Examples.unknown_step)) Examples.viewing))
    as [_ [_ [Kept [Placed _]]]].
  split.
  - apply Kept. reflexivity.
  - apply (Placed 1%nat (Parsed Examples.jobs_fetched)). reflexivity.
Defined.

(** C6 as stated fails.  Analyze is clicked twice before any answer; the first
    request is answered 200, View Results opens the stream and an event is
    recorded; then the second request is answered 500, and its answer
    replaces the timeline by one error entry while the stream is still open.
    And after a stream has completed, a second click on View Results, with no
    new submission, empties the timeline. *)
Lemma timeline_append_only_counterexample :
  App.messages
    (Session.run
       [Session.Typed "Python, SQL"; Session.Analyze; Session.Analyze;
        Session.Settled (Response 200); Session.ViewResults;
        Session.MessageEvent 0 (Parsed Examples.skills_extracted)]
       App.initial)
    = [{| App.type := "list"; App.step := JStr "skills_extracted";
          App.content := JArr [JStr "Python"; JStr "SQL"] |}] /\
  is_open 0
    (App.sources
       (Session.run
          [Session.Typed "Python, SQL"; Session.Analyze; Session.Analyze;
           Session.Settled (Response 200); Session.ViewResults;
           Session.MessageEvent 0 (Parsed Examples.skills_extracted)]
          App.initial)) = true /\
  App.messages
    (Session.run
       [Session.Typed "Python, SQL"; Session.Analyze; Session.Analyze;
        Session.Settled (Response 200); Session.ViewResults;
        Session.MessageEvent 0 (Parsed Examples.skills_extracted);
        Session.Settled (Response 500)]
       App.initial)
    = [{| App.type := "error"; App.step := JUndefined;
          App.content := JStr "POST failed: 500" |}] /\
  is_open 0
    (App.sources
       (Session.run
          [Session.Typed "Python, SQL"; Session.Analyze; Session.Analyze;
           Session.Settled (Response 200); Session.ViewResults;
           Session.MessageEvent 0 (Parsed Examples.skills_extracted);
           Session.Settled (Response 500)]
          App.initial)) = true /\
  nth_error
    (App.messages
       (Session.run
          [Session.Typed "Python, SQL"; Session.Analyze;
           Session.Settled (Response 200); Session.ViewResults;
           Session.MessageEvent 0 (Parsed Examples.skills_extracted);
           Session.MessageEvent 0 (Parsed Examples.complete)]
          App.initial)) 0
    = Some {| App.type := "list"; App.step := JStr "skills_extracted";
              App.content := JArr [JStr "Python"; JStr "SQL"] |} /\
  App.messages
    (Session.run
       [Session.Typed "Python, SQL"; Session.Analyze;
        Session.Settled (Response 200); Session.ViewResults;
        Session.MessageEvent 0 (Parsed Examples.skills_extracted);
        Session.MessageEvent 0 (Parsed Examples.complete);
        Session.ViewResults]
       App.initial) = [].
Proof. repeat split; vm_compute; reflexivity. Qed.

(** C7.  [progress] is an insertion-ordered set of step keys: over any
    sequence of events it only grows at the end, no key comes to occur twice,
    a recorded key keeps its position, and an event adds its (non-empty) key
    exactly when the key is not there yet. *)
Theorem seenSteps_insertion_ordered (es : nat) (datas : list event_data) (s : App.State) :
  (forall k, (Stream.count_key k (App.progress s) <= 1)%nat) ->
  (exists added, App.progress (App.receive es datas s) = App.progress s ++ added) /\
  (forall k, (Stream.count_key k (App.progress (App.receive es datas s)) <= 1)%nat) /\
  (forall i v, nth_error (App.progress s) i = Some v ->
     nth_error (App.progress (App.receive es datas s)) i = Some v) /\
  (forall data k, Stream.step_of data = JStr k ->
     App.progress (exec (App.dispatch_message es data) s) =
     if is_open es (App.sources s) && negb (k =? "")%string
        && (Stream.count_key k (App.progress s) =? 0)%nat
     then App.progress s ++ [JStr k] else App.progress s).
Proof.
  intros H. destruct (progress_receive es datas s H) as [[added E] C].
  split; [now exists added |]. split; [exact C |]. split.
  - intros i v N. rewrite E, nth_error_app1; [exact N |].
    apply nth_error_Some. congruence.
  - intros data k K. rewrite progress_dispatch, K, includes_count_key, negb_involutive.
    reflexivity.
Qed.

Lemma seenSteps_insertion_ordered_witness :
  App.progress
    (App.receive 0 [Parsed Examples.skills_extracted; Parsed Examples.jobs_fetched;
                    Parsed Examples.skills_extracted] Examples.viewing)
  = [JStr "skills_extracted"; JStr "jobs_fetched"] /\
  (Stream.count_key "skills_extracted"
     (App.progress
        (App.receive 0 [Parsed Examples.skills_extracted; Parsed Examples.jobs_fetched;
                        Parsed Examples.skills_extracted] Examples.viewing)) <= 1)%nat.
Proof.
  split; [reflexivity |].
  apply (seenSteps_insertion_ordered 0
           [Parsed Examples.skills_extracted; Parsed Examples.jobs_fetched;
            Parsed Examples.skills_extracted] Examples.viewing).
  intros k. exact (Nat.le_0_l 1).
Defined.

(** ** The scenarios of the specification on [App] *)

(** Scenario A: one list entry, one seen step, still streaming. *)
Example scenario_A :
  App.submitted Examples.viewing = true /\
  exec (App.dispatch_message 0 (Parsed Examples.skills_extracted)) Examples.viewing
  = {| App.curriculum := "Python, SQL"; App.submitted := true; App.streaming := true;
       App.messages :=
         [{| App.type := "list"; App.step := JStr "skills_extracted";
             App.content := JArr [JStr "Python"; JStr "SQL"] |}];
       App.progress := [JStr "skills_extracted"];
       App.requests := App.requests Examples.viewing;
       App.sources := App.sources Examples.viewing |}.
Proof. split; vm_compute; reflexivity. Qed.

(** Scenario C: the entry of [{step: "complete"}] is recorded with content
    [undefined], the step is seen, the stream ends. *)
Example scenario_C :
  exec (App.dispatch_message 0 (Parsed Examples.complete)) Examples.viewing
  = {| App.curriculum := "Python, SQL"; App.submitted := true; App.streaming := false;
       App.messages :=
         [{| App.type := "text"; App.step := JStr "complete"; App.content := JUndefined |}];
       App.progress := [JStr "complete"];
       App.requests := App.requests Examples.viewing;
       App.sources := close_at 0 (App.sources Examples.viewing) |}.
Proof. vm_compute. reflexivity. Qed.

(** Scenario E: status 500 leaves one error entry, View Results stays
    disabled, and no event source is ever created. *)
Example scenario_E :
  exec App.click_ViewResults
    (exec (App.click_Analyze (Response 500)) (exec (App.onChange "Python, SQL") App.initial))
  = {| App.curriculum := "Python, SQL"; App.submitted := false; App.streaming := false;
       App.messages :=
         [{| App.type := "error"; App.step := JUndefined;
             App.content := JStr "POST failed: 500" |}];
       App.progress := [];
       App.requests := [{| req_url := App.BACKEND_URL; curriculum_text := "Python, SQL" |}];
       App.sources := [] |}.
Proof. reflexivity. Qed.

(* ================================================================== *)
(** * Further properties of the components *)

(** ** The event sources of [App] *)

Lemma close_at_nil es : close_at es [] = [].
Proof. unfold close_at. destruct es; reflexivity. Qed.

Lemma close_at_zero e r :
  close_at 0 (e :: r) = {| url := url e; closed := true |} :: r.
Proof. reflexivity. Qed.

Lemma is_open_close_at_other i es l :
  i <> es -> is_open i (close_at es l) = is_open i l.
Proof.
  revert i es. induction l as [| e r IH]; intros i es N.
  - now rewrite close_at_nil.
  - destruct es as [| es].
    + rewrite close_at_zero. destruct i as [| i]; [congruence | reflexivity].
    + rewrite close_at_cons. destruct i as [| i]; [reflexivity |].
      unfold is_open in *. cbn [nth_error]. apply IH. congruence.
Qed.

Lemma length_close_at es l : length (close_at es l) = length l.
Proof.
  revert es. induction l as [| e r IH]; intros es.
  - now rewrite close_at_nil.
  - destruct es as [| es]; [reflexivity |]. rewrite close_at_cons. cbn [length]. now rewrite IH.
Qed.

Lemma is_open_beyond i l : (length l <= i)%nat -> is_open i l = false.
Proof.
  intros H. unfold is_open. apply nth_error_None in H. now rewrite H.
Qed.

Lemma is_open_app_new i l u :
  is_open i (l ++ [{| url := u; closed := false |}]) =
  if (i =? length l)%nat then true else is_open i l.
Proof.
  unfold is_open. destruct (Nat.eqb_spec i (length l)) as [-> | N].
  - rewrite nth_error_app2, Nat.sub_diag by lia. reflexivity.
  - destruct (Nat.lt_ge_cases i (length l)) as [L | G].
    + now rewrite nth_error_app1.
    + assert (E : nth_error (l ++ [{| url := u; closed := false |}]) i = None).
      { apply nth_error_None. rewrite length_app. cbn [length]. lia. }
      assert (E' : nth_error l i = None) by (apply nth_error_None; lia).
      now rewrite E, E'.
Qed.

(** The state after an error event of an open source. *)
Lemma onerror_state es s :
  App.onerror es s =
  (Returned tt,
   {| App.curriculum := App.curriculum s;
      App.submitted := App.submitted s;
      App.streaming := false;
      App.messages := App.messages s ++ [App.stream_error_entry];
      App.progress := App.progress s;
      App.requests := App.requests s;
      App.sources := close_at es (App.sources s) |}).
Proof. reflexivity. Qed.

(** X1.  An error event of an open source of [App] appends the fixed entry
    "[Stream ended or error occurred]", closes the source and ends streaming;
    nothing else changes, no later message of that source is applied, and a
    second error event does nothing. *)
Theorem stream_error_is_terminal (es : nat) (s : App.State) :
  is_open es (App.sources s) = true ->
  exec (App.dispatch_error es) s =
    {| App.curriculum := App.curriculum s;
       App.submitted := App.submitted s;
       App.streaming := false;
       App.messages :=
         App.messages s ++
         [{| App.type := "error"; App.step := JUndefined;
             App.content := JStr "[Stream ended or error occurred]" |}];
       App.progress := App.progress s;
       App.requests := App.requests s;
       App.sources := close_at es (App.sources s) |} /\
  (forall later,
     App.receive es later (exec (App.dispatch_error es) s) = exec (App.dispatch_error es) s) /\
  exec (App.dispatch_error es) (exec (App.dispatch_error es) s)
    = exec (App.dispatch_error es) s.
Proof.
  intros O.
  assert (E : exec (App.dispatch_error es) s = exec (App.onerror es) s).
  { cbv [App.dispatch_error exec bind gets when snd]. now rewrite O. }
  assert (C : is_open es (App.sources (exec (App.dispatch_error es) s)) = false).
  { rewrite E. unfold exec. rewrite onerror_state. apply is_open_close_at. }
  split.
  { rewrite E. unfold exec. now rewrite onerror_state. }
  split.
  { intros later. now apply receive_closed. }
  cbv [App.dispatch_error exec bind gets when snd] in C |- *.
  rewrite O in C |- *. cbn [snd] in C |- *.
  cbv [App.dispatch_error exec bind gets when snd]. now rewrite C.
Qed.

Lemma stream_error_is_terminal_witness :
  App.messages
    (App.receive 0 [Parsed Examples.skills_extracted]
       (exec (App.dispatch_error 0) Examples.viewing))
  = [App.stream_error_entry].
Proof.
  rewrite (proj1 (proj2 (stream_error_is_terminal 0 Examples.viewing eq_refl))).
  reflexivity.
Defined.

(** ** At most one connection, and only while streaming *)

Lemma act_Typed text s :
  App.sources (Session.act (Session.Typed text) s) = App.sources s /\
  App.streaming (Session.act (Session.Typed text) s) = App.streaming s.
Proof.
  cbv [Session.act App.onChange exec bind gets when snd App.setCurriculum modify ret].
  destruct (App.streaming s) eqn:E; cbn; rewrite ?E; split; reflexivity.
Qed.

Lemma act_Analyze s :
  App.sources (Session.act Session.Analyze s) = App.sources s /\
  App.streaming (Session.act Session.Analyze s) = App.streaming s.
Proof.
  cbv [Session.act Session.click_Analyze_begin App.handleSubmit_begin exec bind gets snd ret
       App.setMessages App.setProgress App.setSubmitted App.setStreaming App.fetch_POST modify].
  destruct (App.streaming s) eqn:E; [split; [reflexivity | cbn; now rewrite E] |].
  destruct (trim (App.curriculum s) =? "")%string; cbn; rewrite ?E; split; reflexivity.
Qed.

Lemma act_Settled r s :
  App.sources (Session.act (Session.Settled r) s) = App.sources s /\
  App.streaming (Session.act (Session.Settled r) s) = App.streaming s.
Proof.
  cbv [Session.act App.handleSubmit_resume exec try_catch throw snd
       App.setMessages App.setSubmitted modify].
  destruct r as [status | err]; [destruct (negb (ok status)) |]; split; reflexivity.
Qed.

Lemma act_ViewResults s :
  Session.act Session.ViewResults s =
  if App.submitted s && negb (App.streaming s) then exec App.handleView s else s.
Proof.
  cbv [Session.act App.click_ViewResults exec bind gets when snd ret].
  destruct (App.submitted s), (App.streaming s); reflexivity.
Qed.

Lemma owns_Typed text s :
  owns_its_stream s -> owns_its_stream (Session.act (Session.Typed text) s).
Proof.
  intros [H1 H2]. destruct (act_Typed text s) as [E1 E2].
  split; [intros i |]; rewrite ?E1, ?E2; auto.
Qed.

Lemma owns_Analyze s : owns_its_stream s -> owns_its_stream (Session.act Session.Analyze s).
Proof.
  intros [H1 H2]. destruct (act_Analyze s) as [E1 E2].
  split; [intros i |]; rewrite ?E1, ?E2; auto.
Qed.

Lemma owns_Settled r s :
  owns_its_stream s -> owns_its_stream (Session.act (Session.Settled r) s).
Proof.
  intros [H1 H2]. destruct (act_Settled r s) as [E1 E2].
  split; [intros i |]; rewrite ?E1, ?E2; auto.
Qed.

Lemma owns_ViewResults s :
  owns_its_stream s -> owns_its_stream (Session.act Session.ViewResults s).
Proof.
  intros [H1 H2]. rewrite act_ViewResults.
  destruct (App.submitted s && negb (App.streaming s)) eqn:G; [| now split].
  apply andb_prop in G as [_ G]. apply negb_true_iff in G.
  split.
  - intros i. rewrite handleView_reads_current_curriculum, is_open_app_new.
    change (App.streaming (exec App.handleView s)) with true.
    rewrite length_app. cbn [length andb].
    rewrite H1, G. cbn [andb].
    destruct (Nat.eqb_spec i (length (App.sources s))) as [-> | N].
    + symmetry. apply Nat.eqb_eq. lia.
    + symmetry. apply Nat.eqb_neq. lia.
  - intros _. rewrite handleView_reads_current_curriculum.
    intros E. apply app_eq_nil in E as [_ E]. discriminate.
Qed.

Lemma owns_closing es s s' :
  owns_its_stream s ->
  is_open es (App.sources s) = true ->
  App.sources s' = close_at es (App.sources s) ->
  App.streaming s' = false ->
  owns_its_stream s'.
Proof.
  intros [H1 H2] O E1 E2. split.
  - intros i. rewrite E1, E2. cbn [andb].
    destruct (Nat.eq_dec i es) as [-> | N]; [apply is_open_close_at |].
    rewrite is_open_close_at_other by exact N.
    rewrite H1 in O |- *. apply andb_prop in O as [-> O]. cbn [andb].
    apply Nat.eqb_eq in O. apply Nat.eqb_neq. lia.
  - rewrite E2. discriminate.
Qed.

Lemma owns_MessageEvent es data s :
  owns_its_stream s -> owns_its_stream (Session.act (Session.MessageEvent es data) s).
Proof.
  intros H. cbn [Session.act].
  destruct (is_open es (App.sources s)) eqn:O.
  - rewrite dispatch_open by exact O.
    destruct (Stream.terminal data) eqn:T.
    + apply (owns_closing es s); auto.
      * now rewrite sources_onmessage, T.
      * now rewrite streaming_onmessage, T.
    + destruct H as [H1 H2].
      split; [intros i |]; rewrite ?sources_onmessage, ?streaming_onmessage, T; auto.
  - now rewrite dispatch_closed.
Qed.

Lemma owns_ErrorEvent es s :
  owns_its_stream s -> owns_its_stream (Session.act (Session.ErrorEvent es) s).
Proof.
  intros H. cbn [Session.act].
  destruct (is_open es (App.sources s)) eqn:O.
  - apply (owns_closing es s); auto;
      cbv [App.dispatch_error exec bind gets when snd]; rewrite O; reflexivity.
  - cbv [App.dispatch_error exec bind gets when snd]. rewrite O. exact H.
Qed.

Lemma owns_run acts s : owns_its_stream s -> owns_its_stream (Session.run acts s).
Proof.
  revert s. induction acts as [| a r IH]; intros s H; [exact H |].
  cbn [Session.run fold_left]. apply IH.
  destruct a.
  - now apply owns_Typed.
  - now apply owns_Analyze.
  - now apply owns_Settled.
  - now apply owns_ViewResults.
  - now apply owns_MessageEvent.
  - now apply owns_ErrorEvent.
Qed.

Lemma owns_initial : owns_its_stream App.initial.
Proof. split; [intros i; destruct i; reflexivity | discriminate]. Qed.

Lemma some_open_existsb l i :
  is_open i l = true -> existsb (fun e => negb (closed e)) l = true.
Proof.
  unfold is_open. destruct (nth_error l i) as [e |] eqn:E; [| discriminate].
  intros H. apply existsb_exists. exists e. split; [| exact H].
  eapply nth_error_In, E.
Qed.

Lemma none_open_existsb l :
  (forall i, is_open i l = false) -> existsb (fun e => negb (closed e)) l = false.
Proof.
  intros H. destruct (existsb _ l) eqn:E; [| reflexivity].
  apply existsb_exists in E as [e [I C]].
  apply In_nth_error in I as [i N]. specialize (H i). unfold is_open in H.
  rewrite N in H. congruence.
Qed.

(** X2.  For texts made of code units 0..255, the strings of this
    development: whatever the user and the browser do to [App], in any order,
    source [i] is open exactly when the component is streaming and [i] is the
    source created last; so at most one connection is open, and the component
    is streaming exactly when one is.  (A text with a lone surrogate is not
    such a text: on it [encodeURIComponent] throws in [handleView], after
    [setStreaming(true)] and before any source exists.) *)
Theorem connection_ownership (acts : list Session.action) (i : nat) :
  is_open i (App.sources (Session.run acts App.initial))
    = App.streaming (Session.run acts App.initial)
      && (S i =? length (App.sources (Session.run acts App.initial)))%nat /\
  App.streaming (Session.run acts App.initial)
    = existsb (fun e => negb (closed e)) (App.sources (Session.run acts App.initial)).
Proof.
  destruct (owns_run acts App.initial owns_initial) as [H1 H2].
  split; [apply H1 |].
  destruct (App.streaming (Session.run acts App.initial)) eqn:S.
  - symmetry.
    apply (some_open_existsb _ (pred (length (App.sources (Session.run acts App.initial))))).
    rewrite H1. cbn [andb]. apply Nat.eqb_eq.
    specialize (H2 eq_refl).
    destruct (App.sources (Session.run acts App.initial)); [congruence | reflexivity].
  - symmetry. apply none_open_existsb. intros j. now rewrite H1.
Qed.

(** ** Submitting in [App] *)

(** X3.  Submitting a non-blank text in [App] sends, up to the [await], one
    POST with that text, empties progress and the timeline and sets
    [submitted] and [streaming] to false.  The answer, in whatever state [t]
    it arrives, changes one thing: an ok status sets [submitted]; any other
    answer replaces the timeline by one error entry and leaves [submitted] as
    it is.  When the answer follows its own submission with nothing in
    between, [submitted] ends true exactly for an ok status, and after a
    failure a click on View Results does nothing. *)
Theorem submit_outcome (s t : App.State) (r : fetch_result) :
  trim (App.curriculum s) <> "" ->
  exec App.handleSubmit_begin s =
    {| App.curriculum := App.curriculum s;
       App.submitted := false;
       App.streaming := false;
       App.messages := [];
       App.progress := [];
       App.requests :=
         App.requests s
         ++ [{| req_url := App.BACKEND_URL; curriculum_text := App.curriculum s |}];
       App.sources := App.sources s |} /\
  exec (App.handleSubmit_resume r) t =
    {| App.curriculum := App.curriculum t;
       App.submitted :=
         match r with
         | Response status => if ok status then true else App.submitted t
         | Rejected _ => App.submitted t
         end;
       App.streaming := App.streaming t;
       App.messages :=
         match r with
         | Response status =>
             if ok status then App.messages t
             else [{| App.type := "error"; App.step := JUndefined;
                      App.content := JStr ("POST failed: " ++ string_of_Z status) |}]
         | Rejected err =>
             [{| App.type := "error"; App.step := JUndefined;
                 App.content := JStr ("Error: " ++ exn_to_string err) |}]
         end;
       App.progress := App.progress t;
       App.requests := App.requests t;
       App.sources := App.sources t |} /\
  exec (App.handleSubmit r) s
    = exec (App.handleSubmit_resume r) (exec App.handleSubmit_begin s) /\
  App.submitted (exec (App.handleSubmit r) s)
    = match r with Response status => ok status | Rejected _ => false end /\
  (match r with Response status => ok status | Rejected _ => false end = false ->
   exec App.click_ViewResults (exec (App.handleSubmit r) s) = exec (App.handleSubmit r) s).
Proof.
  intros N. apply String.eqb_neq in N.
  assert (B : exec App.handleSubmit_begin s =
    {| App.curriculum := App.curriculum s;
       App.submitted := false;
       App.streaming := false;
       App.messages := [];
       App.progress := [];
       App.requests :=
         App.requests s
         ++ [{| req_url := App.BACKEND_URL; curriculum_text := App.curriculum s |}];
       App.sources := App.sources s |}).
  { cbv [App.handleSubmit_begin exec bind gets snd]. rewrite N. reflexivity. }
  assert (R : forall u, exec (App.handleSubmit_resume r) u =
    {| App.curriculum := App.curriculum u;
       App.submitted :=
         match r with
         | Response status => if ok status then true else App.submitted u
         | Rejected _ => App.submitted u
         end;
       App.streaming := App.streaming u;
       App.messages :=
         match r with
         | Response status =>
             if ok status then App.messages u
             else [{| App.type := "error"; App.step := JUndefined;
                      App.content := JStr ("POST failed: " ++ string_of_Z status) |}]
         | Rejected err =>
             [{| App.type := "error"; App.step := JUndefined;
                 App.content := JStr ("Error: " ++ exn_to_string err) |}]
         end;
       App.progress := App.progress u;
       App.requests := App.requests u;
       App.sources := App.sources u |}).
  { intros u. cbv [App.handleSubmit_resume exec try_catch throw snd
                   App.setMessages App.setSubmitted modify].
    destruct r as [status | err]; [destruct (ok status) |]; reflexivity. }
  assert (C : exec (App.handleSubmit r) s
              = exec (App.handleSubmit_resume r) (exec App.handleSubmit_begin s)).
  { cbv [App.handleSubmit App.handleSubmit_begin exec bind gets snd when]. rewrite N.
    reflexivity. }
  assert (Sub : App.submitted (exec (App.handleSubmit r) s)
              = match r with Response status => ok status | Rejected _ => false end).
  { rewrite C, R, B. cbn [App.submitted].
    destruct r as [status | err]; [destruct (ok status) |]; reflexivity. }
  split; [exact B |]. split; [apply R |]. split; [exact C |]. split; [exact Sub |].
  intros F. cbv [App.click_ViewResults bind gets when ret]. unfold exec at 1.
  rewrite Sub, F. reflexivity.
Qed.

Lemma submit_outcome_witness :
  App.submitted
    (exec (App.handleSubmit_resume (Response 500))
       (exec (App.handleSubmit (Response 200))
          (exec (App.setCurriculum "Python") App.initial))) = true /\
  exec App.click_ViewResults
    (exec (App.handleSubmit (Response 503)) (exec (App.setCurriculum "Python") App.initial))
  = exec (App.handleSubmit (Response 503)) (exec (App.setCurriculum "Python") App.initial).
Proof.
  destruct (submit_outcome (exec (App.setCurriculum "Python") App.initial)
              (exec (App.handleSubmit (Response 200))
                 (exec (App.setCurriculum "Python") App.initial))
              (Response 500) ltac:(discriminate)) as [_ [R _]].
  destruct (submit_outcome (exec (App.setCurriculum "Python") App.initial)
              App.initial (Response 503) ltac:(discriminate)) as [_ [_ [_ [_ V]]]].
  split.
  - rewrite R. reflexivity.
  - apply V. reflexivity.
Defined.

(** ** Progress and timeline during a stream *)

Lemma step_of_entry_for data :
  truthy (Stream.step_of data) = true ->
  App.step (Stream.entry_for data) = Stream.step_of data.
Proof.
  destruct data as [m | v]; [discriminate |]. cbn [Stream.step_of Stream.entry_for].
  intros T. now rewrite (truthy_field_not_nullish _ _ T).
Qed.

Lemma recorded_dispatch es data s :
  seen_steps_recorded s -> seen_steps_recorded (exec (App.dispatch_message es data) s).
Proof.
  intros H. destruct (is_open es (App.sources s)) eqn:O.
  - rewrite dispatch_open by exact O. intros v I.
    rewrite progress_onmessage in I. rewrite messages_onmessage.
    destruct (truthy (Stream.step_of data)
              && negb (includes (App.progress s) (Stream.step_of data))) eqn:C.
    + apply in_app_or in I as [I | [<- | []]].
      * destruct (H v I) as [m [Im Em]]. exists m. split; [apply in_or_app; now left | exact Em].
      * exists (Stream.entry_for data). split; [apply in_or_app; right; now left |].
        apply andb_prop in C as [T _]. now apply step_of_entry_for.
    + destruct (H v I) as [m [Im Em]]. exists m. split; [apply in_or_app; now left | exact Em].
  - now rewrite dispatch_closed.
Qed.

Lemma includes_in k l : includes l (JStr k) = true -> In (JStr k) l.
Proof.
  unfold includes. intros H. apply existsb_exists in H as [y [I E]].
  destruct y; try discriminate. cbn [sameValueZero] in E. apply String.eqb_eq in E.
  now subst.
Qed.

Lemma progress_kept es datas s v :
  In v (App.progress s) -> In v (App.progress (App.receive es datas s)).
Proof.
  revert s. induction datas as [| d r IH]; intros s I; [exact I |].
  rewrite receive_cons. apply IH. rewrite progress_dispatch.
  destruct (is_open es (App.sources s) && truthy (Stream.step_of d)
            && negb (includes (App.progress s) (Stream.step_of d))); [| exact I].
  apply in_or_app. now left.
Qed.

(** X4.  During a stream of [App], every seen step stays the step of some
    timeline entry, and every delivered event with a non-empty string step
    leaves that step in [progress]. *)
Theorem seen_steps_match_timeline (es : nat) (datas : list event_data) (s : App.State) :
  seen_steps_recorded s ->
  seen_steps_recorded (App.receive es datas s) /\
  (forall d k,
     In d (Stream.delivered (is_open es (App.sources s)) datas) ->
     Stream.step_of d = JStr k -> k <> "" ->
     In (JStr k) (App.progress (App.receive es datas s))).
Proof.
  intros H. split.
  - revert s H. induction datas as [| d r IH]; intros s H; [exact H |].
    rewrite receive_cons. apply IH. now apply recorded_dispatch.
  - clear H. revert s. induction datas as [| d r IH]; intros s x k I K N.
    + destruct (is_open es (App.sources s)); destruct I.
    + destruct (is_open es (App.sources s)) eqn:O; [| destruct I].
      cbn [Stream.delivered Stream.until_terminal] in I. rewrite receive_cons.
      assert (Here : x = d -> In (JStr k) (App.progress (exec (App.dispatch_message es d) s))).
      { intros ->. rewrite progress_dispatch, O, K. cbn [andb truthy].
        apply String.eqb_neq in N. rewrite N. cbn [negb andb].
        destruct (includes (App.progress s) (JStr k)) eqn:Inc; cbn [negb].
        - now apply includes_in.
        - apply in_or_app. right. now left. }
      destruct (Stream.terminal d) eqn:T.
      * destruct I as [<- | []]. apply progress_kept. now apply Here.
      * destruct I as [<- | I]; [apply progress_kept; now apply Here |].
        apply (IH _ x k); auto.
        rewrite dispatch_open by exact O. rewrite sources_onmessage, T, O. exact I.
Qed.

Lemma seen_steps_match_timeline_witness :
  In (JStr "jobs_fetched")
    (App.progress
       (App.receive 0 [Parsed Examples.skills_extracted; Parsed Examples.jobs_fetched]
          Examples.viewing)).
Proof.
  apply (proj2 (seen_steps_match_timeline 0
                  [Parsed Examples.skills_extracted; Parsed Examples.jobs_fetched]
                  Examples.viewing ltac:(intros v [])) (Parsed Examples.jobs_fetched)).
  - right. left. reflexivity.
  - reflexivity.
  - discriminate.
Defined.

(** ** Exporting a growing timeline *)

Lemma string_app_assoc (a b c : string) : ((a ++ b) ++ c = a ++ (b ++ c))%string.
Proof. induction a as [| x a IH]; [reflexivity |]. cbn. now rewrite IH. Qed.

Lemma concat_snoc sep (l : list string) p :
  l <> [] -> String.concat sep (l ++ [p]) = (String.concat sep l ++ sep ++ p)%string.
Proof.
  induction l as [| x r IH]; [congruence |]. intros _.
  destruct r as [| y r]; [reflexivity |].
  change (String.concat sep ((x :: y :: r) ++ [p]))
    with (x ++ sep ++ String.concat sep ((y :: r) ++ [p]))%string.
  rewrite IH by discriminate.
  change (String.concat sep (x :: y :: r)) with (x ++ sep ++ String.concat sep (y :: r))%string.
  now rewrite !string_app_assoc.
Qed.

Lemma omap_app {A B} (f : A -> outcome B) (l l' : list A) :
  omap f (l ++ l') =
  (let! a := omap f l in let! b := omap f l' in Returned (a ++ b)).
Proof.
  induction l as [| x r IH]; cbn [omap app obind].
  - destruct (omap f l'); reflexivity.
  - destruct (f x); cbn [obind]; [| reflexivity].
    rewrite IH. destruct (omap f r); cbn [obind]; [| reflexivity].
    destruct (omap f l'); reflexivity.
Qed.

Lemma omap_length {A B} (f : A -> outcome B) (l : list A) ys :
  omap f l = Returned ys -> length ys = length l.
Proof.
  revert ys. induction l as [| x r IH]; intros ys H; cbn [omap] in H.
  - injection H as <-. reflexivity.
  - destruct (f x); cbn [obind] in H; [| discriminate].
    destruct (omap f r); cbn [obind] in H; [| discriminate].
    injection H as <-. cbn [length]. f_equal. now apply IH.
Qed.

(** X5.  The export follows the timeline: after one more event the text is
    the old text, the separator and the new entry's text (the entry's text
    alone on an empty timeline), and an export that threw keeps throwing the
    same exception. *)
Theorem export_grows_with_timeline (es : nat) (data : event_data) (s : App.State) :
  (forall t,
     App.messages s <> [] ->
     App.getAnalysisText s = Returned t ->
     App.getAnalysisText (exec (App.onmessage es data) s) =
       (let! part := App.format_msg (Stream.entry_for data) in
        Returned (t ++ App.separator ++ part)%string)) /\
  (App.messages s = [] ->
   App.getAnalysisText (exec (App.onmessage es data) s)
     = App.format_msg (Stream.entry_for data)) /\
  (forall e,
     App.getAnalysisText s = Thrown e ->
     App.getAnalysisText (exec (App.onmessage es data) s) = Thrown e).
Proof.
  unfold App.getAnalysisText. rewrite messages_onmessage, omap_app.
  split; [| split].
  - intros t N H. destruct (omap App.format_msg (App.messages s)) as [parts |] eqn:E;
      cbn [obind] in H |- *; [| discriminate].
    injection H as <-. cbn [omap].
    destruct (App.format_msg (Stream.entry_for data)); cbn [obind]; [| reflexivity].
    rewrite concat_snoc; [reflexivity |].
    intros ->. apply omap_length in E. destruct (App.messages s); [congruence | discriminate].
  - intros ->. cbn [omap obind].
    destruct (App.format_msg (Stream.entry_for data)); reflexivity.
  - intros e H. destruct (omap App.format_msg (App.messages s)); cbn [obind] in H |- *;
      [discriminate | exact H].
Qed.

Lemma export_grows_with_timeline_witness :
  App.getAnalysisText
    (exec (App.onmessage 0 (Parsed Examples.rate_limited))
       (exec (App.onmessage 0 (Parsed Examples.skills_extracted)) Examples.viewing))
  = Returned ("skills_extracted:" ++ nl ++ "- Python" ++ nl ++ "- SQL"
              ++ App.separator ++ "Error: rate limited")%string.
Proof.
  rewrite (proj1 (export_grows_with_timeline 0 (Parsed Examples.rate_limited)
                    (exec (App.onmessage 0 (Parsed Examples.skills_extracted))
                       Examples.viewing))
             ("skills_extracted:" ++ nl ++ "- Python" ++ nl ++ "- SQL")%string
             ltac:(discriminate) eq_refl).
  reflexivity.
Defined.

(** ** When the export throws *)

Lemma omap_thrown_in {A B} (f : A -> outcome B) (l : list A) x e :
  In x l -> f x = Thrown e -> exists e', omap f l = Thrown e'.
Proof.
  induction l as [| y r IH]; intros I F; [destruct I |].
  cbn [omap]. destruct I as [-> | I].
  - rewrite F. now exists e.
  - destruct (f y); cbn [obind]; [| eexists; reflexivity].
    destruct (IH I F) as [e' ->]. now exists e'.
Qed.

Lemma markdown_is_object parsed :
  Classifier.kind_of parsed = Classifier.markdown -> nullish parsed = false.
Proof.
  unfold Classifier.kind_of, Classifier.step_among. intros K.
  destruct parsed; try reflexivity; cbn in K; discriminate.
Qed.

(** X6.  A markdown-step event whose stored payload is not a string (its data
    absent, empty or not text, with no message or error text to take its
    place) makes [getAnalysisText] throw from then on, whatever follows in
    the stream. *)
Theorem untyped_markdown_breaks_export
    (es : nat) (parsed : value) (later : list event_data) (s : App.State) :
  is_open es (App.sources s) = true ->
  Classifier.kind_of parsed = Classifier.markdown ->
  match Classifier.payload parsed with JStr _ => false | _ => true end = true ->
  exists e,
    App.getAnalysisText (App.receive es (Parsed parsed :: later) s) = Thrown e.
Proof.
  intros O K P.
  assert (F : exists e, App.format_msg (App.entry parsed) = Thrown e).
  { rewrite entry_classified. unfold App.format_msg. cbn [App.type App.content].
    rewrite K. cbn [Classifier.type_name String.eqb Ascii.eqb Bool.eqb].
    destruct (Classifier.payload parsed); try discriminate; eexists; reflexivity. }
  destruct F as [e F].
  unfold App.getAnalysisText.
  destruct (omap_thrown_in App.format_msg
              (App.messages (App.receive es (Parsed parsed :: later) s))
              (App.entry parsed) e) as [e' E]; [| exact F |].
  - rewrite messages_receive, O. apply in_or_app. right.
    cbn [Stream.delivered Stream.until_terminal].
    assert (H : Stream.entry_for (Parsed parsed) = App.entry parsed).
    { cbn [Stream.entry_for]. now rewrite (markdown_is_object _ K). }
    destruct (Stream.terminal (Parsed parsed)); cbn [map]; rewrite H; now left.
  - exists e'. now rewrite E.
Qed.

Lemma untyped_markdown_breaks_export_witness :
  exists e,
    App.getAnalysisText
      (App.receive 0
         [Parsed (JObj [("step", JStr "summary_generated"); ("data", JStr "")]);
          Parsed Examples.complete]
         Examples.viewing) = Thrown e.
Proof.
  exact (untyped_markdown_breaks_export 0
           (JObj [("step", JStr "summary_generated"); ("data", JStr "")])
           [Parsed Examples.complete] Examples.viewing eq_refl eq_refl eq_refl).
Defined.

(** ** Markdown in the export *)

Lemma strip_markup_clean s :
  forallb (fun c => negb (is_markup c)) (list_ascii_of_string (strip_markup s)) = true.
Proof.
  induction s as [| c r IH]; [reflexivity |].
  cbn [strip_markup]. destruct (is_markup c) eqn:M; [exact IH |].
  cbn [list_ascii_of_string forallb]. now rewrite M, IH.
Qed.

Lemma trimStart_keeps (P : ascii -> bool) s :
  forallb P (list_ascii_of_string s) = true ->
  forallb P (list_ascii_of_string (trimStart s)) = true.
Proof.
  induction s as [| c r IH]; [reflexivity |].
  cbn [trimStart]. destruct (is_white_space c); [| auto].
  cbn [list_ascii_of_string forallb]. intros H. apply andb_prop in H as [_ H]. auto.
Qed.

Lemma trimEnd_keeps (P : ascii -> bool) s :
  forallb P (list_ascii_of_string s) = true ->
  forallb P (list_ascii_of_string (trimEnd s)) = true.
Proof.
  induction s as [| c r IH]; [reflexivity |].
  cbn [list_ascii_of_string forallb]. intros H. apply andb_prop in H as [Hc Hr].
  cbn [trimEnd]. specialize (IH Hr). destruct (trimEnd r) as [| c' r'].
  - destruct (is_white_space c); [reflexivity |].
    cbn [list_ascii_of_string forallb]. now rewrite Hc.
  - cbn [list_ascii_of_string forallb] in IH |- *. now rewrite Hc, IH.
Qed.

Lemma trimEnd_cons c r :
  trimEnd (String c r) =
  match trimEnd r with
  | EmptyString => if is_white_space c then EmptyString else String c EmptyString
  | r' => String c r'
  end.
Proof. reflexivity. Qed.

Lemma trimEnd_idempotent s : trimEnd (trimEnd s) = trimEnd s.
Proof.
  induction s as [| c r IH]; [reflexivity |].
  rewrite trimEnd_cons. destruct (trimEnd r) as [| c' r'] eqn:E.
  - destruct (is_white_space c) eqn:W; [reflexivity |]. cbn [trimEnd]. now rewrite W.
  - rewrite trimEnd_cons, IH. reflexivity.
Qed.

Lemma trimStart_trimEnd s :
  trimStart s = s -> trimStart (trimEnd s) = trimEnd s.
Proof.
  destruct s as [| c r]; [reflexivity |].
  cbn [trimStart]. destruct (is_white_space c) eqn:W.
  - intros H. exfalso.
    pose proof (trimStart_head r) as T. rewrite H in T. congruence.
  - intros _. cbn [trimEnd]. destruct (trimEnd r); rewrite ?W; cbn [trimStart]; now rewrite W.
Qed.

Lemma trimStart_idempotent s : trimStart (trimStart s) = trimStart s.
Proof.
  induction s as [| c r IH]; [reflexivity |].
  cbn [trimStart]. destruct (is_white_space c) eqn:W; [exact IH |].
  cbn [trimStart]. now rewrite W.
Qed.

Lemma trim_idempotent s : trim (trim s) = trim s.
Proof.
  unfold trim. rewrite trimStart_trimEnd by apply trimStart_idempotent.
  apply trimEnd_idempotent.
Qed.

(** X7.  The exported text of a markdown entry contains none of the
    characters # * _ ` > - and has no white space left to trim. *)
Theorem markdown_export_is_plain (m : App.Msg) (c : string) :
  App.type m = "markdown" ->
  App.content m = JStr c ->
  App.format_msg m = Returned (trim (strip_markup c)) /\
  forallb (fun ch => negb (is_markup ch))
    (list_ascii_of_string (trim (strip_markup c))) = true /\
  trim (trim (strip_markup c)) = trim (strip_markup c).
Proof.
  intros T C. split; [| split].
  - unfold App.format_msg. rewrite T, C. reflexivity.
  - unfold trim. apply trimEnd_keeps, trimStart_keeps, strip_markup_clean.
  - apply trim_idempotent.
Qed.

Lemma markdown_export_is_plain_witness :
  App.format_msg
    {| App.type := "markdown"; App.step := JStr "summary_generated";
       App.content := JStr "  ## Summary of *roles* " |}
  = Returned "Summary of roles".
Proof.
  rewrite (proj1 (markdown_export_is_plain
                    {| App.type := "markdown"; App.step := JStr "summary_generated";
                       App.content := JStr "  ## Summary of *roles* " |}
                    "  ## Summary of *roles* " eq_refl eq_refl)).
  reflexivity.
Defined.

(** ** The URL of the stream *)

Lemma encodeURIComponent_cons c r :
  encodeURIComponent (String c r) =
  ((if is_unreserved c then String c EmptyString
    else if (nat_of_ascii c <? 128)%nat then percent (nat_of_ascii c)
    else percent (192 + nat_of_ascii c / 64) ++ percent (128 + nat_of_ascii c mod 64))
   ++ encodeURIComponent r)%string.
Proof. reflexivity. Qed.

Lemma unescape_char c r :
  Escaping.unescape
    ((if is_unreserved c then String c EmptyString
      else if (nat_of_ascii c <? 128)%nat then percent (nat_of_ascii c)
      else percent (192 + nat_of_ascii c / 64) ++ percent (128 + nat_of_ascii c mod 64))
     ++ r)%string
  = String c (Escaping.unescape r).
Proof.
  destruct c as [b0 b1 b2 b3 b4 b5 b6 b7].
  destruct b0, b1, b2, b3, b4, b5, b6, b7; reflexivity.
Qed.

Lemma unescape_encodeURIComponent s : Escaping.unescape (encodeURIComponent s) = s.
Proof.
  induction s as [| c r IH]; [reflexivity |].
  rewrite encodeURIComponent_cons, unescape_char. now rewrite IH.
Qed.

Lemma safe_char c :
  forallb Escaping.is_query_safe
    (list_ascii_of_string
       (if is_unreserved c then String c EmptyString
        else if (nat_of_ascii c <? 128)%nat then percent (nat_of_ascii c)
        else percent (192 + nat_of_ascii c / 64) ++ percent (128 + nat_of_ascii c mod 64))%string)
  = true.
Proof.
  destruct c as [b0 b1 b2 b3 b4 b5 b6 b7].
  destruct b0, b1, b2, b3, b4, b5, b6, b7; reflexivity.
Qed.

Lemma chars_app a b :
  list_ascii_of_string (a ++ b)%string = list_ascii_of_string a ++ list_ascii_of_string b.
Proof. induction a as [| x a IH]; [reflexivity |]. cbn. now rewrite IH. Qed.

Lemma encodeURIComponent_safe s :
  forallb Escaping.is_query_safe (list_ascii_of_string (encodeURIComponent s)) = true.
Proof.
  induction s as [| c r IH]; [reflexivity |].
  rewrite encodeURIComponent_cons, chars_app, forallb_app, safe_char, IH. reflexivity.
Qed.

(** X8.  The URL [handleView] opens is the backend URL, "?curriculum_text="
    and a query made of unreserved characters and percent signs only; the
    query reads back as the text of the field, so two different texts never
    give the same URL. *)
Theorem stream_url_carries_the_text (s : App.State) :
  exists query,
    nth_error (App.sources (exec App.handleView s)) (length (App.sources s))
      = Some {| url := (App.BACKEND_URL ++ "?curriculum_text=" ++ query)%string;
                closed := false |} /\
    forallb Escaping.is_query_safe (list_ascii_of_string query) = true /\
    Escaping.unescape query = App.curriculum s /\
    (forall s',
       nth_error (App.sources (exec App.handleView s')) (length (App.sources s'))
         = Some {| url := (App.BACKEND_URL ++ "?curriculum_text=" ++ query)%string;
                   closed := false |} ->
       App.curriculum s' = App.curriculum s).
Proof.
  exists (encodeURIComponent (App.curriculum s)).
  assert (N : forall t,
             nth_error (App.sources (exec App.handleView t)) (length (App.sources t))
             = Some {| url := (App.BACKEND_URL ++ "?curriculum_text="
                               ++ encodeURIComponent (App.curriculum t))%string;
                       closed := false |}).
  { intros t. rewrite handleView_reads_current_curriculum.
    rewrite nth_error_app2, Nat.sub_diag by lia. reflexivity. }
  split; [apply N |]. split; [apply encodeURIComponent_safe |].
  split; [apply unescape_encodeURIComponent |].
  intros s' H. rewrite N in H. injection H as H.
  rewrite <- (unescape_encodeURIComponent (App.curriculum s')), H.
  apply unescape_encodeURIComponent.
Qed.

Lemma stream_url_carries_the_text_witness :
  exists query,
    map url (App.sources Examples.viewing)
      = [(App.BACKEND_URL ++ "?curriculum_text=" ++ query)%string] /\
    Escaping.unescape query = "Python, SQL".
Proof.
  destruct (stream_url_carries_the_text
              (exec (App.click_Analyze (Response 200))
                 (exec (App.onChange "Python, SQL") App.initial)))
    as [query [N [_ [U _]]]].
  exists query. split; [| exact U].
  vm_compute in N. injection N as N. vm_compute. now rewrite <- N.
Defined.

(** ** The stepper *)

Lemma map_indexed_in {A B} (f : A -> Z -> B) xs i y :
  In y (Stepper.map_indexed f xs i) ->
  exists n x, nth_error xs n = Some x /\ y = f x (i + Z.of_nat n).
Proof.
  revert i. induction xs as [| x r IH]; intros i H; [destruct H |].
  cbn [Stepper.map_indexed] in H. destruct H as [<- | H].
  - exists 0%nat, x. split; [reflexivity | f_equal; lia].
  - destruct (IH _ H) as [n [x' [N E]]]. exists (S n), x'. split; [exact N |].
    rewrite E. f_equal. lia.
Qed.

Lemma spinner_index cur step idx p :
  Stepper.getStepIcon cur step idx cur p = Stepper.ArrowPathIcon ->
  idx = cur /\ step <> "complete" /\ p <> [].
Proof.
  unfold Stepper.getStepIcon. destruct p as [| v r]; [discriminate |].
  destruct ((step =? "complete")%string && includes (v :: r) (JStr "complete"));
    [discriminate |].
  destruct (idx <? cur); [discriminate |].
  destruct (idx =? cur) eqn:E; [| discriminate].
  destruct (step =? "complete")%string eqn:C; [discriminate |].
  intros _. apply Z.eqb_eq in E. apply String.eqb_neq in C. repeat split; auto. discriminate.
Qed.

Lemma spinners_from {A} (f : A -> Z -> Stepper.Item) cur xs i :
  (forall x idx, is_spinner (f x idx) = true -> idx = cur) ->
  (length (filter is_spinner (Stepper.map_indexed f xs i)) <= 1)%nat /\
  (cur < i -> filter is_spinner (Stepper.map_indexed f xs i) = []).
Proof.
  intros H. revert i. induction xs as [| x r IH]; intros i.
  - split; [cbn; lia | reflexivity].
  - cbn [Stepper.map_indexed filter]. destruct (IH (i + 1)) as [L Z0].
    destruct (is_spinner (f x i)) eqn:S.
    + apply H in S. split.
      * cbn [length]. rewrite Z0 by lia. reflexivity.
      * intros C. lia.
    + split; [exact L |]. intros C. apply Z0. lia.
Qed.

Lemma last_in {A} (l : list A) d : l <> [] -> In (last l d) l.
Proof.
  induction l as [| x r IH]; [congruence |]. intros _.
  destruct r as [| y r]; [now left |]. right. apply IH. discriminate.
Qed.

Lemma in_includes k l : In (JStr k) l -> includes l (JStr k) = true.
Proof.
  intros I. unfold includes. apply existsb_exists. exists (JStr k).
  split; [exact I |]. cbn. apply String.eqb_refl.
Qed.

(** X9.  The stepper shows at most one spinning arrow; the step that has it
    is the most recently seen step, is not [complete], and is the one
    rendered in bold. *)
Theorem stepper_spins_on_the_latest_step (s : App.State) :
  (length (filter is_spinner (Stepper.stepper s)) <= 1)%nat /\
  (forall item,
     In item (Stepper.stepper s) ->
     Stepper.icon item = Stepper.ArrowPathIcon ->
     last (App.progress s) JUndefined = JStr (Stepper.key item) /\
     Stepper.key item <> "complete" /\
     Stepper.class item = "flex items-center mb-2 font-bold text-blue-700").
Proof.
  split.
  - apply (spinners_from _ (App.currentStepIdx s)).
    intros x idx S. unfold is_spinner in S. cbn [Stepper.icon] in S.
    destruct (Stepper.getStepIcon _ _ _ _ _) eqn:G; try discriminate.
    now apply spinner_index in G.
  - intros item I G. unfold Stepper.stepper in I.
    apply map_indexed_in in I as [n [step [N ->]]].
    cbn [Stepper.icon Stepper.key Stepper.class] in G |- *.
    apply spinner_index in G as [E [C P]].
    assert (K : last (App.progress s) JUndefined = JStr (fst step)).
    { unfold App.currentStepIdx in E. destruct (App.progress s) as [| v r] eqn:Pr; [congruence |].
      unfold findIndex in E.
      destruct (existsb (fun st => is_str (fst st) (last (v :: r) JUndefined)) App.STEPS) eqn:X.
      - destruct (findIndex_from_some _ _ 0 X) as [_ [st [Nth Q]]].
        rewrite <- E in Nth. replace (Z.to_nat (0 + Z.of_nat n - 0)) with n in Nth by lia.
        rewrite N in Nth. injection Nth as <-.
        destruct (last (v :: r) JUndefined); try discriminate.
        cbn [is_str] in Q. apply String.eqb_eq in Q. now subst.
      - rewrite findIndex_from_none in E; [lia |].
        clear - X. induction App.STEPS as [| a l IH]; [reflexivity |].
        cbn [existsb forallb] in X |- *. apply orb_false_elim in X as [-> X]. now apply IH. }
    split; [exact K |]. split; [exact C |].
    unfold Stepper.className. destruct (App.progress s) as [| v r] eqn:Pr; [congruence |].
    rewrite <- Pr in *. rewrite <- E, Z.eqb_refl.
    rewrite in_includes; [reflexivity |].
    rewrite <- K. now apply last_in.
Qed.

Lemma stepper_spins_on_the_latest_step_witness :
  last (App.progress
          (App.receive 0 [Parsed (JObj [("step", JStr "fetching_jobs")])] Examples.viewing))
       JUndefined
  = JStr "fetching_jobs".
Proof.
  apply (proj2 (stepper_spins_on_the_latest_step
                  (App.receive 0 [Parsed (JObj [("step", JStr "fetching_jobs")])]
                     Examples.viewing))
           {| Stepper.key := "fetching_jobs";
              Stepper.class := "flex items-center mb-2 font-bold text-blue-700";
              Stepper.icon := Stepper.ArrowPathIcon;
              Stepper.label := "Fetching relevant job listings..." |}).
  - do 4 right. left. vm_compute. reflexivity.
  - reflexivity.
Defined.

(** X10.  When the most recently seen step is [complete], the current step
    is the last of the catalog and every step of the stepper shows the check
    mark. *)
Theorem stepper_complete_checks_every_step (s : App.State) :
  last (App.progress s) JUndefined = JStr "complete" ->
  map Stepper.icon (Stepper.stepper s)
    = repeat Stepper.CheckCircleIcon (length App.STEPS) /\
  App.currentStepIdx s = 13.
Proof.
  intros L.
  assert (P : App.progress s <> []).
  { intros E. rewrite E in L. discriminate. }
  assert (C : App.currentStepIdx s = 13).
  { unfold App.currentStepIdx. rewrite L. destruct (App.progress s); [congruence | reflexivity]. }
  assert (I : includes (App.progress s) (JStr "complete") = true).
  { apply in_includes. rewrite <- L. now apply last_in. }
  split; [| exact C].
  unfold Stepper.stepper. rewrite C.
  cbn [Stepper.map_indexed App.STEPS map Stepper.icon fst length repeat].
  unfold Stepper.getStepIcon. rewrite I.
  destruct (App.progress s) as [| v r]; [congruence | reflexivity].
Qed.

Lemma stepper_complete_checks_every_step_witness :
  App.currentStepIdx
    (App.receive 0 [Parsed Examples.skills_extracted; Parsed Examples.complete]
       Examples.viewing) = 13.
Proof.
  apply (stepper_complete_checks_every_step
           (App.receive 0 [Parsed Examples.skills_extracted; Parsed Examples.complete]
              Examples.viewing)).
  reflexivity.
Defined.

(** ** The chat component *)

(** What a message event does to the connection of the chat: nothing, unless
    its step is [complete]. *)
Lemma Chat_onmessage_connection es now data s :
  (Chat.sources (exec (Chat.onmessage es now data) s),
   Chat.eventSourceInstance (exec (Chat.onmessage es now data) s)) =
  if is_str "complete" (Stream.step_of data)
  then (match Chat.eventSourceInstance s with
        | Some p => close_at p (close_at es (Chat.sources s))
        | None => close_at es (Chat.sources s)
        end, None)
  else (Chat.sources s, Chat.eventSourceInstance s).
Proof.
  destruct data as [msg | parsed]; [reflexivity |]. cbn [Stream.step_of].
  cbv [Chat.onmessage exec try_catch bind JSON_parse ret lift snd].
  destruct parsed; try reflexivity.
  cbn [get]. set (p := JObj fields).
  assert (B : is_str "complete" (field "step" p) = true ->
              exists m, Chat.botMessage now p = Returned m).
  { intros C. unfold Chat.botMessage.
    destruct (field "step" p) as [| | | | k | |]; try discriminate.
    cbn [is_str] in C. apply String.eqb_eq in C. subst k. cbn.
    destruct (truthy (lookup "message" fields)); eexists; reflexivity. }
  destruct (is_str "complete" (field "step" p)) eqn:C.
  - destruct (B eq_refl) as [m ->].
    cbv [Chat.setMessages Chat.close Chat.setEventSourceInstance modify when bind gets ret].
    cbn [Chat.eventSourceInstance].
    destruct (Chat.eventSourceInstance s); reflexivity.
  - destruct (Chat.botMessage now p); [| reflexivity].
    cbv [Chat.setMessages modify when ret]. reflexivity.
Qed.





Lemma Chat_dispatch_message es now data s :
  exec (Chat.dispatch_message es now data) s =
  if is_open es (Chat.sources s) then exec (Chat.onmessage es now data) s else s.
Proof.
  cbv [Chat.dispatch_message exec bind gets when snd ret].
  destruct (is_open es (Chat.sources s)); reflexivity.
Qed.






(** X12.  In the chat component every message event of an open source adds
    exactly one chat message, and the source stays open unless the event's
    step is [complete]: neither a malformed body nor an error field ends the
    stream. *)
Theorem chat_stream_ends_only_on_complete
    (es : nat) (now : Z) (data : event_data) (s : Chat.State) :
  is_open es (Chat.sources s) = true ->
  is_open es (Chat.sources (exec (Chat.dispatch_message es now data) s))
    = negb (is_str "complete" (Stream.step_of data)) /\
  length (Chat.messages (exec (Chat.dispatch_message es now data) s))
    = S (length (Chat.messages s)).
Proof.
  intros O. rewrite Chat_dispatch_message, O. split.
  - pose proof (Chat_onmessage_connection es now data s) as C.
    destruct (is_str "complete" (Stream.step_of data)); injection C as C1 C2; rewrite C1.
    + cbn [negb]. destruct (Chat.eventSourceInstance s) as [p |].
      * destruct (Nat.eq_dec es p) as [-> | N]; [apply is_open_close_at |].
        rewrite is_open_close_at_other by exact N. apply is_open_close_at.
      * apply is_open_close_at.
    + exact O.
  - destruct (Chat_onmessage_appends es now data s) as [m [_ E]].
    rewrite E, length_app. cbn [length]. lia.
Qed.

Lemma chat_stream_ends_only_on_complete_witness :
  is_open 0
    (Chat.sources (exec (Chat.dispatch_message 0 5 Examples.not_json) Examples.chatting))
  = true.
Proof.
  rewrite (proj1 (chat_stream_ends_only_on_complete 0 5 Examples.not_json Examples.chatting
                    eq_refl)).
  reflexivity.
Defined.

(** X13.  A list-step event without data: the chat component reads a property
    of the missing data, so it records an error message and keeps the stream,
    where [App] records a list entry with no items. *)
Theorem chat_list_step_needs_data (es : nat) (now : Z) (parsed : value) (s : Chat.State) :
  Classifier.step_among Classifier.list_steps parsed = true ->
  nullish (field "data" parsed) = true ->
  (exists reason,
     Chat.messages (exec (Chat.onmessage es now (Parsed parsed)) s)
     = Chat.messages s ++
       [{| Chat.id := now; Chat.sender := "bot"; Chat.type := "error";
           Chat.content := JStr ("Error processing message: " ++ reason);
           Chat.step := JUndefined |}]) /\
  Chat.sources (exec (Chat.onmessage es now (Parsed parsed)) s) = Chat.sources s /\
  App.type (App.entry parsed) = "list" /\
  App.content (App.entry parsed) = JArr [].
Proof.
  intros L D.
  assert (Obj : nullish parsed = false).
  { unfold Classifier.step_among in L. destruct parsed; try reflexivity; discriminate. }
  assert (G : get parsed "step" = Returned (field "step" parsed)).
  { destruct parsed; try discriminate; reflexivity. }
  assert (L3 : is_str "skills_extracted" (field "step" parsed)
               || is_str "roles_identified" (field "step" parsed)
               || is_str "gaps_analyzed" (field "step" parsed) = true).
  { unfold Classifier.step_among, Classifier.list_steps in L. cbn [existsb] in L.
    rewrite orb_false_r in L. now rewrite <- orb_assoc. }
  assert (A : isArray (field "data" parsed) = false).
  { destruct (field "data" parsed); try discriminate; reflexivity. }
  assert (B : exists reason, Chat.botMessage now parsed = Thrown (TypeError reason)).
  { unfold Chat.botMessage. rewrite L3, A.
    destruct (field "data" parsed); try discriminate; eexists; reflexivity. }
  destruct B as [reason B].
  assert (NotComplete : is_str "complete" (Stream.step_of (Parsed parsed)) = false).
  { cbn [Stream.step_of].
    destruct (field "step" parsed) as [| | | | k | |]; try reflexivity.
    cbn [is_str] in L3 |- *.
    destruct (String.eqb_spec k "complete") as [-> | N]; [discriminate | reflexivity]. }
  split; [| split; [| split]].
  - exists reason.
    cbv [Chat.onmessage exec try_catch bind JSON_parse ret lift snd]. rewrite G, B.
    reflexivity.
  - pose proof (Chat_onmessage_connection es now (Parsed parsed) s) as C.
    rewrite NotComplete in C. now injection C.
  - rewrite entry_classified. cbn [App.type].
    unfold Classifier.kind_of. rewrite L.
    destruct (Classifier.step_among Classifier.markdown_steps parsed) eqn:M; [| reflexivity].
    exfalso. unfold Classifier.step_among, Classifier.markdown_steps in M.
    cbn [existsb] in M.
    destruct (field "step" parsed) as [| | | | k | |]; try discriminate.
    cbn [is_str] in M, L3.
    repeat match goal with
           | H : context [(k =? ?lit)%string] |- _ =>
               destruct (String.eqb_spec k lit); [subst k; discriminate |]
           end.
    discriminate.
  - rewrite entry_classified. cbn [App.content]. unfold Classifier.payload.
    assert (K : Classifier.kind_of parsed = Classifier.list).
    { unfold Classifier.kind_of. rewrite L.
      destruct (Classifier.step_among Classifier.markdown_steps parsed) eqn:M; [| reflexivity].
      exfalso. unfold Classifier.step_among, Classifier.markdown_steps in M.
      cbn [existsb] in M.
      destruct (field "step" parsed) as [| | | | k | |]; try discriminate.
      cbn [is_str] in M, L3.
      repeat match goal with
             | H : context [(k =? ?lit)%string] |- _ =>
                 destruct (String.eqb_spec k lit); [subst k; discriminate |]
             end.
      discriminate. }
    rewrite K, A. unfold get_opt. rewrite D. reflexivity.
Qed.

Lemma chat_list_step_needs_data_witness :
  App.content (App.entry (JObj [("step", JStr "gaps_analyzed")])) = JArr [] /\
  Chat.sources (exec (Chat.onmessage 0 7 (Parsed (JObj [("step", JStr "gaps_analyzed")])))
                  Examples.chatting)
  = Chat.sources Examples.chatting.
Proof.
  destruct (chat_list_step_needs_data 0 7 (JObj [("step", JStr "gaps_analyzed")])
              Examples.chatting eq_refl eq_refl) as [_ [S [_ C]]].
  split; [exact C | exact S].
Defined.

(** X14.  A chat submission that is answered with a non-ok status or not at
    all still echoes the user's text and clears the input, then adds one
    error message ("Error: HTTP error! status: N", or the rejection's
    message) and opens no event source. *)
Theorem chat_failed_submission (s : Chat.State) (now later : Z) (r : fetch_result) :
  trim (Chat.inputValue s) <> "" ->
  match r with Response status => ok status | Rejected _ => false end = false ->
  Chat.messages (exec (Chat.handleSubmit now later r) s)
    = Chat.messages s ++
      [{| Chat.id := now; Chat.sender := "user"; Chat.type := "text";
          Chat.content := JStr (Chat.inputValue s); Chat.step := JUndefined |};
       {| Chat.id := later; Chat.sender := "bot"; Chat.type := "error";
          Chat.content :=
            JStr ("Error: " ++
                  match r with
                  | Response status => "HTTP error! status: " ++ string_of_Z status
                  | Rejected err => exn_message err
                  end);
          Chat.step := JUndefined |}] /\
  Chat.inputValue (exec (Chat.handleSubmit now later r) s) = "" /\
  map url (Chat.sources (exec (Chat.handleSubmit now later r) s)) = map url (Chat.sources s) /\
  Chat.requests (exec (Chat.handleSubmit now later r) s)
    = Chat.requests s ++
      [{| req_url := Chat.backendUrl s; curriculum_text := Chat.inputValue s |}].
Proof.
  intros N F. apply String.eqb_neq in N.
  cbv [Chat.handleSubmit Chat.handleSubmit_begin Chat.handleSubmit_resume
       exec bind gets try_catch throw snd]. rewrite N.
  cbv [Chat.setMessages Chat.setInputValue Chat.fetch_POST Chat.close modify ret].
  cbn [Chat.eventSourceInstance].
  destruct r as [status | err].
  - rewrite F. cbn [negb].
    destruct (Chat.eventSourceInstance s); cbn; rewrite <- ?app_assoc, ?map_url_close_at;
      repeat split.
  - destruct (Chat.eventSourceInstance s); cbn; rewrite <- ?app_assoc, ?map_url_close_at;
      repeat split.
Qed.

Lemma chat_failed_submission_witness :
  map Chat.content
    (Chat.messages
       (exec (Chat.handleSubmit 1 2 (Response 500))
          (exec (Chat.setInputValue "Python") Chat.initial)))
  = [JStr "Python"; JStr "Error: HTTP error! status: 500"].
Proof.
  rewrite (proj1 (chat_failed_submission (exec (Chat.setInputValue "Python") Chat.initial)
                    1 2 (Response 500) ltac:(discriminate) eq_refl)).
  reflexivity.
Defined.

(** ** The stand-alone page *)



Lemma Page_dispatch_message es raw data s :
  exec (PageStream.dispatch_message es raw data) s =
  if is_open es (Page.sources s) then exec (PageStream.onmessage es raw data) s else s.
Proof.
  cbv [PageStream.dispatch_message exec bind gets when snd ret].
  destruct (is_open es (Page.sources s)); reflexivity.
Qed.

Lemma Page_dispatch_error es s :
  exec (PageStream.dispatch_error es) s =
  if is_open es (Page.sources s) then exec (PageStream.onerror es) s else s.
Proof.
  cbv [PageStream.dispatch_error exec bind gets when snd ret].
  destruct (is_open es (Page.sources s)); reflexivity.
Qed.

(** A message event leaves [lastCurriculum] and the alerts alone and never
    removes a source. *)
Lemma Page_onmessage_frame es raw data s :
  Page.lastCurriculum (exec (PageStream.onmessage es raw data) s) = Page.lastCurriculum s /\
  Page.alerts (exec (PageStream.onmessage es raw data) s) = Page.alerts s /\
  length (Page.sources (exec (PageStream.onmessage es raw data) s)) = length (Page.sources s).
Proof.
  cbv [PageStream.onmessage exec bind try_catch JSON_parse lift ret snd
       PageStream.append_output modify].
  destruct data as [m | parsed]; [repeat split |].
  destruct parsed; try (repeat split; fail);
    cbn [get]; cbv [when PageStream.close Page.set_disabled modify bind ret];
    match goal with |- context [if ?b then _ else _] => destruct b end;
    cbn; rewrite ?length_close_at; repeat split.
Qed.

Lemma nonempty_length {A} (l : list A) : l <> [] <-> length l <> 0%nat.
Proof. destruct l; cbn; split; congruence. Qed.

Lemma page_invariant_act a c : page_invariant c -> page_invariant (PageStream.act a c).
Proof.
  intros [V [Src [P A]]]. destruct a as [text | | k r | | es raw data | es].
  - split; [| split; [| split]]; auto.
  - cbn [PageStream.act].
    cbv [Page.submitBtn_onclick_begin bind gets].
    destruct (trim (Page.curriculum_value (PageStream.page c)) =? "")%string eqn:E.
    + cbv [Page.alert modify ret]. cbn.
      split; [| split; [| split]]; auto.
      apply Forall_app. split; [exact A | now constructor].
    + cbv [Page.set_output Page.set_disabled Page.fetch_POST modify ret]. cbn.
      split; [discriminate |]. split; [exact Src |]. split; [| exact A].
      apply Forall_app. split; [exact P |]. constructor; [| constructor].
      now apply String.eqb_neq.
  - cbn [PageStream.act]. destruct (nth_error (PageStream.pending c) k) as [cur |] eqn:N;
      [| now split; [| split; [| split]]].
    assert (Cur : cur <> "").
    { rewrite Forall_forall in P. apply P. eapply nth_error_In, N. }
    assert (P' : Forall (fun text => text <> "")
                   (firstn k (PageStream.pending c) ++ skipn (S k) (PageStream.pending c))).
    { rewrite Forall_forall in P |- *. intros x I. apply P.
      apply in_app_or in I as [I | I].
      - rewrite <- (firstn_skipn k). apply in_or_app. now left.
      - rewrite <- (firstn_skipn (S k)). apply in_or_app. now right. }
    cbv [Page.submitBtn_onclick_resume exec try_catch throw snd].
    destruct r as [status | err].
    + destruct (negb (ok status)); cbn; (split; [| split; [| split]]); auto.
    + cbn. split; [| split; [| split]]; auto.
  - cbn [PageStream.act].
    cbv [Page.click_view exec bind gets when snd ret].
    destruct (Page.viewBtn_disabled (PageStream.page c)) eqn:D; cbn [negb];
      [unfold page_invariant; cbn [PageStream.page PageStream.pending];
       split; [intros H; rewrite D in H; discriminate | split; [| split]]; auto |].
    specialize (V eq_refl). apply String.eqb_neq in V.
    cbv [Page.viewBtn_onclick bind gets]. rewrite V.
    cbv [Page.set_output Page.set_disabled Page.new_EventSource modify ret]. cbn.
    apply String.eqb_neq in V.
    split; [discriminate |]. split; [auto |]. split; auto.
  - cbn [PageStream.act]. rewrite Page_dispatch_message.
    destruct (is_open es (Page.sources (PageStream.page c))) eqn:O;
      [| now split; [| split; [| split]]].
    assert (L : Page.lastCurriculum (PageStream.page c) <> "").
    { apply Src. intros E. rewrite E in O. destruct es; discriminate. }
    destruct (Page_onmessage_frame es raw data (PageStream.page c)) as [F1 [F2 F3]].
    unfold page_invariant. cbn [PageStream.page PageStream.pending].
    rewrite F1, F2. split; [| split; [| split]]; auto.
  - cbn [PageStream.act]. rewrite Page_dispatch_error.
    destruct (is_open es (Page.sources (PageStream.page c))) eqn:O;
      [| now split; [| split; [| split]]].
    assert (L : Page.lastCurriculum (PageStream.page c) <> "").
    { apply Src. intros E. rewrite E in O. destruct es; discriminate. }
    cbn. split; [| split; [| split]]; auto.
Qed.

(** X16.  On the stand-alone page, View Analysis is enabled, and an event
    source exists, only after a successful submission has recorded a text;
    the alert "Please submit your curriculum first." is never shown. *)
Theorem page_view_needs_a_submission (acts : list PageStream.action) :
  (Page.viewBtn_disabled (PageStream.page (PageStream.run acts PageStream.initial)) = false ->
   Page.lastCurriculum (PageStream.page (PageStream.run acts PageStream.initial)) <> "") /\
  (Page.sources (PageStream.page (PageStream.run acts PageStream.initial)) <> [] ->
   Page.lastCurriculum (PageStream.page (PageStream.run acts PageStream.initial)) <> "") /\
  ~ In "Please submit your curriculum first."
      (Page.alerts (PageStream.page (PageStream.run acts PageStream.initial))).
Proof.
  assert (I : page_invariant (PageStream.run acts PageStream.initial)).
  { assert (G : forall c, page_invariant c -> page_invariant (PageStream.run acts c)).
    { induction acts as [| a r IH]; intros c H; [exact H |].
      cbn [PageStream.run fold_left]. apply IH. now apply page_invariant_act. }
    apply G. split; [discriminate |]. split; [intros H; now contradiction H |].
    split; constructor. }
  destruct I as [V [Src [_ A]]]. split; [exact V |]. split; [exact Src |].
  intros H. rewrite Forall_forall in A. apply A in H. discriminate.
Qed.

Lemma page_view_needs_a_submission_witness :
  Page.lastCurriculum
    (PageStream.page
       (PageStream.run
          [PageStream.ViewClick; PageStream.Typed " Python "; PageStream.SubmitClick;
           PageStream.Typed ""; PageStream.Settled 0 (Response 200)]
          PageStream.initial)) <> "".
Proof.
  apply (proj1 (page_view_needs_a_submission
                  [PageStream.ViewClick; PageStream.Typed " Python "; PageStream.SubmitClick;
                   PageStream.Typed ""; PageStream.Settled 0 (Response 200)])).
  reflexivity.
Defined.

(** ** CurriculumAnalysis *)



(** X18.  In CurriculumAnalysis [loading] is true while the request is out
    and false once it is answered, on every path: ok, non-ok status,
    rejection; [submitted] is true exactly for an ok response. *)
Theorem analysis_submit_clears_loading (s : Analysis.State) (r : fetch_result) :
  trim (Analysis.curriculum s) <> "" ->
  Analysis.loading (exec Analysis.handleSubmit_begin s) = true /\
  Analysis.loading (exec (Analysis.handleSubmit r) s) = false /\
  Analysis.submitted (exec (Analysis.handleSubmit r) s)
    = match r with Response status => ok status | Rejected _ => false end /\
  Analysis.output (exec (Analysis.handleSubmit r) s)
    = match r with
      | Response status =>
          if ok status then []
          else [Analysis.error_item ("POST failed: " ++ string_of_Z status)]
      | Rejected err => [Analysis.error_item ("Error: " ++ exn_to_string err)]
      end /\
  Analysis.sources (exec (Analysis.handleSubmit r) s) = Analysis.sources s.
Proof.
  intros N. apply String.eqb_neq in N.
  cbv [Analysis.handleSubmit Analysis.handleSubmit_begin Analysis.handleSubmit_resume
       exec bind gets snd when try_catch throw]. rewrite N.
  cbv [Analysis.setOutput Analysis.setLoading Analysis.setSubmitted Analysis.fetch_POST
       modify ret bind].
  destruct r as [status | err]; [destruct (ok status) |]; cbn; repeat split.
Qed.

Lemma analysis_submit_clears_loading_witness :
  Analysis.loading
    (exec (Analysis.handleSubmit (Rejected (TypeError "Failed to fetch")))
       {| Analysis.curriculum := "Python"; Analysis.output := [];
          Analysis.loading := false; Analysis.submitted := true;
          Analysis.eventSourceRef := None;
          Analysis.requests := []; Analysis.sources := [] |}) = false.
Proof.
  apply (analysis_submit_clears_loading
           {| Analysis.curriculum := "Python"; Analysis.output := [];
              Analysis.loading := false; Analysis.submitted := true;
              Analysis.eventSourceRef := None;
              Analysis.requests := []; Analysis.sources := [] |}
           (Rejected (TypeError "Failed to fetch"))).
  discriminate.
Defined.

(** ** The second component of StreamingChatInterface.jsx *)

(** The state a message event leaves in the second component. *)
Lemma Legacy_onmessage_state es data s :
  exec (Legacy.onmessage es data) s =
  {| Legacy.curriculum := Legacy.curriculum s;
     Legacy.submitted := Legacy.submitted s;
     Legacy.streaming := if Stream.terminal data then false else Legacy.streaming s;
     Legacy.messages := Legacy.messages s ++ [Stream.entry_for data];
     Legacy.markdownSections := Legacy.markdownSections s ++ Legacy.section_of data;
     Legacy.requests := Legacy.requests s;
     Legacy.sources :=
       if Stream.terminal data then close_at es (Legacy.sources s) else Legacy.sources s |}.
Proof.
  destruct s as [cur sub str msgs secs reqs srcs].
  destruct data as [m | parsed].
  { cbn. now rewrite app_nil_r. }
  destruct parsed; try (cbn; now rewrite app_nil_r).
  cbv [Legacy.onmessage exec try_catch bind JSON_parse ret lift get snd].
  cbn [Stream.terminal Stream.entry_for Legacy.section_of nullish orb].
  unfold App.entry, App.msgType, Legacy.choose_msgType.
  set (p := JObj fields).
  destruct (is_str "summary_generated" (field "step" p)
            || is_str "major_project_generated" (field "step" p)
            || is_str "mini_projects_generated" (field "step" p)).
  - cbv [bind Legacy.setMarkdownSections Legacy.setMessages Legacy.close Legacy.setStreaming
         modify ret when].
    destruct (is_str "complete" (field "step" p) || truthy (field "error" p)); reflexivity.
  - rewrite app_nil_r.
    destruct (is_str "skills_extracted" (field "step" p)
              || is_str "roles_identified" (field "step" p)
              || is_str "gaps_analyzed" (field "step" p));
      [| destruct (is_str "jobs_fetched" (field "step" p));
         [| destruct (truthy (field "error" p)) eqn:E]];
      cbv [bind Legacy.setMessages Legacy.close Legacy.setStreaming modify ret when];
      rewrite ?orb_true_r, ?orb_false_r;
      try (destruct (is_str "complete" (field "step" p) || truthy (field "error" p)));
      try (destruct (is_str "complete" (field "step" p)));
      reflexivity.
Qed.

Lemma App_onmessage_frame es data s :
  App.curriculum (exec (App.onmessage es data) s) = App.curriculum s /\
  App.submitted (exec (App.onmessage es data) s) = App.submitted s /\
  App.requests (exec (App.onmessage es data) s) = App.requests s.
Proof.
  unfold exec. rewrite onmessage_state. cbn [snd].
  destruct (Stream.rejected data); [repeat split |].
  destruct data as [m | parsed]; [repeat split |].
  cbv [exec snd App.setMessages App.setProgress App.close App.setStreaming modify].
  repeat match goal with |- context [if ?b then _ else _] => destruct b end; repeat split.
Qed.

Lemma Legacy_dispatch_message es data s :
  exec (Legacy.dispatch_message es data) s =
  if is_open es (Legacy.sources s) then exec (Legacy.onmessage es data) s else s.
Proof.
  cbv [Legacy.dispatch_message exec bind gets when snd ret].
  destruct (is_open es (Legacy.sources s)); reflexivity.
Qed.

Lemma without_progress_eq a b :
  App.curriculum a = App.curriculum b -> App.submitted a = App.submitted b ->
  App.streaming a = App.streaming b -> App.messages a = App.messages b ->
  App.requests a = App.requests b -> App.sources a = App.sources b ->
  Legacy.without_progress a = Legacy.without_progress b.
Proof. unfold Legacy.without_progress. now intros -> -> -> -> -> ->. Qed.

Lemma same_timeline_step es data l a :
  Legacy.shared l = Legacy.without_progress a ->
  Legacy.shared (exec (Legacy.dispatch_message es data) l)
    = Legacy.without_progress (exec (App.dispatch_message es data) a).
Proof.
  intros H. unfold Legacy.shared, Legacy.without_progress in H. injection H as H1 H2 H3 H4 H5 H6.
  rewrite Legacy_dispatch_message, H6.
  destruct (is_open es (App.sources a)) eqn:O.
  - rewrite dispatch_open by exact O. rewrite Legacy_onmessage_state.
    destruct (App_onmessage_frame es data a) as [F1 [F2 F3]].
    unfold Legacy.shared, Legacy.without_progress.
    cbn [Legacy.curriculum Legacy.submitted Legacy.streaming Legacy.messages
         Legacy.requests Legacy.sources].
    rewrite F1, F2, F3, messages_onmessage, sources_onmessage, streaming_onmessage.
    now rewrite H1, H2, H3, H4, H5, H6.
  - rewrite dispatch_closed by exact O. unfold Legacy.shared, Legacy.without_progress.
    now rewrite H1, H2, H3, H4, H5, H6.
Qed.

(** X19.  The second component of StreamingChatInterface.jsx and [App] build
    the same timeline: started from states that agree, they agree after any
    sequence of events on the text, the flags, the timeline, the requests and
    the sources. *)
Theorem legacy_builds_the_same_timeline
    (es : nat) (datas : list event_data) (l : Legacy.State) (a : App.State) :
  Legacy.shared l = Legacy.without_progress a ->
  Legacy.shared (Legacy.receive es datas l)
    = Legacy.without_progress (App.receive es datas a).
Proof.
  revert l a. induction datas as [| d r IH]; intros l a H; [exact H |].
  cbn [Legacy.receive App.receive fold_left]. apply IH. now apply same_timeline_step.
Qed.

Lemma legacy_builds_the_same_timeline_witness :
  Legacy.messages
    (Legacy.receive 0 [Parsed Examples.skills_extracted; Parsed Examples.complete]
       (exec Legacy.handleView
          {| Legacy.curriculum := "Python, SQL"; Legacy.submitted := true;
             Legacy.streaming := false; Legacy.messages := []; Legacy.markdownSections := [];
             Legacy.requests := App.requests Examples.viewing; Legacy.sources := [] |}))
  = App.messages
      (App.receive 0 [Parsed Examples.skills_extracted; Parsed Examples.complete]
         Examples.viewing).
Proof.
  pose proof (legacy_builds_the_same_timeline 0
                [Parsed Examples.skills_extracted; Parsed Examples.complete]
                (exec Legacy.handleView
                   {| Legacy.curriculum := "Python, SQL"; Legacy.submitted := true;
                      Legacy.streaming := false; Legacy.messages := [];
                      Legacy.markdownSections := [];
                      Legacy.requests := App.requests Examples.viewing;
                      Legacy.sources := [] |})
                Examples.viewing eq_refl) as H.
  exact (f_equal App.messages H).
Defined.

(** X20.  [markdownSections] grows by the data field of each delivered
    markdown-step event, in order, and by nothing else. *)
Theorem legacy_collects_markdown_data
    (es : nat) (datas : list event_data) (s : Legacy.State) :
  Legacy.markdownSections (Legacy.receive es datas s)
    = Legacy.markdownSections s
      ++ flat_map Legacy.section_of
           (Stream.delivered (is_open es (Legacy.sources s)) datas).
Proof.
  destruct (is_open es (Legacy.sources s)) eqn:O; cbn [Stream.delivered].
  - revert s O. induction datas as [| d r IH]; intros s O.
    + cbn. now rewrite app_nil_r.
    + cbn [Legacy.receive fold_left]. rewrite Legacy_dispatch_message, O.
      cbn [Stream.until_terminal]. destruct (Stream.terminal d) eqn:T.
      * assert (C : is_open es (Legacy.sources (exec (Legacy.onmessage es d) s)) = false).
        { rewrite Legacy_onmessage_state. cbn [Legacy.sources]. rewrite T.
          apply is_open_close_at. }
        assert (R : forall ds t, is_open es (Legacy.sources t) = false ->
                      fold_left (fun s data => exec (Legacy.dispatch_message es data) s) ds t = t).
        { induction ds as [| x ds IHd]; intros t Ct; [reflexivity |].
          cbn [fold_left]. rewrite Legacy_dispatch_message, Ct. now apply IHd. }
        rewrite R by exact C. rewrite Legacy_onmessage_state. cbn. now rewrite app_nil_r.
      * change (fold_left (fun s data => exec (Legacy.dispatch_message es data) s) r
                  (exec (Legacy.onmessage es d) s))
          with (Legacy.receive es r (exec (Legacy.onmessage es d) s)).
        rewrite IH.
        -- rewrite Legacy_onmessage_state. cbn [Legacy.markdownSections flat_map].
           now rewrite <- app_assoc.
        -- rewrite Legacy_onmessage_state. cbn [Legacy.sources]. now rewrite T.
  - assert (R : forall ds t, is_open es (Legacy.sources t) = false ->
                  Legacy.receive es ds t = t).
    { induction ds as [| x ds IHd]; intros t Ct; [reflexivity |].
      cbn [Legacy.receive fold_left]. rewrite Legacy_dispatch_message, Ct. now apply IHd. }
    rewrite R by exact O. cbn. now rewrite app_nil_r.
Qed.
